(** * Krita Work Timer: the timer automaton and the cognitive profile

    A shallow embedding of [krita_work_timer/cognitive_profile.py] and
    [krita_work_timer/timer_manager.py], and of the handlers of
    [krita_work_timer/work_timer_extension.py] that join the two, with
    the settings of [krita_work_timer/storage.py] they use.

    - Python [int] is [Z]; Python [float] is the kernel's binary64 [float]:
      [+], [-], [*], [/], [sqrt], [abs] and the comparisons are the IEEE 754
      operations CPython runs, and evaluate to the same doubles.
    - A Python exception is [None] in the option monad; a division by a
      non-zero literal cannot raise and is written as the IEEE quotient.
    - A [dict] is an association list in insertion order (Python dicts keep
      it, and [_get_bucket] reads the last key).
    - Qt signals are the list of emitted [Signal]s a method returns.
    - The wall clock, the local hour and libm's [pow] are inputs ([Env]). *)

From Stdlib Require Import ZArith List String Bool Lia.
From Stdlib Require Import Floats.
From Stdlib Require Uint63.
From Stdlib Require Import DecimalString.
Import ListNotations.

Set Warnings "-inexact-float".
Open Scope Z_scope.

(** ** Python numerics *)

Module Py.

(** [float(n)]: the nearest double, ties to even.  CPython raises
    [OverflowError] from 2^1024 on; this model yields an infinity there
    instead, counters being incremented one at a time.  Below 2^53 the
    double is [n] itself ([FloatFacts.float_of_int_exact]), and
    [record_validation] is stated to return where the ints it converts
    are in that range ([Profile.converts_exactly]). *)
Definition float_of_int (n : Z) : float :=
  SF2Prim (binary_normalize prec emax n 0 false).

(** [a / b] on two ints.  CPython rounds the exact quotient once; for
    operands below 2^53 that is the quotient of the two doubles. *)
Definition int_truediv (a b : Z) : option float :=
  if b =? 0 then None else Some (float_of_int a / float_of_int b)%float.

(** [x / y] on floats raises [ZeroDivisionError] on a zero divisor. *)
Definition float_div (x y : float) : option float :=
  if (y =? 0)%float then None else Some (x / y)%float.

(** [int(x)]: truncation toward zero; it raises on infinities and NaN. *)
Definition int_of_float (x : float) : option Z :=
  match Prim2SF x with
  | S754_zero _ => Some 0
  | S754_finite s m e => Some (cond_Zopp s (Z.shiftl (Zpos m) e))
  | S754_infinity _ | S754_nan => None
  end.

(** [min(a, b)] keeps [a] unless [b < a]; [max(a, b)] keeps [a] unless
    [b > a].  With a NaN argument the comparison is false. *)
Definition min (a b : float) : float := if (b <? a)%float then b else a.
Definition max (a b : float) : float := if (a <? b)%float then b else a.

(** [math.sqrt] raises [ValueError] below zero. *)
Definition sqrt (x : float) : option float :=
  if (x <? 0)%float then None else Some (PrimFloat.sqrt x).

(** [xs[-n:]] *)
Definition last_n {A} (n : nat) (xs : list A) : list A :=
  skipn (List.length xs - n) xs.

(** [str(n)] for an int. *)
Definition str (n : Z) : string := NilZero.string_of_int (Z.to_int n).

Definition bind {A B} (x : option A) (k : A -> option B) : option B :=
  match x with Some a => k a | None => None end.

(** Dict operations on insertion-ordered association lists. *)
Fixpoint dict_get {V} (d : list (string * V)) (k : string) : option V :=
  match d with
  | [] => None
  | (k', v) :: r => if String.eqb k' k then Some v else dict_get r k
  end.

Definition dict_values {V} (d : list (string * V)) : list V := map snd d.
Definition dict_keys {V} (d : list (string * V)) : list string := map fst d.

(** [d[k] = f(d[k])] for a key that may be absent (then nothing changes). *)
Fixpoint dict_adjust {V} (f : V -> V) (d : list (string * V)) (k : string)
  : list (string * V) :=
  match d with
  | [] => []
  | (k', v) :: r =>
      if String.eqb k' k then (k', f v) :: r else (k', v) :: dict_adjust f r k
  end.

(** [d[k] = v]: overwrite in place, or append a new key. *)
Fixpoint dict_set {V} (d : list (string * V)) (k : string) (v : V)
  : list (string * V) :=
  match d with
  | [] => [(k, v)]
  | (k', v') :: r =>
      if String.eqb k' k then (k', v) :: r else (k', v') :: dict_set r k v
  end.

(** Signs of doubles, read on their [spec_float] form: [x >= 0] or [x]
    is NaN; [x] is a zero, an infinity or a finite number of sign [s]. *)
Definition sf_nonneg (x : spec_float) : Prop :=
  match x with
  | S754_nan | S754_zero _ => True
  | S754_infinity s | S754_finite s _ _ => s = false
  end.

Definition sf_signed (s : bool) (x : spec_float) : Prop :=
  match x with
  | S754_nan => False
  | S754_zero s' | S754_infinity s' | S754_finite s' _ _ => s' = s
  end.

Definition nonneg_or_nan (x : float) : Prop := sf_nonneg (Prim2SF x).

End Py.

Notation "x <- e ;; k" := (Py.bind e (fun x => k))
  (at level 61, e at next level, right associativity).
Notation "' p <- e ;; k" := (Py.bind e (fun p => k))
  (at level 61, p pattern, e at next level, right associativity).

(** ** Rounding to a double, on integers

    What [SpecFloat]'s shifting and rounding compute, written as integer
    arithmetic: the notions the facts about [float(n)] and [n * 0.95]
    are stated with.  A positive double is a pair [(m, e)] for
    [m * 2^e]. *)

Module Rounding.

(** The register of [shr] after [k] shifts of [m]: the quotient by
    [2^k], the round bit and the sticky bit. *)
Definition shr_state (m k : Z) : shr_record :=
  {| shr_m := m / 2 ^ k;
     shr_r := 2 ^ k <=? 2 * (m mod 2 ^ k);
     shr_s := negb ((2 * (m mod 2 ^ k)) mod 2 ^ k =? 0) |}.

(** [m / 2^k] rounded to the nearest integer, ties to even. *)
Definition rne (m k : Z) : Z :=
  let q := m / 2 ^ k in
  match 2 * (m mod 2 ^ k) ?= 2 ^ k with
  | Lt => q
  | Eq => if Z.even q then q else q + 1
  | Gt => q + 1
  end.

(** The double of mantissa [r] and exponent [f] that a rounding ends
    with: a mantissa that reached 2^53 is halved, and an exponent above
    971 is an infinity. *)
Definition pack (sx : bool) (r f : Z) : spec_float :=
  let r' := if r =? 2 ^ 53 then 2 ^ 52 else r in
  let f' := if r =? 2 ^ 53 then f + 1 else f in
  match r' with
  | 0 => S754_zero sx
  | Zpos q => if f' <=? 971 then S754_finite sx q f' else S754_infinity sx
  | Zneg _ => S754_nan
  end.

(** [m] rounded to 53 bits. *)
Definition round53 (m : Z) : Z := rne m (Zdigits2 m - 53).

Definition norm (rf : Z * Z) : Z * Z :=
  if fst rf =? 2 ^ 53 then (2 ^ 52, snd rf + 1) else rf.

(** The 53-bit mantissa and the exponent of [m * 2^e] rounded. *)
Definition round_pair (me : Z * Z) : Z * Z :=
  norm (round53 (fst me), snd me + Zdigits2 (fst me) - 53).

(** [x <= y] as values, for pairs whose exponents are in that order. *)
Definition vle (x y : Z * Z) : Prop :=
  snd x <= snd y /\ fst x <= fst y * 2 ^ (snd y - snd x).

Definition finite_of (sx : bool) (rf : Z * Z) : spec_float :=
  match fst rf with
  | 0 => S754_zero sx
  | Zpos q =>
      if snd rf <=? 971 then S754_finite sx q (snd rf) else S754_infinity sx
  | Zneg _ => S754_nan
  end.

(** A positive int as [binary_round] aligns it before rounding: shifted
    left to 53 bits when it is shorter. *)
Definition aligned (c : Z) : Z * Z :=
  if Zdigits2 c <? 53
  then (c * 2 ^ (53 - Zdigits2 c), Zdigits2 c - 53)
  else (c, 0).

End Rounding.

(** ** cognitive_profile.py: data model *)

Inductive PausePattern :=
| MICRO_THINKING | PLANNING_PAUSE | CONTEXT_SWITCH | BREAK | UNKNOWN.

Inductive ConfidenceDecision := AUTO_ACCEPT | AUTO_DISCARD | ASK_USER.

Record ActivityBurst := {
  ab_timestamp : float;
  ab_duration_seconds : float;
  intensity : float;
  event_count : Z
}.

Record PauseEvent := {
  pe_timestamp : float;
  duration_seconds : Z;
  was_validated : bool;
  pattern : PausePattern;
  pre_pause_intensity : float;
  session_age_minutes : Z;
  hour_of_day : Z;
  project_hash : option string
}.

Record IdleBucket := {
  min_seconds : Z;
  max_seconds : Z;
  total_count : Z;
  validated_count : Z
}.

Record ProjectModifier := {
  file_hash : string;
  last_filename : string;
  pm_total_validations : Z;
  pm_total_rejections : Z;
  avg_validated_idle : float;
  session_count : Z;
  total_work_time : Z
}.

(** What a call reads from outside the profile: [time.time()] as read for
    the session age ([now]) and for an event's timestamp ([stamp]),
    [datetime.now().hour], and [float ** int] (libm's [pow]). *)
Record Env := {
  now : float;
  stamp : float;
  hour : Z;
  fpow : float -> Z -> float
}.

Record CognitiveProfile := {
  _buckets : list (string * IdleBucket);
  _recent_pauses : list PauseEvent;
  _max_recent_pauses : nat;
  _activity_bursts : list ActivityBurst;
  _session_start_time : float;
  _consecutive_validated : Z;
  _consecutive_rejected : Z;
  _project_modifiers : list (string * ProjectModifier);
  _total_validations : Z;
  _total_rejections : Z;
  _longest_validated_streak : Z;
  _current_streak : Z;
  (** an int until [record_focus_regained] subtracts 0.5; kept as a double *)
  _focus_lost_count : float;
  _repeated_rejection_patterns : list (Z * float);
  _user_bias : float;
  _implicit_trust_enabled : bool
}.

(** The diagnostic dictionary [calculate_confidence] returns third. *)
Record Factors := {
  f_bucket_rate : float;
  f_bucket_confidence : float;
  f_pre_pause_intensity : float;
  f_session_age_minutes : float;
  f_session_factor : float;
  f_hour_of_day : Z;
  f_time_factor : float;
  f_streak_factor : float;
  f_project_validation_rate : option float;
  f_project_phase : option string;
  f_project_factor : float;
  f_negative_adjustment : float;
  f_user_bias : float;
  f_final_confidence : float
}.

Module Profile.

Definition BUCKET_RANGES : list (Z * Z) :=
  [(0, 180); (180, 420); (420, 900); (900, 1500); (1500, 3600)].

Definition AUTO_ACCEPT_THRESHOLD : float := 0.85.
Definition AUTO_DISCARD_THRESHOLD : float := 0.20.
Definition DECAY_FACTOR : float := 0.95.
Definition MIN_SAMPLES_FOR_AUTO : Z := 10.
Definition TRUST_LEVEL_HIGH : float := 0.8.
Definition TRUST_LEVEL_MEDIUM : float := 0.5.

(** [f"{min_sec}-{max_sec}"] *)
Definition range_key (r : Z * Z) : string :=
  (Py.str (fst r) ++ "-" ++ Py.str (snd r))%string.

(** The [for] loop of [_bucket_key]: the first range holding [seconds]. *)
Fixpoint find_range (rs : list (Z * Z)) (seconds : Z) : option (Z * Z) :=
  match rs with
  | [] => None
  | (min_sec, max_sec) :: rest =>
      if (min_sec <=? seconds) && (seconds <? max_sec)
      then Some (min_sec, max_sec)
      else find_range rest seconds
  end.

Definition _bucket_key (seconds : Z) : string :=
  match find_range BUCKET_RANGES seconds with
  | Some r => range_key r
  | None => range_key (last BUCKET_RANGES (0, 0))
  end.

Definition _init_buckets : list (string * IdleBucket) :=
  fold_left
    (fun d r =>
       Py.dict_set d (_bucket_key (fst r))
         {| min_seconds := fst r; max_seconds := snd r;
            total_count := 0; validated_count := 0 |})
    BUCKET_RANGES [].

(** [CognitiveProfile.__init__] *)
Definition init : CognitiveProfile := {|
  _buckets := _init_buckets;
  _recent_pauses := [];
  _max_recent_pauses := 100;
  _activity_bursts := [];
  _session_start_time := 0;
  _consecutive_validated := 0;
  _consecutive_rejected := 0;
  _project_modifiers := [];
  _total_validations := 0;
  _total_rejections := 0;
  _longest_validated_streak := 0;
  _current_streak := 0;
  _focus_lost_count := 0;
  _repeated_rejection_patterns := [];
  _user_bias := 0;
  _implicit_trust_enabled := false
|}.

(** [self._buckets.get(key, self._buckets[list(self._buckets.keys())[-1]])]:
    the default is evaluated first, and raises on an empty dict.  The
    result is the dict entry itself (the methods mutate it in place), so
    it is returned with the key it is stored under. *)
Definition _get_bucket (p : CognitiveProfile) (seconds : Z)
  : option (string * IdleBucket) :=
  let key := _bucket_key seconds in
  match rev (_buckets p) with
  | [] => None
  | dflt :: _ =>
      Some (match Py.dict_get (_buckets p) key with
            | Some b => (key, b)
            | None => dflt
            end)
  end.

(** *** IdleBucket properties *)

Definition validation_rate (b : IdleBucket) : option float :=
  if total_count b =? 0 then Some 0.5%float
  else Py.int_truediv (validated_count b) (total_count b).

(** Wilson score lower bound, [z = 1.96]. *)
Definition confidence (b : IdleBucket) : option float :=
  if total_count b =? 0 then Some 0%float
  else
    let n := total_count b in
    p <- validation_rate b ;;
    let z := 1.96%float in
    t1 <- Py.float_div (z * z) (Py.float_of_int n) ;;
    let denominator := (1 + t1)%float in
    t2 <- Py.float_div (z * z) (Py.float_of_int (2 * n)) ;;
    let centre_adjusted_probability := (p + t2)%float in
    t3 <- Py.float_div (z * z) (Py.float_of_int (4 * n)) ;;
    t4 <- Py.float_div (p * (1 - p) + t3) (Py.float_of_int n) ;;
    adjusted_standard_deviation <- Py.sqrt t4 ;;
    lower_bound <-
      Py.float_div
        (centre_adjusted_probability - z * adjusted_standard_deviation)
        denominator ;;
    Some (Py.max 0 (Py.min 1 lower_bound)).

(** *** ProjectModifier properties *)

Definition pm_validation_rate (m : ProjectModifier) : option float :=
  let total := pm_total_validations m + pm_total_rejections m in
  if total =? 0 then Some 0.5%float
  else Py.int_truediv (pm_total_validations m) total.

Definition project_phase (m : ProjectModifier) : string :=
  let hours := (Py.float_of_int (total_work_time m) / 3600)%float in
  if (hours <? 2)%float then "early"
  else if (hours <? 10)%float then "mid"
  else "late".

Definition new_modifier (h : string) : ProjectModifier := {|
  file_hash := h; last_filename := EmptyString;
  pm_total_validations := 0; pm_total_rejections := 0;
  avg_validated_idle := 300; session_count := 0; total_work_time := 0
|}.

(** *** Activity intensity *)

(** The loop over [enumerate(reversed(self._activity_bursts[-5:]))],
    threading [(total_weight, weighted_intensity)]. *)
Fixpoint intensity_loop (env : Env) (i : Z) (bs : list ActivityBurst)
    (acc : float * float) : float * float :=
  match bs with
  | [] => acc
  | burst :: rest =>
      let weight := fpow env DECAY_FACTOR i in
      intensity_loop env (i + 1) rest
        ((fst acc + weight)%float, (snd acc + intensity burst * weight)%float)
  end.

Definition get_pre_pause_intensity (env : Env) (p : CognitiveProfile) : float :=
  match _activity_bursts p with
  | [] => 0.5%float
  | _ =>
      let '(total_weight, weighted_intensity) :=
        intensity_loop env 0 (rev (Py.last_n 5 (_activity_bursts p)))
          (0%float, 0%float) in
      if (total_weight =? 0)%float then 0.5%float
      else (weighted_intensity / total_weight)%float
  end.

(** *** Pause pattern classification *)

(** [sum(1 for p in self._recent_pauses[-5:]
         if not p.was_validated and p.duration_seconds < 300)] *)
Definition recent_rejections (h : list PauseEvent) : Z :=
  Z.of_nat
    (List.length
       (filter (fun e => negb (was_validated e) && (duration_seconds e <? 300))
          (Py.last_n 5 h))).

Definition classify_pause (p : CognitiveProfile) (duration_seconds : Z)
    (pre_intensity : float) : PausePattern :=
  let minutes := (Py.float_of_int duration_seconds / 60)%float in
  if (minutes <=? 3)%float && (0.5 <? pre_intensity)%float then MICRO_THINKING
  else if (5 <=? minutes)%float && (minutes <=? 12)%float then PLANNING_PAUSE
  else if (2 <=? recent_rejections (_recent_pauses p)) && (minutes <? 10)%float
  then CONTEXT_SWITCH
  else if (15 <? minutes)%float then BREAK
  else UNKNOWN.

(** *** Confidence scoring *)

Definition total_samples (p : CognitiveProfile) : Z :=
  fold_left (fun acc b => acc + total_count b) (Py.dict_values (_buckets p)) 0.

(** The [if/elif/else] that closes [calculate_confidence]. *)
Definition decide (total_samples : Z) (final_confidence : float)
  : ConfidenceDecision :=
  if total_samples <? MIN_SAMPLES_FOR_AUTO then ASK_USER
  else if (AUTO_ACCEPT_THRESHOLD <=? final_confidence)%float then AUTO_ACCEPT
  else if (final_confidence <=? AUTO_DISCARD_THRESHOLD)%float then AUTO_DISCARD
  else ASK_USER.

(** [project_hash and project_hash in self._project_modifiers] *)
Definition known_project (p : CognitiveProfile) (project_hash : option string)
  : option ProjectModifier :=
  match project_hash with
  | Some h => if String.eqb h EmptyString then None else Py.dict_get (_project_modifiers p) h
  | None => None
  end.

Definition calculate_confidence (env : Env) (p : CognitiveProfile)
    (idle_seconds : Z) (project_hash : option string)
  : option (float * ConfidenceDecision * Factors) :=
  (* 1. Base rate from bucket *)
  '(_, bucket) <- _get_bucket p idle_seconds ;;
  base_rate <- validation_rate bucket ;;
  bucket_confidence <- confidence bucket ;;
  (* 2. Pre-pause activity intensity *)
  let pre_intensity := get_pre_pause_intensity env p in
  let intensity_factor := (0.5 + pre_intensity * 0.3)%float in
  (* 3. Session context *)
  let session_age :=
    if (0 <? _session_start_time p)%float
    then ((now env - _session_start_time p) / 60)%float
    else 0%float in
  let session_factor :=
    if (session_age <? 30)%float then 1.0%float
    else if (session_age <? 60)%float then 0.9%float
    else 0.8%float in
  (* 4. Time of day factor *)
  let hour := hour env in
  let time_factor :=
    if ((9 <=? hour) && (hour <=? 11)) || ((14 <=? hour) && (hour <=? 17))
    then 1.05%float
    else if (hour <? 7) || (22 <? hour) then 0.9%float
    else 1.0%float in
  (* 5. Consecutive validation streak factor *)
  let streak_factor :=
    if 3 <=? _consecutive_validated p then 1.1%float
    else if 3 <=? _consecutive_rejected p then 0.85%float
    else 1.0%float in
  (* 6. Project-specific modifier *)
  '(project_factor, project_rate, phase) <-
    match known_project p project_hash with
    | Some modifier =>
        project_rate <- pm_validation_rate modifier ;;
        let project_factor := (0.7 + project_rate * 0.3)%float in
        let phase := project_phase modifier in
        let project_factor :=
          if String.eqb phase "early" then (project_factor * 1.1)%float
          else if String.eqb phase "late" then (project_factor * 0.95)%float
          else project_factor in
        Some (project_factor, Some project_rate, Some phase)
    | None => Some (1.0%float, None, None)
    end ;;
  (* 7. Negative signals adjustment *)
  let negative_adjustment :=
    if (0 <? _focus_lost_count p)%float
    then (1.0 * Py.max 0.7 (1 - _focus_lost_count p * 0.05))%float
    else 1.0%float in
  (* 8. User bias *)
  let bias_adjustment := (1.0 + _user_bias p * 0.2)%float in
  (* Final confidence *)
  base_confidence <-
    (if (0.5 <? bucket_confidence)%float then Some base_rate
     else
       global_rate <-
         Py.int_truediv (_total_validations p)
           (Z.max 1 (_total_validations p + _total_rejections p)) ;;
       Some (base_rate * bucket_confidence
             + global_rate * (1 - bucket_confidence))%float) ;;
  let final_confidence :=
    (base_confidence * intensity_factor * session_factor * time_factor
     * streak_factor * project_factor * negative_adjustment
     * bias_adjustment)%float in
  let final_confidence := Py.max 0.0 (Py.min 1.0 final_confidence) in
  let decision := decide (total_samples p) final_confidence in
  Some (final_confidence, decision,
        {| f_bucket_rate := base_rate;
           f_bucket_confidence := bucket_confidence;
           f_pre_pause_intensity := pre_intensity;
           f_session_age_minutes := session_age;
           f_session_factor := session_factor;
           f_hour_of_day := hour;
           f_time_factor := time_factor;
           f_streak_factor := streak_factor;
           f_project_validation_rate := project_rate;
           f_project_phase := phase;
           f_project_factor := project_factor;
           f_negative_adjustment := negative_adjustment;
           f_user_bias := _user_bias p;
           f_final_confidence := final_confidence |}).

(** *** Learning *)

Definition with_buckets (p : CognitiveProfile) (bs : list (string * IdleBucket))
  : CognitiveProfile := {|
  _buckets := bs;
  _recent_pauses := _recent_pauses p;
  _max_recent_pauses := _max_recent_pauses p;
  _activity_bursts := _activity_bursts p;
  _session_start_time := _session_start_time p;
  _consecutive_validated := _consecutive_validated p;
  _consecutive_rejected := _consecutive_rejected p;
  _project_modifiers := _project_modifiers p;
  _total_validations := _total_validations p;
  _total_rejections := _total_rejections p;
  _longest_validated_streak := _longest_validated_streak p;
  _current_streak := _current_streak p;
  _focus_lost_count := _focus_lost_count p;
  _repeated_rejection_patterns := _repeated_rejection_patterns p;
  _user_bias := _user_bias p;
  _implicit_trust_enabled := _implicit_trust_enabled p
|}.

(** [int(count * self.DECAY_FACTOR)] *)
Definition decay_count (count : Z) : option Z :=
  Py.int_of_float (Py.float_of_int count * DECAY_FACTOR)%float.

Definition decay_bucket (b : IdleBucket) : option IdleBucket :=
  t <- decay_count (total_count b) ;;
  v <- decay_count (validated_count b) ;;
  Some {| min_seconds := min_seconds b; max_seconds := max_seconds b;
          total_count := t; validated_count := v |}.

(** The [for bucket in self._buckets.values()] loop of the decay. *)
Fixpoint decay_all (bs : list (string * IdleBucket))
  : option (list (string * IdleBucket)) :=
  match bs with
  | [] => Some []
  | (k, b) :: rest =>
      b' <- decay_bucket b ;;
      rest' <- decay_all rest ;;
      Some ((k, b') :: rest')
  end.

Definition _apply_decay_to_buckets (p : CognitiveProfile)
  : option CognitiveProfile :=
  let total := total_samples p in
  if (0 <? total) && (total mod 50 =? 0)
  then bs <- decay_all (_buckets p) ;; Some (with_buckets p bs)
  else Some p.

(** [bucket.total_count += 1] and, when validated,
    [bucket.validated_count += 1]. *)
Definition bump (was_validated : bool) (b : IdleBucket) : IdleBucket := {|
  min_seconds := min_seconds b; max_seconds := max_seconds b;
  total_count := total_count b + 1;
  validated_count :=
    if was_validated then validated_count b + 1 else validated_count b
|}.

(** The first two statements of [record_validation]: the bucket update
    and the decay. *)
Definition update_buckets (p : CognitiveProfile) (idle_seconds : Z)
    (was_validated : bool) : option CognitiveProfile :=
  '(key, _) <- _get_bucket p idle_seconds ;;
  _apply_decay_to_buckets
    (with_buckets p (Py.dict_adjust (bump was_validated) (_buckets p) key)).

Definition _update_project_modifier
    (mods : list (string * ProjectModifier)) (project_hash : string)
    (idle_seconds : Z) (was_validated : bool)
  : option (list (string * ProjectModifier)) :=
  let mods :=
    match Py.dict_get mods project_hash with
    | Some _ => mods
    | None => Py.dict_set mods project_hash (new_modifier project_hash)
    end in
  modifier <- Py.dict_get mods project_hash ;;
  if was_validated then
    let tv := pm_total_validations modifier + 1 in
    avg <-
      Py.float_div
        (avg_validated_idle modifier * Py.float_of_int (tv - 1)
         + Py.float_of_int idle_seconds)
        (Py.float_of_int tv) ;;
    Some (Py.dict_set mods project_hash
            {| file_hash := file_hash modifier;
               last_filename := last_filename modifier;
               pm_total_validations := tv;
               pm_total_rejections := pm_total_rejections modifier;
               avg_validated_idle := avg;
               session_count := session_count modifier;
               total_work_time := total_work_time modifier |})
  else
    Some (Py.dict_set mods project_hash
            {| file_hash := file_hash modifier;
               last_filename := last_filename modifier;
               pm_total_validations := pm_total_validations modifier;
               pm_total_rejections := pm_total_rejections modifier + 1;
               avg_validated_idle := avg_validated_idle modifier;
               session_count := session_count modifier;
               total_work_time := total_work_time modifier |}).

(** [int((time.time() - self._session_start_time) / 60)
      if self._session_start_time > 0 else 0] *)
Definition session_age_now (env : Env) (p : CognitiveProfile) : option Z :=
  if (0 <? _session_start_time p)%float
  then Py.int_of_float ((now env - _session_start_time p) / 60)%float
  else Some 0.

(** [if project_hash: self._update_project_modifier(...)] *)
Definition update_modifiers (p : CognitiveProfile)
    (project_hash : option string) (idle_seconds : Z) (was_validated : bool)
  : option (list (string * ProjectModifier)) :=
  match project_hash with
  | Some h =>
      if String.eqb h EmptyString then Some (_project_modifiers p)
      else _update_project_modifier (_project_modifiers p) h
             idle_seconds was_validated
  | None => Some (_project_modifiers p)
  end.

Definition record_validation (env : Env) (p : CognitiveProfile)
    (idle_seconds : Z) (was_validated : bool) (project_hash : option string)
  : option CognitiveProfile :=
  (* Update bucket stats with decay *)
  p1 <- update_buckets p idle_seconds was_validated ;;
  (* Record pause event *)
  let pre_intensity := get_pre_pause_intensity env p in
  let pattern := classify_pause p idle_seconds pre_intensity in
  session_age <- session_age_now env p ;;
  let event := {|
    pe_timestamp := stamp env;
    duration_seconds := idle_seconds;
    was_validated := was_validated;
    pattern := pattern;
    pre_pause_intensity := pre_intensity;
    session_age_minutes := session_age;
    hour_of_day := hour env;
    project_hash := project_hash |} in
  let pauses := _recent_pauses p ++ [event] in
  let pauses :=
    if (_max_recent_pauses p <? List.length pauses)%nat
    then Py.last_n (_max_recent_pauses p) pauses else pauses in
  (* Update project modifier *)
  mods <- update_modifiers p project_hash idle_seconds was_validated ;;
  (* Track rejection patterns for negative signals *)
  let patterns :=
    if was_validated then _repeated_rejection_patterns p
    else
      let l := _repeated_rejection_patterns p ++ [(idle_seconds, pre_intensity)] in
      if (20 <? List.length l)%nat then Py.last_n 20 l else l in
  let current_streak := if was_validated then _current_streak p + 1 else 0 in
  Some {|
    _buckets := _buckets p1;
    _recent_pauses := pauses;
    _max_recent_pauses := _max_recent_pauses p;
    _activity_bursts := _activity_bursts p;
    _session_start_time := _session_start_time p;
    (* Update global stats *)
    _consecutive_validated :=
      if was_validated then _consecutive_validated p + 1 else 0;
    _consecutive_rejected :=
      if was_validated then 0 else _consecutive_rejected p + 1;
    _project_modifiers := mods;
    _total_validations :=
      if was_validated then _total_validations p + 1 else _total_validations p;
    _total_rejections :=
      if was_validated then _total_rejections p else _total_rejections p + 1;
    _longest_validated_streak :=
      if was_validated && (_longest_validated_streak p <? current_streak)
      then current_streak else _longest_validated_streak p;
    _current_streak := current_streak;
    (* Reset focus lost count after any interaction *)
    _focus_lost_count := Py.max 0 (_focus_lost_count p - 1);
    _repeated_rejection_patterns := patterns;
    _user_bias := _user_bias p;
    _implicit_trust_enabled := _implicit_trust_enabled p
  |}.

(** *** Trust system *)

Definition get_trust_level (p : CognitiveProfile) : option float :=
  let total_samples := _total_validations p + _total_rejections p in
  if total_samples <? MIN_SAMPLES_FOR_AUTO then Some 0.0%float
  else
    (* 1. Sample size *)
    let sample_confidence := Py.min 1.0 (Py.float_of_int total_samples / 100) in
    (* 2. Consistency of responses *)
    consistency <-
      (if 0 <? total_samples then
         rate <- Py.int_truediv (_total_validations p) total_samples ;;
         Some (abs (rate - 0.5) * 2)%float
       else Some 0.5%float) ;;
    (* 3. Longest streak *)
    let streak_bonus :=
      Py.min 0.2 (Py.float_of_int (_longest_validated_streak p) / 50) in
    let trust := (sample_confidence * 0.4 + consistency * 0.4 + streak_bonus)%float in
    Some (Py.min 1.0 trust).

Definition should_use_notification (p : CognitiveProfile) : option bool :=
  if negb (_implicit_trust_enabled p) then Some false
  else t <- get_trust_level p ;; Some (TRUST_LEVEL_HIGH <=? t)%float.

(** *** Serialization *)

(** One entry of ["buckets"] in the stored dictionary: each key may be
    missing ([b_data.get(key, default)]). *)
Record BucketData := {
  bd_min : option Z;
  bd_max : option Z;
  bd_total : option Z;
  bd_validated : option Z
}.

(** The stored dictionary, as far as the bucket state and the global
    counters go; a ["project_modifiers"] entry is given with its
    per-field defaults already filled in. *)
Record ProfileData := {
  d_buckets : option (list (string * BucketData));
  d_total_validations : option Z;
  d_total_rejections : option Z;
  d_longest_validated_streak : option Z;
  d_user_bias : option float;
  d_implicit_trust_enabled : option bool;
  d_project_modifiers : option (list (string * ProjectModifier))
}.

Definition to_dict (p : CognitiveProfile) : ProfileData := {|
  d_buckets :=
    Some (map (fun kb =>
                 (fst kb,
                  {| bd_min := Some (min_seconds (snd kb));
                     bd_max := Some (max_seconds (snd kb));
                     bd_total := Some (total_count (snd kb));
                     bd_validated := Some (validated_count (snd kb)) |}))
            (_buckets p));
  d_total_validations := Some (_total_validations p);
  d_total_rejections := Some (_total_rejections p);
  d_longest_validated_streak := Some (_longest_validated_streak p);
  d_user_bias := Some (_user_bias p);
  d_implicit_trust_enabled := Some (_implicit_trust_enabled p);
  d_project_modifiers := Some (_project_modifiers p)
|}.

(** [not data]: the empty dictionary. *)
Definition is_empty (data : ProfileData) : bool :=
  match data with
  | {| d_buckets := None; d_total_validations := None;
       d_total_rejections := None; d_longest_validated_streak := None;
       d_user_bias := None; d_implicit_trust_enabled := None;
       d_project_modifiers := None |} => true
  | _ => false
  end.

Definition get {A} (x : option A) (dflt : A) : A :=
  match x with Some a => a | None => dflt end.

(** The body of [for key, b_data in data["buckets"].items()]. *)
Definition load_bucket (bs : list (string * IdleBucket))
    (entry : string * BucketData) : list (string * IdleBucket) :=
  Py.dict_adjust
    (fun b => {| min_seconds := min_seconds b; max_seconds := max_seconds b;
                 total_count := get (bd_total (snd entry)) 0;
                 validated_count := get (bd_validated (snd entry)) 0 |})
    bs (fst entry).

Definition from_dict (p : CognitiveProfile) (data : ProfileData)
  : CognitiveProfile :=
  if is_empty data then p
  else {|
    _buckets :=
      match d_buckets data with
      | Some entries => fold_left load_bucket entries (_buckets p)
      | None => _buckets p
      end;
    _recent_pauses := _recent_pauses p;
    _max_recent_pauses := _max_recent_pauses p;
    _activity_bursts := _activity_bursts p;
    _session_start_time := _session_start_time p;
    _consecutive_validated := _consecutive_validated p;
    _consecutive_rejected := _consecutive_rejected p;
    _project_modifiers :=
      match d_project_modifiers data with
      | Some entries =>
          fold_left (fun d e => Py.dict_set d (fst e) (snd e)) entries
            (_project_modifiers p)
      | None => _project_modifiers p
      end;
    _total_validations := get (d_total_validations data) 0;
    _total_rejections := get (d_total_rejections data) 0;
    _longest_validated_streak := get (d_longest_validated_streak data) 0;
    _current_streak := _current_streak p;
    _focus_lost_count := _focus_lost_count p;
    _repeated_rejection_patterns := _repeated_rejection_patterns p;
    _user_bias := get (d_user_bias data) 0.0%float;
    _implicit_trust_enabled := get (d_implicit_trust_enabled data) false
  |}.

(** *** Notions the properties are stated with *)

(** The five bucket keys are in place, in the order of [BUCKET_RANGES];
    no method adds or removes a key. *)
Definition keys_ok (p : CognitiveProfile) : Prop :=
  Py.dict_keys (_buckets p) = map range_key BUCKET_RANGES.

(** The invariant of an [IdleBucket]. *)
Definition bucket_inv (b : IdleBucket) : Prop :=
  0 <= validated_count b <= total_count b.

Definition buckets_inv (p : CognitiveProfile) : Prop :=
  Forall bucket_inv (Py.dict_values (_buckets p)).

(** The bucket state of a running profile: the invariant holds, and the
    decay at every 50th sample keeps the grand total below 50. *)
Definition wf (p : CognitiveProfile) : Prop :=
  keys_ok p /\ buckets_inv p /\ total_samples p < 50.

(** The buckets right after the increment of [record_validation]. *)
Definition bumped (p : CognitiveProfile) (idle_seconds : Z)
    (was_validated : bool) : list (string * IdleBucket) :=
  Py.dict_adjust (bump was_validated) (_buckets p) (_bucket_key idle_seconds).

Definition never_lower (bs bs' : list (string * IdleBucket)) : Prop :=
  Forall2
    (fun kb kb' =>
       fst kb = fst kb' /\ total_count (snd kb) <= total_count (snd kb'))
    bs bs'.

(** [c] multiplied by 0.95 with integer truncation, in exact arithmetic:
    [19 c / 20] truncated toward zero, as [int] truncates. *)
Definition truncated_095 (c : Z) : Z := Z.quot (c * 19) 20.

(** [bs'] is [bs] with every count [c] replaced by [19 c / 20]
    truncated. *)
Definition decayed (bs bs' : list (string * IdleBucket)) : Prop :=
  Forall2
    (fun kb kb' =>
       fst kb = fst kb'
       /\ min_seconds (snd kb') = min_seconds (snd kb)
       /\ max_seconds (snd kb') = max_seconds (snd kb)
       /\ total_count (snd kb') = truncated_095 (total_count (snd kb))
       /\ validated_count (snd kb')
          = truncated_095 (validated_count (snd kb)))
    bs bs'.

(** Every count of every bucket is below [n] in magnitude. *)
Definition counts_within (n : Z) (p : CognitiveProfile) : Prop :=
  Forall
    (fun b => Z.abs (total_count b) < n /\ Z.abs (validated_count b) < n)
    (Py.dict_values (_buckets p)).

(** The mantissa of the double 0.95, at the exponent -53. *)
Definition decay_mantissa : Z := 8556839292003942.

(** [int(c * 0.95)] for a positive [c], on integers: [c] rounded to a
    double, the product with the mantissa of 0.95 rounded to a double,
    and the truncation. *)
Definition decay_pos (c : Z) : option Z :=
  let x := Rounding.round_pair (Rounding.aligned c) in
  let y := Rounding.round_pair (fst x * decay_mantissa, snd x - 53) in
  if (snd x <=? 971) && (snd y <=? 971)
  then Some (Z.shiftl (fst y) (snd y))
  else None.

(** The parts of [record_validation] that are not about buckets do not
    raise: the session age converts to an int and the project's running
    mean has a non-zero divisor. *)
Definition bookkeeping_ok (env : Env) (p : CognitiveProfile)
    (idle_seconds : Z) (was_validated : bool) (project_hash : option string)
  : Prop :=
  session_age_now env p <> None
  /\ update_modifiers p project_hash idle_seconds was_validated <> None.

(** The ints that [record_validation] turns into doubles outside the
    buckets, the idle seconds and the validations of the project, are
    below 2^53 in magnitude: there [float(n)] is [n] itself, and the
    doubles of this model are those of CPython (which raises
    [OverflowError] from 2^1024 on). *)
Definition converts_exactly (p : CognitiveProfile) (idle_seconds : Z)
    (project_hash : option string) : Prop :=
  Z.abs idle_seconds < 2 ^ 53
  /\ match project_hash with
     | Some h =>
         match Py.dict_get (_project_modifiers p) h with
         | Some m => Z.abs (pm_total_validations m) < 2 ^ 53
         | None => True
         end
     | None => True
     end.

(** Stored bucket entries that respect the invariant once the defaults
    of [b_data.get] are filled in. *)
Definition entry_ok (e : BucketData) : Prop :=
  0 <= get (bd_validated e) 0 <= get (bd_total e) 0.

Definition data_ok (data : ProfileData) : Prop :=
  match d_buckets data with
  | Some entries => Forall (fun e => entry_ok (snd e)) entries
  | None => True
  end.

Definition in_unit_interval (x : float) : Prop :=
  (0 <=? x)%float = true /\ (x <=? 1)%float = true.

(** [0; 1; ...; n - 1] *)
Definition Zrange (n : nat) : list Z := map Z.of_nat (seq 0 n).

Definition decay_check (n : Z) : bool :=
  match decay_count n with
  | Some k => k =? n * 19 / 20
  | None => false
  end.

Definition counts (t v : Z) : IdleBucket :=
  {| min_seconds := 0; max_seconds := 0;
     total_count := t; validated_count := v |}.

Definition confidence_check (t : Z) : bool :=
  forallb
    (fun v => match confidence (counts t v) with
              | Some _ => true
              | None => false
              end)
    (Zrange (Z.to_nat t + 1)).

(** A profile with five given buckets and no other history. *)
Definition with_counts (t0 v0 t1 v1 t2 v2 t3 v3 t4 v4 : Z) : CognitiveProfile :=
  with_buckets init
    [("0-180"%string, {| min_seconds := 0; max_seconds := 180;
                         total_count := t0; validated_count := v0 |});
     ("180-420"%string, {| min_seconds := 180; max_seconds := 420;
                           total_count := t1; validated_count := v1 |});
     ("420-900"%string, {| min_seconds := 420; max_seconds := 900;
                           total_count := t2; validated_count := v2 |});
     ("900-1500"%string, {| min_seconds := 900; max_seconds := 1500;
                            total_count := t3; validated_count := v3 |});
     ("1500-3600"%string, {| min_seconds := 1500; max_seconds := 3600;
                             total_count := t4; validated_count := v4 |})].

Definition morning : Env :=
  {| now := 1000; stamp := 1000; hour := 10; fpow := fun _ _ => 1%float |}.

(** [p] in the middle of a session of intense work: one full-intensity
    burst just recorded and five validations in a row. *)
Definition in_flow (p : CognitiveProfile) : CognitiveProfile := {|
  _buckets := _buckets p;
  _recent_pauses := _recent_pauses p;
  _max_recent_pauses := _max_recent_pauses p;
  _activity_bursts :=
    [{| ab_timestamp := 900; ab_duration_seconds := 30;
        intensity := 1; event_count := 60 |}];
  _session_start_time := 100;
  _consecutive_validated := 5;
  _consecutive_rejected := 0;
  _project_modifiers := _project_modifiers p;
  _total_validations := 20;
  _total_rejections := 0;
  _longest_validated_streak := 20;
  _current_streak := 20;
  _focus_lost_count := 0;
  _repeated_rejection_patterns := [];
  _user_bias := 0;
  _implicit_trust_enabled := false
|}.

(** The confidence and the decision of a result. *)
Definition verdict (r : option (float * ConfidenceDecision * Factors))
  : option (float * ConfidenceDecision) :=
  option_map (fun x => (fst (fst x), snd (fst x))) r.

(** Stored data with one bucket entry, the other keys of the dictionary
    missing. *)
Definition one_entry (key : string) (e : BucketData) : ProfileData := {|
  d_buckets := Some [(key, e)];
  d_total_validations := None; d_total_rejections := None;
  d_longest_validated_streak := None; d_user_bias := None;
  d_implicit_trust_enabled := None; d_project_modifiers := None
|}.

(** The counts of every bucket, by key. *)
Definition bucket_counts (p : CognitiveProfile) : list (string * (Z * Z)) :=
  map (fun kb => (fst kb, (total_count (snd kb), validated_count (snd kb))))
    (_buckets p).


(** The trust formula, in the order the specification writes it. *)
Definition trust_formula (total : Z) (rate : float) (longest_streak : Z)
  : float :=
  (0.4 * Py.min 1 (Py.float_of_int total / 100)
   + 0.4 * (abs (rate - 0.5) * 2)
   + Py.min 0.2 (Py.float_of_int longest_streak / 50))%float.

(** A profile with the given global counters and implicit-trust flag. *)
Definition with_history (validations rejections longest_streak : Z)
    (implicit_trust : bool) : CognitiveProfile :=
  from_dict init
    {| d_buckets := None;
       d_total_validations := Some validations;
       d_total_rejections := Some rejections;
       d_longest_validated_streak := Some longest_streak;
       d_user_bias := None;
       d_implicit_trust_enabled := Some implicit_trust;
       d_project_modifiers := None |}.

(** [duration_seconds / 60] *)
Definition minutes_of (duration_seconds : Z) : float :=
  (Py.float_of_int duration_seconds / 60)%float.

(** The four rules of the pause classification, in the order they are
    tried; the first that holds gives the pattern. *)
Definition micro (minutes i : float) : bool :=
  (minutes <=? 3)%float && (0.5 <? i)%float.
Definition planning (minutes : float) : bool :=
  (5 <=? minutes)%float && (minutes <=? 12)%float.
Definition switching (minutes : float) (h : list PauseEvent) : bool :=
  (2 <=? recent_rejections h) && (minutes <? 10)%float.
Definition long_break (minutes : float) : bool := (15 <? minutes)%float.

Definition minutes_check (d : Z) : bool :=
  let m := minutes_of d in
  Bool.eqb (m <=? 3)%float (d <=? 180)
  && Bool.eqb (5 <=? m)%float (300 <=? d)
  && Bool.eqb (m <=? 12)%float (d <=? 720)
  && Bool.eqb (m <? 10)%float (d <? 600)
  && Bool.eqb (15 <? m)%float (900 <? d).

Inductive first_match (m i : float) (h : list PauseEvent)
  : PausePattern -> Prop :=
| fm_micro : micro m i = true -> first_match m i h MICRO_THINKING
| fm_planning :
    micro m i = false -> planning m = true ->
    first_match m i h PLANNING_PAUSE
| fm_switching :
    micro m i = false -> planning m = false -> switching m h = true ->
    first_match m i h CONTEXT_SWITCH
| fm_break :
    micro m i = false -> planning m = false -> switching m h = false ->
    long_break m = true ->
    first_match m i h BREAK
| fm_unknown :
    micro m i = false -> planning m = false -> switching m h = false ->
    long_break m = false ->
    first_match m i h UNKNOWN.

(** *** Attribute assignments *)

Definition with_focus (p : CognitiveProfile) (v : float) : CognitiveProfile := {|
  _buckets := _buckets p;
  _recent_pauses := _recent_pauses p;
  _max_recent_pauses := _max_recent_pauses p;
  _activity_bursts := _activity_bursts p;
  _session_start_time := _session_start_time p;
  _consecutive_validated := _consecutive_validated p;
  _consecutive_rejected := _consecutive_rejected p;
  _project_modifiers := _project_modifiers p;
  _total_validations := _total_validations p;
  _total_rejections := _total_rejections p;
  _longest_validated_streak := _longest_validated_streak p;
  _current_streak := _current_streak p;
  _focus_lost_count := v;
  _repeated_rejection_patterns := _repeated_rejection_patterns p;
  _user_bias := _user_bias p;
  _implicit_trust_enabled := _implicit_trust_enabled p
|}.

Definition with_bias (p : CognitiveProfile) (v : float) : CognitiveProfile := {|
  _buckets := _buckets p;
  _recent_pauses := _recent_pauses p;
  _max_recent_pauses := _max_recent_pauses p;
  _activity_bursts := _activity_bursts p;
  _session_start_time := _session_start_time p;
  _consecutive_validated := _consecutive_validated p;
  _consecutive_rejected := _consecutive_rejected p;
  _project_modifiers := _project_modifiers p;
  _total_validations := _total_validations p;
  _total_rejections := _total_rejections p;
  _longest_validated_streak := _longest_validated_streak p;
  _current_streak := _current_streak p;
  _focus_lost_count := _focus_lost_count p;
  _repeated_rejection_patterns := _repeated_rejection_patterns p;
  _user_bias := v;
  _implicit_trust_enabled := _implicit_trust_enabled p
|}.

Definition with_implicit_trust (p : CognitiveProfile) (v : bool)
  : CognitiveProfile := {|
  _buckets := _buckets p;
  _recent_pauses := _recent_pauses p;
  _max_recent_pauses := _max_recent_pauses p;
  _activity_bursts := _activity_bursts p;
  _session_start_time := _session_start_time p;
  _consecutive_validated := _consecutive_validated p;
  _consecutive_rejected := _consecutive_rejected p;
  _project_modifiers := _project_modifiers p;
  _total_validations := _total_validations p;
  _total_rejections := _total_rejections p;
  _longest_validated_streak := _longest_validated_streak p;
  _current_streak := _current_streak p;
  _focus_lost_count := _focus_lost_count p;
  _repeated_rejection_patterns := _repeated_rejection_patterns p;
  _user_bias := _user_bias p;
  _implicit_trust_enabled := v
|}.

Definition with_modifiers (p : CognitiveProfile)
    (v : list (string * ProjectModifier)) : CognitiveProfile := {|
  _buckets := _buckets p;
  _recent_pauses := _recent_pauses p;
  _max_recent_pauses := _max_recent_pauses p;
  _activity_bursts := _activity_bursts p;
  _session_start_time := _session_start_time p;
  _consecutive_validated := _consecutive_validated p;
  _consecutive_rejected := _consecutive_rejected p;
  _project_modifiers := v;
  _total_validations := _total_validations p;
  _total_rejections := _total_rejections p;
  _longest_validated_streak := _longest_validated_streak p;
  _current_streak := _current_streak p;
  _focus_lost_count := _focus_lost_count p;
  _repeated_rejection_patterns := _repeated_rejection_patterns p;
  _user_bias := _user_bias p;
  _implicit_trust_enabled := _implicit_trust_enabled p
|}.

Definition with_bursts (p : CognitiveProfile) (v : list ActivityBurst)
  : CognitiveProfile := {|
  _buckets := _buckets p;
  _recent_pauses := _recent_pauses p;
  _max_recent_pauses := _max_recent_pauses p;
  _activity_bursts := v;
  _session_start_time := _session_start_time p;
  _consecutive_validated := _consecutive_validated p;
  _consecutive_rejected := _consecutive_rejected p;
  _project_modifiers := _project_modifiers p;
  _total_validations := _total_validations p;
  _total_rejections := _total_rejections p;
  _longest_validated_streak := _longest_validated_streak p;
  _current_streak := _current_streak p;
  _focus_lost_count := _focus_lost_count p;
  _repeated_rejection_patterns := _repeated_rejection_patterns p;
  _user_bias := _user_bias p;
  _implicit_trust_enabled := _implicit_trust_enabled p
|}.

Definition with_session_start (p : CognitiveProfile) (v : float)
  : CognitiveProfile := {|
  _buckets := _buckets p;
  _recent_pauses := _recent_pauses p;
  _max_recent_pauses := _max_recent_pauses p;
  _activity_bursts := _activity_bursts p;
  _session_start_time := v;
  _consecutive_validated := _consecutive_validated p;
  _consecutive_rejected := _consecutive_rejected p;
  _project_modifiers := _project_modifiers p;
  _total_validations := _total_validations p;
  _total_rejections := _total_rejections p;
  _longest_validated_streak := _longest_validated_streak p;
  _current_streak := _current_streak p;
  _focus_lost_count := _focus_lost_count p;
  _repeated_rejection_patterns := _repeated_rejection_patterns p;
  _user_bias := _user_bias p;
  _implicit_trust_enabled := _implicit_trust_enabled p
|}.

(** *** Activity tracking *)

(** The three attributes of the 30-second activity window; only
    [record_activity] reads or writes them. *)
Record ActivityWindow := {
  _last_activity_time : float;
  _activity_count_window : Z;
  _window_start_time : float
}.

(** The window of [__init__]. *)
Definition no_activity : ActivityWindow := {|
  _last_activity_time := 0;
  _activity_count_window := 0;
  _window_start_time := 0
|}.

(** [record_activity], with [now] for [time.time()]. *)
Definition record_activity (now : float)
    (wp : ActivityWindow * CognitiveProfile)
  : ActivityWindow * CognitiveProfile :=
  let '(w, p) := wp in
  let '(w, p) :=
    if (30 <? now - _window_start_time w)%float then
      let p :=
        if 0 <? _activity_count_window w then
          let duration := (now - _window_start_time w)%float in
          let intensity :=
            Py.min 1.0
              (Py.float_of_int (_activity_count_window w) / 60)%float in
          let burst := {|
            ab_timestamp := _window_start_time w;
            ab_duration_seconds := duration;
            intensity := intensity;
            event_count := _activity_count_window w |} in
          let bursts := _activity_bursts p ++ [burst] in
          let cutoff := (now - 300)%float in
          with_bursts p
            (filter (fun b => (cutoff <? ab_timestamp b)%float) bursts)
        else p in
      ({| _last_activity_time := _last_activity_time w;
          _activity_count_window := 0;
          _window_start_time := now |}, p)
    else (w, p) in
  ({| _last_activity_time := now;
      _activity_count_window := _activity_count_window w + 1;
      _window_start_time := _window_start_time w |}, p).

(** *** Negative signals *)

Definition record_focus_lost (p : CognitiveProfile) : CognitiveProfile :=
  with_focus p (_focus_lost_count p + 1)%float.

Definition record_focus_regained (p : CognitiveProfile) : CognitiveProfile :=
  with_focus p (Py.max 0 (_focus_lost_count p - 0.5))%float.

(** *** Preferences *)

Definition set_user_bias (p : CognitiveProfile) (bias : float)
  : CognitiveProfile :=
  with_bias p (Py.max (-1.0) (Py.min 1.0 bias))%float.

Definition enable_implicit_trust (p : CognitiveProfile) (enabled : bool)
  : CognitiveProfile :=
  with_implicit_trust p enabled.

(** *** Session management *)

Definition one_more_session (m : ProjectModifier) : ProjectModifier := {|
  file_hash := file_hash m;
  last_filename := last_filename m;
  pm_total_validations := pm_total_validations m;
  pm_total_rejections := pm_total_rejections m;
  avg_validated_idle := avg_validated_idle m;
  session_count := session_count m + 1;
  total_work_time := total_work_time m
|}.

(** [start_session]; the project hash it stores is read by no method. *)
Definition start_session (env : Env) (p : CognitiveProfile)
    (project_hash : option string) : CognitiveProfile :=
  let p := with_session_start p (now env) in
  let p := with_focus p 0 in
  let p := with_bursts p [] in
  match project_hash with
  | Some h =>
      if String.eqb h EmptyString then p
      else
        match Py.dict_get (_project_modifiers p) h with
        | Some _ =>
            with_modifiers p
              (Py.dict_adjust one_more_session (_project_modifiers p) h)
        | None => p
        end
  | None => p
  end.

Definition with_work_time (total_seconds : Z) (m : ProjectModifier)
  : ProjectModifier := {|
  file_hash := file_hash m;
  last_filename := last_filename m;
  pm_total_validations := pm_total_validations m;
  pm_total_rejections := pm_total_rejections m;
  avg_validated_idle := avg_validated_idle m;
  session_count := session_count m;
  total_work_time := total_seconds
|}.

Definition update_project_work_time (p : CognitiveProfile)
    (project_hash : string) (total_seconds : Z) : CognitiveProfile :=
  let mods :=
    match Py.dict_get (_project_modifiers p) project_hash with
    | Some _ => _project_modifiers p
    | None =>
        Py.dict_set (_project_modifiers p) project_hash
          (new_modifier project_hash)
    end in
  with_modifiers p
    (Py.dict_adjust (with_work_time total_seconds) mods project_hash).

(** *** Statistics *)

Definition get_accuracy_indicator (p : CognitiveProfile)
  : option (string * float) :=
  trust <- get_trust_level p ;;
  if (TRUST_LEVEL_HIGH <=? trust)%float
  then Some ("High"%string, (trust * 100)%float)
  else if (TRUST_LEVEL_MEDIUM <=? trust)%float
  then Some ("Medium"%string, (trust * 100)%float)
  else Some ("Learning"%string, (trust * 100)%float).

(** [p.name] for the members of [PausePattern], in the order of the
    enumeration. *)
Definition pattern_name (x : PausePattern) : string :=
  match x with
  | MICRO_THINKING => "MICRO_THINKING"
  | PLANNING_PAUSE => "PLANNING_PAUSE"
  | CONTEXT_SWITCH => "CONTEXT_SWITCH"
  | BREAK => "BREAK"
  | UNKNOWN => "UNKNOWN"
  end.

Definition all_patterns : list PausePattern :=
  [MICRO_THINKING; PLANNING_PAUSE; CONTEXT_SWITCH; BREAK; UNKNOWN].

Definition get_pattern_summary (p : CognitiveProfile) : list (string * Z) :=
  let patterns :=
    fold_left (fun d x => Py.dict_set d (pattern_name x) 0) all_patterns [] in
  fold_left
    (fun d event => Py.dict_adjust (fun n => n + 1) d (pattern_name (pattern event)))
    (_recent_pauses p) patterns.

(** *** Notions the further properties are stated with *)

(** The profiles the program produces: from the initial one by its
    operations, and by storing a profile with [to_dict] and loading it
    into a new one with [from_dict], as the extension does at start-up. *)
Inductive reached : CognitiveProfile -> Prop :=
| reached_init : reached init
| reached_record_validation env p idle v h p' :
    reached p -> record_validation env p idle v h = Some p' -> reached p'
| reached_record_activity t w p :
    reached p -> reached (snd (record_activity t (w, p)))
| reached_record_focus_lost p :
    reached p -> reached (record_focus_lost p)
| reached_record_focus_regained p :
    reached p -> reached (record_focus_regained p)
| reached_set_user_bias p bias :
    reached p -> reached (set_user_bias p bias)
| reached_enable_implicit_trust p enabled :
    reached p -> reached (enable_implicit_trust p enabled)
| reached_start_session env p h :
    reached p -> reached (start_session env p h)
| reached_update_project_work_time p h t :
    reached p -> reached (update_project_work_time p h t)
| reached_reload p :
    reached p -> reached (from_dict init (to_dict p)).

(** The streak counters agree with each other and with the totals. *)
Definition counters_ok (p : CognitiveProfile) : Prop :=
  _current_streak p = _consecutive_validated p
  /\ 0 <= _current_streak p <= _longest_validated_streak p
  /\ _longest_validated_streak p <= _total_validations p
  /\ 0 <= _consecutive_rejected p <= _total_rejections p
  /\ (_consecutive_validated p = 0 \/ _consecutive_rejected p = 0).

(** The histories are within their lengths. *)
Definition history_ok (p : CognitiveProfile) : Prop :=
  _max_recent_pauses p = 100%nat
  /\ (List.length (_recent_pauses p) <= 100)%nat
  /\ (List.length (_repeated_rejection_patterns p) <= 20)%nat.

(** The buckets carry the bounds of [BUCKET_RANGES]. *)
Definition bounds_ok (p : CognitiveProfile) : Prop :=
  map (fun kb => (min_seconds (snd kb), max_seconds (snd kb))) (_buckets p)
  = BUCKET_RANGES.

(** The buckets hold no more samples than were ever recorded. *)
Definition behind_counters (p : CognitiveProfile) : Prop :=
  total_samples p <= _total_validations p + _total_rejections p.

Definition burst_ok (b : ActivityBurst) : Prop :=
  in_unit_interval (intensity b) /\ 0 < event_count b.

(** A project's counts are part of the global ones, and no project is
    listed twice. *)
Definition modifiers_ok (p : CognitiveProfile) : Prop :=
  NoDup (Py.dict_keys (_project_modifiers p))
  /\ Forall
       (fun m =>
          0 <= pm_total_validations m <= _total_validations p
          /\ 0 <= pm_total_rejections m <= _total_rejections p)
       (Py.dict_values (_project_modifiers p)).

Definition preferences_ok (p : CognitiveProfile) : Prop :=
  (-1 <=? _user_bias p)%float = true /\ (_user_bias p <=? 1)%float = true.

Definition focus_ok (p : CognitiveProfile) : Prop :=
  (0 <=? _focus_lost_count p)%float = true.

Definition sound (p : CognitiveProfile) : Prop :=
  wf p /\ bounds_ok p /\ behind_counters p /\ counters_ok p
  /\ history_ok p /\ Forall burst_ok (_activity_bursts p)
  /\ modifiers_ok p /\ preferences_ok p /\ focus_ok p.

(** What a stored and reloaded profile keeps: the buckets, the global
    counters, the preferences and the projects; the histories and the
    session state are those of a new profile. *)
Definition reloaded (p : CognitiveProfile) : CognitiveProfile := {|
  _buckets := _buckets p;
  _recent_pauses := [];
  _max_recent_pauses := 100;
  _activity_bursts := [];
  _session_start_time := 0;
  _consecutive_validated := 0;
  _consecutive_rejected := 0;
  _project_modifiers := _project_modifiers p;
  _total_validations := _total_validations p;
  _total_rejections := _total_rejections p;
  _longest_validated_streak := _longest_validated_streak p;
  _current_streak := 0;
  _focus_lost_count := 0;
  _repeated_rejection_patterns := [];
  _user_bias := _user_bias p;
  _implicit_trust_enabled := _implicit_trust_enabled p
|}.

(** Samples recorded one after the other, each with its idle seconds,
    its answer and its project. *)
Fixpoint learn (env : Env) (p : CognitiveProfile)
    (samples : list (Z * bool * option string)) : option CognitiveProfile :=
  match samples with
  | [] => Some p
  | (idle_seconds, was_validated, project_hash) :: rest =>
      p' <- record_validation env p idle_seconds was_validated project_hash ;;
      learn env p' rest
  end.

(** Three pauses of a morning: two validated, one rejected between. *)
Definition three_pauses : list (Z * bool * option string) :=
  [(90, true, Some "a1b2"%string); (400, false, None);
   (60, true, Some "a1b2"%string)].

(** The modifier of a project, a new one if it has none yet. *)
Definition modifier_of (p : CognitiveProfile) (project_hash : string)
  : ProjectModifier :=
  match Py.dict_get (_project_modifiers p) project_hash with
  | Some m => m
  | None => new_modifier project_hash
  end.

(** The sum of the counts of a pattern summary. *)
Definition summary_total (d : list (string * Z)) : Z :=
  fold_left (fun acc n => acc + n) (Py.dict_values d) 0.

End Profile.

(** ** timer_manager.py *)

Inductive TimerState := STOPPED | RUNNING | BUFFER | PAUSED | COGNITIVE_CHECK.

(** The four Qt signals of [TimerManager], as emitted values. *)
Inductive Signal :=
| state_changed (new_state : TimerState)
| time_updated (total_seconds : Z)
| cognitive_check_needed (idle_seconds : Z) (confidence : float)
    (decision : option ConfidenceDecision)
| cognitive_auto_decided (was_accepted : bool) (seconds : Z) (confidence : float).

Record TimerManager := {
  _state : TimerState;
  _total_seconds : Z;
  _buffer_seconds : Z;
  _pause_timestamp : Z;
  _idle_seconds : Z;
  _t_limit_minutes : Z;
  _cognitive_decision_callback : option (Z -> float * ConfidenceDecision);
  _last_auto_decision : option (bool * Z * float);
  (** [QTimer.isActive()] of [_tick_timer] and of [_buffer_timer] *)
  _tick_timer : bool;
  _buffer_timer : bool
}.

Module Timer.

Definition state_eqb (a b : TimerState) : bool :=
  match a, b with
  | STOPPED, STOPPED | RUNNING, RUNNING | BUFFER, BUFFER
  | PAUSED, PAUSED | COGNITIVE_CHECK, COGNITIVE_CHECK => true
  | _, _ => false
  end.

(** [TimerManager.__init__] *)
Definition init : TimerManager := {|
  _state := STOPPED; _total_seconds := 0; _buffer_seconds := 0;
  _pause_timestamp := 0; _idle_seconds := 0; _t_limit_minutes := 20;
  _cognitive_decision_callback := None; _last_auto_decision := None;
  _tick_timer := false; _buffer_timer := false
|}.

(** *** Attribute assignments *)

Definition set_state (v : TimerState) (s : TimerManager) : TimerManager :=
  {| _state := v; _total_seconds := _total_seconds s;
     _buffer_seconds := _buffer_seconds s;
     _pause_timestamp := _pause_timestamp s;
     _idle_seconds := _idle_seconds s;
     _t_limit_minutes := _t_limit_minutes s;
     _cognitive_decision_callback := _cognitive_decision_callback s;
     _last_auto_decision := _last_auto_decision s;
     _tick_timer := _tick_timer s; _buffer_timer := _buffer_timer s |}.

Definition set_total (v : Z) (s : TimerManager) : TimerManager :=
  {| _state := _state s; _total_seconds := v;
     _buffer_seconds := _buffer_seconds s;
     _pause_timestamp := _pause_timestamp s;
     _idle_seconds := _idle_seconds s;
     _t_limit_minutes := _t_limit_minutes s;
     _cognitive_decision_callback := _cognitive_decision_callback s;
     _last_auto_decision := _last_auto_decision s;
     _tick_timer := _tick_timer s; _buffer_timer := _buffer_timer s |}.

Definition set_buffer (v : Z) (s : TimerManager) : TimerManager :=
  {| _state := _state s; _total_seconds := _total_seconds s;
     _buffer_seconds := v;
     _pause_timestamp := _pause_timestamp s;
     _idle_seconds := _idle_seconds s;
     _t_limit_minutes := _t_limit_minutes s;
     _cognitive_decision_callback := _cognitive_decision_callback s;
     _last_auto_decision := _last_auto_decision s;
     _tick_timer := _tick_timer s; _buffer_timer := _buffer_timer s |}.

Definition set_idle (v : Z) (s : TimerManager) : TimerManager :=
  {| _state := _state s; _total_seconds := _total_seconds s;
     _buffer_seconds := _buffer_seconds s;
     _pause_timestamp := _pause_timestamp s;
     _idle_seconds := v;
     _t_limit_minutes := _t_limit_minutes s;
     _cognitive_decision_callback := _cognitive_decision_callback s;
     _last_auto_decision := _last_auto_decision s;
     _tick_timer := _tick_timer s; _buffer_timer := _buffer_timer s |}.

Definition set_t_limit (v : Z) (s : TimerManager) : TimerManager :=
  {| _state := _state s; _total_seconds := _total_seconds s;
     _buffer_seconds := _buffer_seconds s;
     _pause_timestamp := _pause_timestamp s;
     _idle_seconds := _idle_seconds s;
     _t_limit_minutes := v;
     _cognitive_decision_callback := _cognitive_decision_callback s;
     _last_auto_decision := _last_auto_decision s;
     _tick_timer := _tick_timer s; _buffer_timer := _buffer_timer s |}.

Definition set_callback (v : option (Z -> float * ConfidenceDecision))
    (s : TimerManager) : TimerManager :=
  {| _state := _state s; _total_seconds := _total_seconds s;
     _buffer_seconds := _buffer_seconds s;
     _pause_timestamp := _pause_timestamp s;
     _idle_seconds := _idle_seconds s;
     _t_limit_minutes := _t_limit_minutes s;
     _cognitive_decision_callback := v;
     _last_auto_decision := _last_auto_decision s;
     _tick_timer := _tick_timer s; _buffer_timer := _buffer_timer s |}.

Definition set_last (v : option (bool * Z * float)) (s : TimerManager)
  : TimerManager :=
  {| _state := _state s; _total_seconds := _total_seconds s;
     _buffer_seconds := _buffer_seconds s;
     _pause_timestamp := _pause_timestamp s;
     _idle_seconds := _idle_seconds s;
     _t_limit_minutes := _t_limit_minutes s;
     _cognitive_decision_callback := _cognitive_decision_callback s;
     _last_auto_decision := v;
     _tick_timer := _tick_timer s; _buffer_timer := _buffer_timer s |}.

Definition set_tick_timer (v : bool) (s : TimerManager) : TimerManager :=
  {| _state := _state s; _total_seconds := _total_seconds s;
     _buffer_seconds := _buffer_seconds s;
     _pause_timestamp := _pause_timestamp s;
     _idle_seconds := _idle_seconds s;
     _t_limit_minutes := _t_limit_minutes s;
     _cognitive_decision_callback := _cognitive_decision_callback s;
     _last_auto_decision := _last_auto_decision s;
     _tick_timer := v; _buffer_timer := _buffer_timer s |}.

Definition set_buffer_timer (v : bool) (s : TimerManager) : TimerManager :=
  {| _state := _state s; _total_seconds := _total_seconds s;
     _buffer_seconds := _buffer_seconds s;
     _pause_timestamp := _pause_timestamp s;
     _idle_seconds := _idle_seconds s;
     _t_limit_minutes := _t_limit_minutes s;
     _cognitive_decision_callback := _cognitive_decision_callback s;
     _last_auto_decision := _last_auto_decision s;
     _tick_timer := _tick_timer s; _buffer_timer := v |}.

(** *** Statements: a method body is a list of them, run in order *)

Definition Stmt := TimerManager -> TimerManager * list Signal.

Definition assign (f : TimerManager -> TimerManager) : Stmt :=
  fun s => (f s, []).

Definition emit (sig : TimerManager -> Signal) : Stmt :=
  fun s => (s, [sig s]).

Fixpoint run (body : list Stmt) : Stmt :=
  fun s =>
    match body with
    | [] => (s, [])
    | st :: rest =>
        let '(s1, e1) := st s in
        let '(s2, e2) := run rest s1 in
        (s2, e1 ++ e2)
    end.

Definition _set_state (new_state : TimerState) : Stmt :=
  fun s =>
    if state_eqb (_state s) new_state then (s, [])
    else (set_state new_state s, [state_changed new_state]).

(** *** Methods *)

Definition set_t_limit_minutes (value : Z) : Stmt :=
  assign (set_t_limit (Z.max 15 (Z.min 25 value))).

Definition set_cognitive_decision_callback
    (callback : option (Z -> float * ConfidenceDecision)) : Stmt :=
  assign (set_callback callback).

Definition set_total_seconds (seconds : Z) : Stmt :=
  run [ assign (set_total (Z.max 0 seconds));
        emit (fun s => time_updated (_total_seconds s)) ].

Definition start : Stmt :=
  fun s =>
    match _state s with
    | STOPPED => run [ _set_state RUNNING; assign (set_tick_timer true) ] s
    | _ => (s, [])
    end.

Definition stop : Stmt :=
  run [ assign (set_tick_timer false);
        assign (set_buffer_timer false);
        _set_state STOPPED;
        assign (set_buffer 0);
        assign (set_idle 0) ].

Definition reset : Stmt :=
  run [ stop; assign (set_total 0); emit (fun _ => time_updated 0) ].

Definition on_activity_detected : Stmt :=
  fun s =>
    match _state s with
    | STOPPED => run [ _set_state RUNNING; assign (set_tick_timer true) ] s
    | RUNNING => (s, [])
    | BUFFER =>
        run [ assign (set_buffer_timer false);
              assign (set_buffer 0);
              _set_state RUNNING ] s
    | PAUSED =>
        if _idle_seconds s <=? _t_limit_minutes s * 60 then
          match _cognitive_decision_callback s with
          | Some callback =>
              let '(confidence, decision) := callback (_idle_seconds s) in
              match decision with
              | AUTO_ACCEPT =>
                  run [ assign (fun s => set_total (_total_seconds s + _idle_seconds s) s);
                        emit (fun s => time_updated (_total_seconds s));
                        assign (fun s => set_last (Some (true, _idle_seconds s, confidence)) s);
                        emit (fun s => cognitive_auto_decided true (_idle_seconds s) confidence);
                        assign (set_idle 0);
                        _set_state RUNNING;
                        assign (set_tick_timer true) ] s
              | AUTO_DISCARD =>
                  run [ assign (fun s => set_last (Some (false, _idle_seconds s, confidence)) s);
                        emit (fun s => cognitive_auto_decided false (_idle_seconds s) confidence);
                        assign (set_idle 0);
                        _set_state RUNNING;
                        assign (set_tick_timer true) ] s
              | ASK_USER =>
                  run [ _set_state COGNITIVE_CHECK;
                        emit (fun s => cognitive_check_needed (_idle_seconds s)
                                         confidence (Some decision)) ] s
              end
          | None =>
              run [ _set_state COGNITIVE_CHECK;
                    emit (fun s => cognitive_check_needed (_idle_seconds s)
                                     0.5 None) ] s
          end
        else
          run [ assign (set_idle 0);
                _set_state RUNNING;
                assign (set_tick_timer true) ] s
    | COGNITIVE_CHECK => (s, [])
    end.

Definition on_activity_stopped : Stmt :=
  fun s =>
    match _state s with
    | RUNNING =>
        run [ _set_state BUFFER;
              assign (set_buffer 0);
              assign (set_buffer_timer true) ] s
    | _ => (s, [])
    end.

Definition on_cognitive_response (was_thinking : bool) : Stmt :=
  fun s =>
    match _state s with
    | COGNITIVE_CHECK =>
        run [ (if was_thinking
               then run [ assign (fun s => set_total (_total_seconds s + _idle_seconds s) s);
                          emit (fun s => time_updated (_total_seconds s)) ]
               else run []);
              assign (set_idle 0);
              _set_state RUNNING;
              assign (set_tick_timer true) ] s
    | _ => (s, [])
    end.

Definition undo_last_auto_decision (s : TimerManager)
  : option (bool * Z) * (TimerManager * list Signal) :=
  match _last_auto_decision s with
  | None => (None, (s, []))
  | Some (was_accepted, seconds, _) =>
      (Some (was_accepted, seconds),
       run [ (if was_accepted
              then assign (fun s => set_total (Z.max 0 (_total_seconds s - seconds)) s)
              else assign (fun s => set_total (_total_seconds s + seconds) s));
             emit (fun s => time_updated (_total_seconds s));
             assign (set_last None) ] s)
  end.

Definition _on_tick : Stmt :=
  fun s =>
    match _state s with
    | RUNNING =>
        run [ assign (fun s => set_total (_total_seconds s + 1) s);
              emit (fun s => time_updated (_total_seconds s)) ] s
    | BUFFER =>
        run [ assign (fun s => set_total (_total_seconds s + 1) s);
              assign (fun s => set_buffer (_buffer_seconds s + 1) s);
              emit (fun s => time_updated (_total_seconds s)) ] s
    | PAUSED =>
        run [ assign (fun s => set_idle (_idle_seconds s + 1) s);
              (fun s =>
                 if _t_limit_minutes s * 60 <? _idle_seconds s
                 then assign (set_idle 0) s
                 else (s, [])) ] s
    | _ => (s, [])
    end.

Definition _on_buffer_expired : Stmt :=
  fun s =>
    match _state s with
    | BUFFER => run [ _set_state PAUSED; assign (set_idle 0) ] s
    | _ => (s, [])
    end.

(** *** The operations of the automaton, as events

    A timer's slot runs only while the timer is active; the buffer timer
    is single-shot, so it is inactive once it has fired. *)

Inductive Event :=
| Start | Stop | Reset
| ActivityDetected | ActivityStopped
| CognitiveResponse (was_thinking : bool)
| UndoLastAutoDecision
| Tick | BufferExpired
| SetTotalSeconds (seconds : Z)
| SetTLimitMinutes (value : Z)
| SetCallback (callback : option (Z -> float * ConfidenceDecision)).

Definition step (s : TimerManager) (e : Event) : TimerManager :=
  match e with
  | Start => fst (start s)
  | Stop => fst (stop s)
  | Reset => fst (reset s)
  | ActivityDetected => fst (on_activity_detected s)
  | ActivityStopped => fst (on_activity_stopped s)
  | CognitiveResponse b => fst (on_cognitive_response b s)
  | UndoLastAutoDecision => fst (snd (undo_last_auto_decision s))
  | Tick => if _tick_timer s then fst (_on_tick s) else s
  | BufferExpired =>
      if _buffer_timer s
      then fst (_on_buffer_expired (set_buffer_timer false s))
      else s
  | SetTotalSeconds z => fst (set_total_seconds z s)
  | SetTLimitMinutes z => fst (set_t_limit_minutes z s)
  | SetCallback cb => fst (set_cognitive_decision_callback cb s)
  end.

Definition run_events (s : TimerManager) (es : list Event) : TimerManager :=
  fold_left step es s.

(** *** Notions the properties are stated with *)

(** What every operation keeps: the total and the idle counter are not
    negative, and neither is the idle time held in the undo slot. *)
Definition inv (s : TimerManager) : Prop :=
  0 <= _total_seconds s /\ 0 <= _idle_seconds s /\
  match _last_auto_decision s with
  | Some (_, seconds, _) => 0 <= seconds
  | None => True
  end.

(** The state an undo leaves. *)
Definition undone (s : TimerManager) : TimerManager :=
  fst (snd (undo_last_auto_decision s)).

(** A paused timer that has been idle for [idl] seconds, with the
    defaults of [__init__] elsewhere. *)
Definition paused (tot idl : Z)
    (cb : option (Z -> float * ConfidenceDecision))
    (slot : option (bool * Z * float)) : TimerManager := {|
  _state := PAUSED; _total_seconds := tot; _buffer_seconds := 0;
  _pause_timestamp := 0; _idle_seconds := idl; _t_limit_minutes := 20;
  _cognitive_decision_callback := cb; _last_auto_decision := slot;
  _tick_timer := true; _buffer_timer := false
|}.

(** The callback of an extension whose profile answers [decision] with
    confidence [c]. *)
Definition always (c : float) (decision : ConfidenceDecision)
  : option (Z -> float * ConfidenceDecision) :=
  Some (fun _ => (c, decision)).

(** *** Display *)

(** [get_display_time]: [//] and [%] by a positive divisor are [Z.div]
    and [Z.modulo]. *)
Definition get_display_time (s : TimerManager) : Z * Z :=
  let total_minutes := _total_seconds s / 60 in
  let hours := total_minutes / 60 in
  let minutes := total_minutes mod 60 in
  (hours, minutes).

Definition format_time (s : TimerManager) : string :=
  let '(hours, minutes) := get_display_time s in
  let parts : list string := [] in
  let parts :=
    if 0 <? hours then
      let hr_label := if hours =? 1 then "hr"%string else "hrs"%string in
      parts ++ [(Py.str hours ++ " " ++ hr_label)%string]
    else parts in
  let parts :=
    if (0 <? minutes) || (hours =? 0) then
      let min_label := if minutes =? 1 then "min"%string else "mins"%string in
      parts ++ [(Py.str minutes ++ " " ++ min_label)%string]
    else parts in
  String.concat " "%string parts.

(** *** What an operation emits and what a run goes through *)

(** The signals of one operation, in the order of emission. *)
Definition emitted (s : TimerManager) (e : Event) : list Signal :=
  match e with
  | Start => snd (start s)
  | Stop => snd (stop s)
  | Reset => snd (reset s)
  | ActivityDetected => snd (on_activity_detected s)
  | ActivityStopped => snd (on_activity_stopped s)
  | CognitiveResponse b => snd (on_cognitive_response b s)
  | UndoLastAutoDecision => snd (snd (undo_last_auto_decision s))
  | Tick => if _tick_timer s then snd (_on_tick s) else []
  | BufferExpired =>
      if _buffer_timer s
      then snd (_on_buffer_expired (set_buffer_timer false s))
      else []
  | SetTotalSeconds z => snd (set_total_seconds z s)
  | SetTLimitMinutes z => snd (set_t_limit_minutes z s)
  | SetCallback cb => snd (set_cognitive_decision_callback cb s)
  end.

(** The two [QTimer]s follow the state: the tick timer runs in every
    state but STOPPED, the buffer timer in BUFFER only. *)
Definition timers_ok (s : TimerManager) : Prop :=
  _tick_timer s = negb (state_eqb (_state s) STOPPED)
  /\ _buffer_timer s = state_eqb (_state s) BUFFER.

(** The number of ticks of the one-second timer among the events. *)
Fixpoint ticks (es : list Event) : Z :=
  match es with
  | [] => 0
  | Tick :: rest => 1 + ticks rest
  | _ :: rest => ticks rest
  end.

(** No event of the run loads a total from storage. *)
Definition loads_no_total (es : list Event) : bool :=
  forallb (fun e => match e with SetTotalSeconds _ => false | _ => true end) es.

(** The seconds a timer has seen pass and may still count: the total,
    the idle time not yet decided on, and the idle time of a discard that
    an undo can bring back. *)
Definition seen_seconds (s : TimerManager) : Z :=
  _total_seconds s + _idle_seconds s
  + match _last_auto_decision s with
    | Some (false, seconds, _) => seconds
    | _ => 0
    end.

(** The events a pending question ignores. *)
Definition ignored_while_asking (e : Event) : bool :=
  match e with
  | Start | ActivityDetected | ActivityStopped | Tick | BufferExpired => true
  | _ => false
  end.

(** No event of the run changes the limit. *)
Definition keeps_limit (es : list Event) : bool :=
  forallb (fun e => match e with SetTLimitMinutes _ => false | _ => true end) es.

(** The limit and the idle counter stay in their ranges. *)
Definition in_ranges (s : TimerManager) : Prop :=
  15 <= _t_limit_minutes s <= 25 /\ 0 <= _idle_seconds s <= 25 * 60
  /\ match _last_auto_decision s with
     | Some (_, seconds, _) => 0 <= seconds <= 25 * 60
     | None => True
     end.

(** The text of a number of hours and of minutes, as [format_time]
    writes them. *)
Definition hours_text (hours : Z) : string :=
  (Py.str hours ++ " " ++ if (hours =? 1)%Z then "hr" else "hrs")%string.

Definition minutes_text (minutes : Z) : string :=
  (Py.str minutes ++ " " ++ if (minutes =? 1)%Z then "min" else "mins")%string.

End Timer.

(** ** storage.py: the settings and the stored profile

    [_data] as far as the cognitive loop reads and writes it: the
    settings (a key may be missing from a file written by hand, hence
    the defaults of [.get]) and the profile dictionary.  Writing the
    file ([_save]) and the records of the documents are left out. *)

Record WorkTimerStorage := {
  s_t_limit_minutes : option Z;
  s_user_bias : option float;
  s_implicit_trust_enabled : option bool;
  s_cognitive_profile : Profile.ProfileData
}.

Module Storage.
Import Profile.

(** The empty dictionary. *)
Definition no_data : ProfileData := {|
  d_buckets := None; d_total_validations := None;
  d_total_rejections := None; d_longest_validated_streak := None;
  d_user_bias := None; d_implicit_trust_enabled := None;
  d_project_modifiers := None |}.

(** [WorkTimerStorage.__init__], before [_load]. *)
Definition init : WorkTimerStorage := {|
  s_t_limit_minutes := Some 20;
  s_user_bias := Some 0%float;
  s_implicit_trust_enabled := Some false;
  s_cognitive_profile := no_data
|}.

Definition get_t_limit (st : WorkTimerStorage) : Z :=
  get (s_t_limit_minutes st) 20.

Definition set_t_limit (st : WorkTimerStorage) (minutes : Z)
  : WorkTimerStorage :=
  let minutes := Z.max 15 (Z.min 25 minutes) in
  {| s_t_limit_minutes := Some minutes;
     s_user_bias := s_user_bias st;
     s_implicit_trust_enabled := s_implicit_trust_enabled st;
     s_cognitive_profile := s_cognitive_profile st |}.

(** [adjust_t_limit]: the storage it leaves and the value it returns. *)
Definition adjust_t_limit (st : WorkTimerStorage) (delta : Z)
  : WorkTimerStorage * Z :=
  let current := get_t_limit st in
  let new_value := Z.max 15 (Z.min 25 (current + delta)) in
  (set_t_limit st new_value, new_value).

Definition get_cognitive_profile_data (st : WorkTimerStorage) : ProfileData :=
  s_cognitive_profile st.

Definition set_cognitive_profile_data (st : WorkTimerStorage)
    (profile_data : ProfileData) : WorkTimerStorage :=
  {| s_t_limit_minutes := s_t_limit_minutes st;
     s_user_bias := s_user_bias st;
     s_implicit_trust_enabled := s_implicit_trust_enabled st;
     s_cognitive_profile := profile_data |}.

Definition get_user_bias (st : WorkTimerStorage) : float :=
  get (s_user_bias st) 0.0%float.

Definition set_user_bias (st : WorkTimerStorage) (bias : float)
  : WorkTimerStorage :=
  let bias := Py.max (-1.0)%float (Py.min 1.0%float bias) in
  {| s_t_limit_minutes := s_t_limit_minutes st;
     s_user_bias := Some bias;
     s_implicit_trust_enabled := s_implicit_trust_enabled st;
     s_cognitive_profile := s_cognitive_profile st |}.

Definition get_implicit_trust_enabled (st : WorkTimerStorage) : bool :=
  get (s_implicit_trust_enabled st) false.

Definition set_implicit_trust_enabled (st : WorkTimerStorage) (enabled : bool)
  : WorkTimerStorage :=
  {| s_t_limit_minutes := s_t_limit_minutes st;
     s_user_bias := s_user_bias st;
     s_implicit_trust_enabled := Some enabled;
     s_cognitive_profile := s_cognitive_profile st |}.

End Storage.

(** ** work_timer_extension.py: the cognitive loop

    The extension's timer, profile and storage, the document it tracks
    and the time of the last activity.  The windows (dialog,
    notification), the document checks and the saving of a document's
    time act on what is left out here. *)

Record WorkTimerExtension := {
  _storage : WorkTimerStorage;
  _timer_manager : TimerManager;
  _cognitive_profile : CognitiveProfile;
  (** the three window attributes of [_cognitive_profile] *)
  _activity_window : Profile.ActivityWindow;
  _current_file_hash : option string;
  _current_doc_id : option string;
  x_last_activity_time : float
}.

Module Extension.
Import Profile.

Definition IDLE_THRESHOLD : float := 3000.

Definition with_timer (x : WorkTimerExtension) (v : TimerManager)
  : WorkTimerExtension :=
  {| _storage := _storage x; _timer_manager := v;
     _cognitive_profile := _cognitive_profile x;
     _activity_window := _activity_window x;
     _current_file_hash := _current_file_hash x;
     _current_doc_id := _current_doc_id x;
     x_last_activity_time := x_last_activity_time x |}.

Definition with_profile (x : WorkTimerExtension) (v : CognitiveProfile)
  : WorkTimerExtension :=
  {| _storage := _storage x; _timer_manager := _timer_manager x;
     _cognitive_profile := v;
     _activity_window := _activity_window x;
     _current_file_hash := _current_file_hash x;
     _current_doc_id := _current_doc_id x;
     x_last_activity_time := x_last_activity_time x |}.

Definition with_storage (x : WorkTimerExtension) (v : WorkTimerStorage)
  : WorkTimerExtension :=
  {| _storage := v; _timer_manager := _timer_manager x;
     _cognitive_profile := _cognitive_profile x;
     _activity_window := _activity_window x;
     _current_file_hash := _current_file_hash x;
     _current_doc_id := _current_doc_id x;
     x_last_activity_time := x_last_activity_time x |}.

(** [if s:] for an optional string. *)
Definition truthy (s : option string) : bool :=
  match s with
  | Some s => negb (String.eqb s EmptyString)
  | None => false
  end.

(** [WorkTimerExtension.__init__] on the storage [_load] has read. *)
Definition init (st : WorkTimerStorage) : WorkTimerExtension := {|
  _storage := st;
  _timer_manager := Timer.init;
  _cognitive_profile := Profile.init;
  _activity_window := no_activity;
  _current_file_hash := None;
  _current_doc_id := None;
  x_last_activity_time := 0
|}.

(** [_get_cognitive_decision]: the callback of the timer.  It is a bound
    method, so it reads the profile and the file hash of the moment it
    is called. *)
Definition _get_cognitive_decision (env : Env) (x : WorkTimerExtension)
    (idle_seconds : Z) : option (float * ConfidenceDecision) :=
  '(confidence, decision, _) <-
    calculate_confidence env (_cognitive_profile x) idle_seconds
      (_current_file_hash x) ;;
  Some (confidence, decision).

(** What the timer holds as its callback: the bound method.  [call]
    below gives its answer at the time of a call; the function kept in
    the timer's attribute stands for the reference to it. *)
Definition bound_method : Z -> float * ConfidenceDecision :=
  fun _ => (0.5%float, ASK_USER).

(** [createActions], as far as the timer, the profile and the callback
    go. *)
Definition createActions (x : WorkTimerExtension) : WorkTimerExtension :=
  let t :=
    fst (Timer.set_t_limit_minutes (Storage.get_t_limit (_storage x))
           (_timer_manager x)) in
  let p :=
    from_dict (_cognitive_profile x)
      (Storage.get_cognitive_profile_data (_storage x)) in
  let p := set_user_bias p (Storage.get_user_bias (_storage x)) in
  let p :=
    enable_implicit_trust p (Storage.get_implicit_trust_enabled (_storage x)) in
  let x := with_profile (with_timer x t) p in
  with_timer x
    (fst (Timer.set_cognitive_decision_callback (Some bound_method)
            (_timer_manager x))).

(** [_on_time_updated], without the periodic save of the document's
    time. *)
Definition _on_time_updated (x : WorkTimerExtension) (total_seconds : Z)
  : WorkTimerExtension :=
  match _current_file_hash x with
  | Some h =>
      if String.eqb h EmptyString then x
      else
        with_profile x
          (update_project_work_time (_cognitive_profile x) h total_seconds)
  | None => x
  end.

(** [_show_cognitive_notification], without the window: the decision is
    recorded in the profile. *)
Definition _show_cognitive_notification (env : Env) (x : WorkTimerExtension)
    (was_accepted : bool) (seconds : Z) (confidence : float)
  : option WorkTimerExtension :=
  p <- record_validation env (_cognitive_profile x) seconds was_accepted
         (_current_file_hash x) ;;
  Some (with_profile x p).

(** The slots connected to the timer's signals; a signal is delivered
    when it is emitted, so the slots run in the order of emission. *)
Definition slot (env : Env) (x : WorkTimerExtension) (sig : Signal)
  : option WorkTimerExtension :=
  match sig with
  | time_updated total_seconds => Some (_on_time_updated x total_seconds)
  | state_changed _ => Some x
  | cognitive_check_needed _ _ _ => Some x
  | cognitive_auto_decided was_accepted seconds confidence =>
      _show_cognitive_notification env x was_accepted seconds confidence
  end.

Fixpoint deliver (env : Env) (x : WorkTimerExtension) (sigs : list Signal)
  : option WorkTimerExtension :=
  match sigs with
  | [] => Some x
  | sig :: rest => x' <- slot env x sig ;; deliver env x' rest
  end.

(** The timer calls its callback in one place, on activity in PAUSED
    within the limit, with its idle seconds. *)
Definition calls_back (s : TimerManager) : bool :=
  match _state s, _cognitive_decision_callback s with
  | PAUSED, Some _ => _idle_seconds s <=? _t_limit_minutes s * 60
  | _, _ => false
  end.

(** A method of the timer run from a handler on the timer [s]; the
    signals it emits are delivered. *)
Definition run_method (env : Env) (x : WorkTimerExtension) (s : TimerManager)
    (method : Timer.Stmt) : option WorkTimerExtension :=
  let '(s', sigs) := method s in
  deliver env (with_timer x s') sigs.

Definition call (env : Env) (x : WorkTimerExtension) (method : Timer.Stmt)
  : option WorkTimerExtension :=
  run_method env x (_timer_manager x) method.

(** The timer as [on_activity_detected] finds it: where it calls its
    callback, the callback answers from the profile as it is now, and a
    callback that raises ends the handler. *)
Definition answering (env : Env) (x : WorkTimerExtension)
  : option TimerManager :=
  let s := _timer_manager x in
  if calls_back s then
    answer <- _get_cognitive_decision env x (_idle_seconds s) ;;
    Some (Timer.set_callback (Some (fun _ => answer)) s)
  else Some s.

Definition _on_activity (env : Env) (x : WorkTimerExtension)
  : option WorkTimerExtension :=
  let '(w, p) :=
    record_activity (now env) (_activity_window x, _cognitive_profile x) in
  let x := {|
    _storage := _storage x; _timer_manager := _timer_manager x;
    _cognitive_profile := p; _activity_window := w;
    _current_file_hash := _current_file_hash x;
    _current_doc_id := _current_doc_id x;
    x_last_activity_time := now env |} in
  if truthy (_current_doc_id x)
  then s <- answering env x ;; run_method env x s Timer.on_activity_detected
  else Some x.

Definition _on_focus_changed (x : WorkTimerExtension) (has_focus : bool)
  : WorkTimerExtension :=
  if has_focus
  then with_profile x (record_focus_regained (_cognitive_profile x))
  else with_profile x (record_focus_lost (_cognitive_profile x)).

Definition _check_idle (env : Env) (x : WorkTimerExtension)
  : option WorkTimerExtension :=
  if (x_last_activity_time x =? 0)%float then Some x
  else
    let elapsed_ms := ((now env - x_last_activity_time x) * 1000)%float in
    if (IDLE_THRESHOLD <? elapsed_ms)%float then
      match _state (_timer_manager x) with
      | RUNNING => call env x Timer.on_activity_stopped
      | _ => Some x
      end
    else Some x.

Definition _save_cognitive_profile (x : WorkTimerExtension)
  : WorkTimerExtension :=
  with_storage x
    (Storage.set_cognitive_profile_data (_storage x)
       (to_dict (_cognitive_profile x))).

Definition _on_notification_undo (env : Env) (x : WorkTimerExtension)
  : option WorkTimerExtension :=
  let '(result, (s', sigs)) :=
    Timer.undo_last_auto_decision (_timer_manager x) in
  x <- deliver env (with_timer x s') sigs ;;
  match result with
  | Some (was_accepted, seconds) =>
      p <- record_validation env (_cognitive_profile x) seconds
             (negb was_accepted) (_current_file_hash x) ;;
      Some (with_profile x p)
  | None => Some x
  end.

Definition _on_cognitive_response (env : Env) (x : WorkTimerExtension)
    (was_thinking : bool) : option WorkTimerExtension :=
  let idle_seconds := _idle_seconds (_timer_manager x) in
  p <- record_validation env (_cognitive_profile x) idle_seconds was_thinking
         (_current_file_hash x) ;;
  let x := with_profile x p in
  let '(st, new_limit) :=
    if was_thinking
    then Storage.adjust_t_limit (_storage x) 1
    else Storage.adjust_t_limit (_storage x) (-1) in
  let x := with_storage x st in
  let x :=
    with_timer x
      (fst (Timer.set_t_limit_minutes new_limit (_timer_manager x))) in
  x <- call env x (Timer.on_cognitive_response was_thinking) ;;
  Some (_save_cognitive_profile x).

(** [_handle_unsaved_document], with [existing_time] for what
    [_unsaved_doc_times] holds for the document (0 if nothing). *)
Definition _handle_unsaved_document (env : Env) (x : WorkTimerExtension)
    (doc_id : string) (existing_time : Z) : option WorkTimerExtension :=
  let x := {|
    _storage := _storage x; _timer_manager := _timer_manager x;
    _cognitive_profile := _cognitive_profile x;
    _activity_window := _activity_window x;
    _current_file_hash := None;
    _current_doc_id := _current_doc_id x;
    x_last_activity_time := x_last_activity_time x |} in
  x <- call env x (Timer.set_total_seconds existing_time) ;;
  x <- call env x Timer.start ;;
  Some (with_profile x
          (start_session env (_cognitive_profile x) (Some doc_id))).

(** [_handle_saved_document], with [new_hash] for what
    [compute_file_hash] returns for the file and [existing_time] for the
    time its look-ups end with (the stored time of the file, that of a
    file found moved, or the editing time in the file's metadata): they
    read and write the file records of the storage, which are not part
    of this model.  [set_total_seconds] emits [time_updated], whose slot
    runs with the new file hash before the session is started. *)
Definition _handle_saved_document (env : Env) (x : WorkTimerExtension)
    (new_hash : option string) (existing_time : Z)
  : option WorkTimerExtension :=
  let x := {|
    _storage := _storage x; _timer_manager := _timer_manager x;
    _cognitive_profile := _cognitive_profile x;
    _activity_window := _activity_window x;
    _current_file_hash := new_hash;
    _current_doc_id := _current_doc_id x;
    x_last_activity_time := x_last_activity_time x |} in
  match new_hash with
  | Some h =>
      if String.eqb h EmptyString then
        x <- call env x (Timer.set_total_seconds 0) ;;
        call env x Timer.start
      else
        x <- call env x (Timer.set_total_seconds existing_time) ;;
        x <- call env x Timer.start ;;
        (* Start cognitive profile session *)
        let p := start_session env (_cognitive_profile x) (Some h) in
        Some (with_profile x (update_project_work_time p h existing_time))
  | None =>
      x <- call env x (Timer.set_total_seconds 0) ;;
      call env x Timer.start
  end.

(** The timeouts of the timer's two [QTimer]s, whose slots are methods
    of the timer. *)
Definition tick (env : Env) (x : WorkTimerExtension)
  : option WorkTimerExtension :=
  if _tick_timer (_timer_manager x)
  then call env x Timer._on_tick else Some x.

Definition buffer_timeout (env : Env) (x : WorkTimerExtension)
  : option WorkTimerExtension :=
  if _buffer_timer (_timer_manager x)
  then call env (with_timer x (Timer.set_buffer_timer false (_timer_manager x)))
         Timer._on_buffer_expired
  else Some x.

(** *** Notions the properties are stated with *)

(** What happens to an extension, each with the clock of its moment. *)
Inductive Happening :=
| UnsavedDocument (env : Env) (doc_id : string) (existing_time : Z)
| Activity (env : Env)
| FocusChanged (has_focus : bool)
| IdleCheck (env : Env)
| SecondPassed (env : Env)
| BufferTimedOut (env : Env)
| Answered (env : Env) (was_thinking : bool)
| UndoRequested (env : Env).

Definition handle (x : WorkTimerExtension) (e : Happening)
  : option WorkTimerExtension :=
  match e with
  | UnsavedDocument env doc_id existing_time =>
      (* [_check_document] on a change to an unsaved document *)
      _handle_unsaved_document env
        {| _storage := _storage x; _timer_manager := _timer_manager x;
           _cognitive_profile := _cognitive_profile x;
           _activity_window := _activity_window x;
           _current_file_hash := _current_file_hash x;
           _current_doc_id := Some doc_id;
           x_last_activity_time := x_last_activity_time x |}
        doc_id existing_time
  | Activity env => _on_activity env x
  | FocusChanged has_focus => Some (_on_focus_changed x has_focus)
  | IdleCheck env => _check_idle env x
  | SecondPassed env => tick env x
  | BufferTimedOut env => buffer_timeout env x
  | Answered env was_thinking => _on_cognitive_response env x was_thinking
  | UndoRequested env => _on_notification_undo env x
  end.

Fixpoint handle_all (x : WorkTimerExtension) (es : list Happening)
  : option WorkTimerExtension :=
  match es with
  | [] => Some x
  | e :: rest => x' <- handle x e ;; handle_all x' rest
  end.

(** A storage whose profile dictionary is empty or was written by the
    program. *)
Definition written_by_program (st : WorkTimerStorage) : Prop :=
  s_cognitive_profile st = Storage.no_data
  \/ exists p, reached p /\ s_cognitive_profile st = to_dict p.

(** The slots act on the profile only. *)
Definition same_but_profile (x x' : WorkTimerExtension) : Prop :=
  _timer_manager x' = _timer_manager x
  /\ _storage x' = _storage x
  /\ _activity_window x' = _activity_window x
  /\ _current_file_hash x' = _current_file_hash x
  /\ _current_doc_id x' = _current_doc_id x
  /\ x_last_activity_time x' = x_last_activity_time x
  /\ (reached (_cognitive_profile x) -> reached (_cognitive_profile x')).

(** What the handlers keep of the timer, next to a storage. *)
Definition timer_steady (s : TimerManager) (st : WorkTimerStorage) : Prop :=
  Timer.inv s /\ Timer.timers_ok s
  /\ 15 <= _t_limit_minutes s <= 25
  /\ _t_limit_minutes s = Z.max 15 (Z.min 25 (Storage.get_t_limit st))
  /\ _cognitive_decision_callback s <> None.

(** What the handlers keep: the timer's counters are not negative and
    its two timers follow its state, its limit is the stored one, within
    15 and 25 minutes, its callback is set, and the profile is one the
    program produces. *)
Definition steady (x : WorkTimerExtension) : Prop :=
  Timer.inv (_timer_manager x)
  /\ Timer.timers_ok (_timer_manager x)
  /\ 15 <= _t_limit_minutes (_timer_manager x) <= 25
  /\ _t_limit_minutes (_timer_manager x)
     = Z.max 15 (Z.min 25 (Storage.get_t_limit (_storage x)))
  /\ _cognitive_decision_callback (_timer_manager x) <> None
  /\ reached (_cognitive_profile x).

(** An extension in the middle of a pause of [idle] seconds on the
    document [h], with the profile [p] and the given total. *)
Definition pausing (p : CognitiveProfile) (h : option string)
    (total idle : Z) : WorkTimerExtension := {|
  _storage := Storage.init;
  _timer_manager := Timer.paused total idle (Some bound_method) None;
  _cognitive_profile := p;
  _activity_window := no_activity;
  _current_file_hash := h;
  _current_doc_id := Some "doc"%string;
  x_last_activity_time := 0
|}.

(** A morning at work on a new document: ten seconds of work, the
    buffer runs out, a pause of ninety seconds, and the answer "yes" to
    the question that the return raises. *)
Definition a_morning : list Happening :=
  [UnsavedDocument morning "unsaved:7" 0; Activity morning]
  ++ repeat (SecondPassed morning) 10
  ++ [IdleCheck {| now := 1010; stamp := 1010; hour := 10;
                   fpow := fun _ _ => 1%float |};
      BufferTimedOut morning]
  ++ repeat (SecondPassed morning) 90
  ++ [Activity morning; Answered morning true].

(** The same extension once the question about the pause is open. *)
Definition asking (p : CognitiveProfile) (h : option string)
    (total idle : Z) : WorkTimerExtension :=
  with_timer (pausing p h total idle)
    (Timer.set_state COGNITIVE_CHECK (_timer_manager (pausing p h total idle))).

(** The same extension right after an auto-decision on the pause. *)
Definition decided (p : CognitiveProfile) (h : option string)
    (total : Z) (was_accepted : bool) (seconds : Z) : WorkTimerExtension :=
  with_timer (pausing p h total 0)
    (Timer.set_state RUNNING
       (Timer.set_last (Some (was_accepted, seconds, 0.9%float))
          (_timer_manager (pausing p h total 0)))).

(** The number of auto-decisions of one kind among emitted signals. *)
Fixpoint decisions (kind : bool) (sigs : list Signal) : Z :=
  match sigs with
  | [] => 0
  | cognitive_auto_decided was_accepted _ _ :: rest =>
      (if Bool.eqb was_accepted kind then 1 else 0) + decisions kind rest
  | _ :: rest => decisions kind rest
  end.

End Extension.

(** * Properties of the timer automaton *)

Module TimerFacts.
Import Timer.

Ltac open_state s :=
  destruct s as [st tot buf pts idl lim cb slot tick btm]; cbn in *; subst.

Lemma inv_init : inv init.
Proof. unfold inv; cbn; lia. Qed.

Lemma inv_step (s : TimerManager) (e : Event) : inv s -> inv (step s e).
Proof.
  unfold inv. intros (Ht & Hi & Hs).
  destruct e; open_state s.
  - destruct st; cbn; auto.
  - destruct st; cbn; repeat split; auto; lia.
  - destruct st; cbn; repeat split; auto; lia.
  - destruct st; cbn; auto.
    destruct (idl <=? lim * 60); [| cbn; repeat split; auto; lia ].
    destruct cb as [cb |]; [| cbn; auto ].
    destruct (cb idl) as [c d]; destruct d; cbn; repeat split; auto; lia.
  - destruct st; cbn; auto.
  - destruct st; cbn; auto.
    destruct was_thinking; cbn; repeat split; auto; lia.
  - destruct slot as [[[b secs] c] |]; cbn; auto.
    destruct b; cbn; repeat split; auto; lia.
  - destruct tick; cbn; auto.
    destruct st; cbn; auto; try (repeat split; auto; lia).
    destruct (lim * 60 <? idl + 1); cbn; repeat split; auto; lia.
  - destruct btm; cbn; auto.
    destruct st; cbn; repeat split; auto; lia.
  - cbn; repeat split; auto; lia.
  - cbn; auto.
  - cbn; auto.
Qed.

Lemma inv_run_events (es : list Event) (s : TimerManager) :
  inv s -> inv (run_events s es).
Proof.
  revert s. induction es as [| e es IH]; intros s H; cbn; auto.
  apply IH, inv_step, H.
Qed.

(** C3: a tick in PAUSED adds one to the idle counter and then resets it
    to 0 when it exceeds [T_limit * 60]; the state stays PAUSED, the total
    and every other field are untouched and no signal is emitted.  With
    [T_limit = 20] the counter goes from 1199 to 1200, and from 1200 (the
    tick that would make it 1201) to 0. *)
Theorem tick_while_paused (s : TimerManager) :
  _state s = PAUSED ->
  let idle' :=
    if _t_limit_minutes s * 60 <? _idle_seconds s + 1
    then 0 else _idle_seconds s + 1 in
  _on_tick s = (set_idle idle' s, [])
  /\ _state (fst (_on_tick s)) = PAUSED
  /\ _total_seconds (fst (_on_tick s)) = _total_seconds s
  /\ _idle_seconds (fst (_on_tick s)) = idle'
  /\ (_t_limit_minutes s = 20 ->
      (_idle_seconds s = 1199 -> _idle_seconds (fst (_on_tick s)) = 1200)
      /\ (_idle_seconds s = 1200 -> _idle_seconds (fst (_on_tick s)) = 0)).
Proof.
  intros Hst idle'. subst idle'. open_state s. cbn.
  destruct (lim * 60 <? idl + 1) eqn:E; cbn; repeat split; auto;
    intros; subst; first [ reflexivity | vm_compute in E; discriminate E ].
Qed.

Lemma tick_while_paused_witness :
  _on_tick (paused 500 1200 None None) = (paused 500 0 None None, []).
Proof.
  exact (proj1 (tick_while_paused (paused 500 1200 None None) eq_refl)).
Defined.

(** C7: on activity in PAUSED with [idle <= T_limit * 60] and no decision
    callback, the timer goes to COGNITIVE_CHECK and raises a decision
    request for the idle time (confidence 0.5, no decision); nothing else
    changes, so no time is added or dropped and no auto-decision is
    recorded or announced. *)
Theorem no_callback_asks_user (s : TimerManager) :
  _state s = PAUSED ->
  _idle_seconds s <= _t_limit_minutes s * 60 ->
  _cognitive_decision_callback s = None ->
  on_activity_detected s =
    (set_state COGNITIVE_CHECK s,
     [state_changed COGNITIVE_CHECK;
      cognitive_check_needed (_idle_seconds s) 0.5 None])
  /\ _state (fst (on_activity_detected s)) = COGNITIVE_CHECK
  /\ _total_seconds (fst (on_activity_detected s)) = _total_seconds s
  /\ _idle_seconds (fst (on_activity_detected s)) = _idle_seconds s
  /\ _last_auto_decision (fst (on_activity_detected s)) = _last_auto_decision s
  /\ (forall a n c,
        ~ In (cognitive_auto_decided a n c) (snd (on_activity_detected s))).
Proof.
  intros Hst Hle Hcb. open_state s.
  apply Z.leb_le in Hle. cbn. rewrite Hle. cbn.
  repeat split; auto.
  intros a n c [H | [H | []]]; discriminate H.
Qed.

Lemma no_callback_asks_user_witness :
  on_activity_detected (paused 500 90 None None) =
    (set_state COGNITIVE_CHECK (paused 500 90 None None),
     [state_changed COGNITIVE_CHECK; cognitive_check_needed 90 0.5 None]).
Proof.
  refine (proj1 (no_callback_asks_user (paused 500 90 None None)
                   eq_refl _ eq_refl)).
  cbn; lia.
Defined.

(** C10: [total_seconds] is never negative.  Whatever operations are run
    from the initial timer the total stays at or above 0, and every
    operation keeps the invariant from any state that has it.  A tick
    never lowers the total, undoing an accepted decision subtracts with a
    floor at 0, [set_total_seconds] floors its argument at 0 and [reset]
    sets the total to 0. *)
Theorem total_seconds_never_negative :
  (forall es, 0 <= _total_seconds (run_events init es))
  /\ (forall s e, inv s -> inv (step s e))
  /\ (forall s, _total_seconds s <= _total_seconds (fst (_on_tick s)))
  /\ (forall s seconds c,
        _last_auto_decision s = Some (true, seconds, c) ->
        _total_seconds (undone s) = Z.max 0 (_total_seconds s - seconds))
  /\ (forall s seconds,
        _total_seconds (fst (set_total_seconds seconds s)) = Z.max 0 seconds)
  /\ (forall s, _total_seconds (fst (reset s)) = 0).
Proof.
  split; [| split; [| split; [| split; [| split ]]]].
  - intros es. apply (inv_run_events es init inv_init).
  - apply inv_step.
  - intros s. open_state s. destruct st; cbn; try lia.
    destruct (lim * 60 <? idl + 1); cbn; lia.
  - intros s seconds c H. unfold undone. open_state s. reflexivity.
  - intros s seconds. reflexivity.
  - intros s. open_state s. destruct st; reflexivity.
Qed.

Lemma total_seconds_never_negative_witness :
  inv (step (paused 30 40 None (Some (true, 100, 0.9%float)))
         UndoLastAutoDecision).
Proof.
  refine (proj1 (proj2 total_seconds_never_negative) _ _ _).
  unfold inv; cbn; lia.
Defined.

(** C2, as stated, fails: after an auto-discard of 100 idle seconds at a
    total of 500, the undo returns [(False, 100)] and leaves the total at
    600, not at the 500 it had before the decision. *)
Lemma discard_then_undo_adds_idle :
  _total_seconds (paused 500 100 (always 0.1 AUTO_DISCARD) None) = 500
  /\ _total_seconds
       (fst (on_activity_detected
               (paused 500 100 (always 0.1 AUTO_DISCARD) None))) = 500
  /\ fst (undo_last_auto_decision
            (fst (on_activity_detected
                    (paused 500 100 (always 0.1 AUTO_DISCARD) None))))
     = Some (false, 100)
  /\ _total_seconds
       (undone (fst (on_activity_detected
                       (paused 500 100 (always 0.1 AUTO_DISCARD) None))))
     = 600
  /\ _total_seconds
       (undone (fst (on_activity_detected
                       (paused 500 100 (always 0.1 AUTO_DISCARD) None))))
     <> _total_seconds (paused 500 100 (always 0.1 AUTO_DISCARD) None).
Proof. cbn. repeat split; auto. discriminate. Qed.

(** C2, amended: with a slot [(was_accepted, seconds, _)] the undo returns
    [(was_accepted, seconds)], clears the slot and sets the total to
    [max(0, total - seconds)] after an accept and to [total + seconds]
    after a discard; a further undo returns [None] and changes nothing.
    After an auto-accept from a non-negative total the undo restores the
    pre-decision total; after an auto-discard it leaves the pre-decision
    total plus the idle seconds.  An auto-decision overwrites whatever
    slot there was, and the previous decision is not reversed. *)
Theorem undo_last_auto_decision_spec :
  (forall s was_accepted seconds c,
      _last_auto_decision s = Some (was_accepted, seconds, c) ->
      fst (undo_last_auto_decision s) = Some (was_accepted, seconds)
      /\ _last_auto_decision (undone s) = None
      /\ _total_seconds (undone s) =
           (if was_accepted then Z.max 0 (_total_seconds s - seconds)
            else _total_seconds s + seconds))
  /\ (forall s, undo_last_auto_decision (undone s) = (None, (undone s, [])))
  /\ (forall s callback c decision,
        _state s = PAUSED ->
        _idle_seconds s <= _t_limit_minutes s * 60 ->
        _cognitive_decision_callback s = Some callback ->
        callback (_idle_seconds s) = (c, decision) ->
        decision <> ASK_USER ->
        let s1 := fst (on_activity_detected s) in
        let accepted :=
          match decision with AUTO_ACCEPT => true | _ => false end in
        _last_auto_decision s1 = Some (accepted, _idle_seconds s, c)
        /\ _total_seconds s1 =
             (if accepted then _total_seconds s + _idle_seconds s
              else _total_seconds s)
        /\ fst (undo_last_auto_decision s1) = Some (accepted, _idle_seconds s)
        /\ (0 <= _total_seconds s ->
            _total_seconds (undone s1) =
              (if accepted then _total_seconds s
               else _total_seconds s + _idle_seconds s))).
Proof.
  split; [| split ].
  - intros s b seconds c H. unfold undone. open_state s.
    destruct b; cbn; auto.
  - intros s. unfold undone. open_state s.
    destruct slot as [[[b seconds] c] |]; [ destruct b |]; reflexivity.
  - intros s callback c decision Hst Hle Hcb Hres Hne s1 accepted.
    subst s1 accepted. unfold undone. open_state s.
    apply Z.leb_le in Hle. cbn. rewrite Hle, Hres.
    destruct decision; try congruence; cbn; repeat split; auto.
    intros Hpos. lia.
Qed.

Lemma undo_last_auto_decision_spec_witness :
  _total_seconds
    (undone (fst (on_activity_detected
                    (paused 500 100 (always 0.9 AUTO_ACCEPT)
                       (Some (false, 7, 0.1%float)))))) = 500.
Proof.
  refine (proj2 (proj2 (proj2
            (proj2 (proj2 undo_last_auto_decision_spec)
               (paused 500 100 (always 0.9 AUTO_ACCEPT)
                  (Some (false, 7, 0.1%float)))
               (fun _ => (0.9%float, AUTO_ACCEPT)) 0.9%float AUTO_ACCEPT
               eq_refl _ eq_refl eq_refl _))) _).
  - cbn; lia.
  - discriminate.
  - cbn; lia.
Defined.

End TimerFacts.

(** * Signs of float operations

    From the specification of the primitive operations: a product or a
    quotient by a positive constant, a sum of two and the conversion of a
    non-negative int are non-negative (or NaN) when their arguments are. *)

Module FloatFacts.

Lemma ltb_leb (x y : float) : (x <? y)%float = true -> (x <=? y)%float = true.
Proof.
  rewrite ltb_spec, leb_spec. unfold SFltb, SFleb.
  destruct (SFcompare (Prim2SF x) (Prim2SF y)) as [[] |]; auto.
Qed.

Lemma sf_signed_nonneg (x : spec_float) : Py.sf_signed false x -> Py.sf_nonneg x.
Proof. destruct x; cbn; auto. Qed.

Lemma shr_1_nonneg (mrs : shr_record) :
  0 <= shr_m mrs -> 0 <= shr_m (shr_1 mrs).
Proof.
  destruct mrs as [m r s]. cbn.
  destruct m as [| [q | q |] | q]; cbn; lia.
Qed.

Lemma iter_shr_1_nonneg (n : positive) (mrs : shr_record) :
  0 <= shr_m mrs -> 0 <= shr_m (iter_pos shr_1 n mrs).
Proof.
  revert mrs. induction n as [n IH | n IH |]; intros mrs H; cbn.
  - apply IH, IH, shr_1_nonneg, H.
  - apply IH, IH, H.
  - apply shr_1_nonneg, H.
Qed.

Lemma shr_fexp_nonneg (m e : Z) (l : location) :
  0 <= m -> 0 <= shr_m (fst (shr_fexp prec emax m e l)).
Proof.
  intros H. unfold shr_fexp, shr.
  assert (H0 : 0 <= shr_m (shr_record_of_loc m l)).
  { destruct l as [| []]; cbn; exact H. }
  destruct (fexp prec emax (Zdigits2 m + e) - e); cbn;
    auto using iter_shr_1_nonneg.
Qed.

Lemma round_nearest_even_nonneg (m : Z) (l : location) :
  0 <= m -> 0 <= round_nearest_even m l.
Proof.
  intros H. destruct l as [| []]; cbn; try lia.
  destruct (Z.even m); lia.
Qed.

Lemma binary_round_aux_signed (sx : bool) (mx ex : Z) (lx : location) :
  0 <= mx -> Py.sf_signed sx (binary_round_aux prec emax sx mx ex lx).
Proof.
  intros H. unfold binary_round_aux.
  pose proof (shr_fexp_nonneg mx ex lx H) as H1.
  destruct (shr_fexp prec emax mx ex lx) as [mrs' e']. cbn [fst] in H1.
  pose proof (shr_fexp_nonneg _ e' loc_Exact
                (round_nearest_even_nonneg _ (loc_of_shr_record mrs') H1))
    as H2.
  destruct (shr_fexp prec emax
              (round_nearest_even (shr_m mrs') (loc_of_shr_record mrs'))
              e' loc_Exact) as [mrs'' e''].
  cbn [fst] in H2.
  destruct (shr_m mrs'') as [| q | q]; cbn.
  - reflexivity.
  - destruct (e'' <=? 971); cbn; reflexivity.
  - lia.
Qed.

Lemma binary_round_signed (sx : bool) (mx : positive) (ex : Z) :
  Py.sf_signed sx (binary_round prec emax sx mx ex).
Proof.
  unfold binary_round.
  destruct (shl_align mx ex (fexp prec emax (Z.pos (digits2_pos mx) + ex)))
    as [mz ez].
  apply binary_round_aux_signed. lia.
Qed.

Lemma binary_normalize_nonneg (m e : Z) :
  0 <= m -> Py.sf_signed false (binary_normalize prec emax m e false).
Proof.
  intros H. destruct m as [| q | q]; cbn; [ reflexivity | | lia ].
  apply binary_round_signed.
Qed.

Lemma SFldexp_signed (s : bool) (x : spec_float) (e : Z) :
  Py.sf_signed s x -> Py.sf_signed s (SFldexp prec emax x e).
Proof.
  destruct x as [s' | s' | | s' m ex]; cbn; auto.
  intros ->. apply binary_round_signed.
Qed.

Lemma SF2Prim_signed_false (x : spec_float) :
  Py.sf_signed false x -> Py.sf_signed false (Prim2SF (SF2Prim x)).
Proof.
  destruct x as [s | s | | s m e]; intros H; cbn in H;
    try contradiction; subst s.
  - reflexivity.
  - reflexivity.
  - unfold SF2Prim. rewrite Z_ldexp_spec, of_uint63_spec.
    apply SFldexp_signed, binary_normalize_nonneg.
    apply Uint63.to_Z_bounded.
Qed.

Lemma float_of_int_nonneg (n : Z) :
  0 <= n -> Py.nonneg_or_nan (Py.float_of_int n).
Proof.
  intros H. apply sf_signed_nonneg, SF2Prim_signed_false,
    binary_normalize_nonneg, H.
Qed.

Lemma mul_nonneg (x c : float) (m : positive) (e : Z) :
  Prim2SF c = S754_finite false m e ->
  Py.nonneg_or_nan x -> Py.nonneg_or_nan (x * c).
Proof.
  unfold Py.nonneg_or_nan. rewrite mul_spec. intros ->.
  destruct (Prim2SF x) as [s | s | | s mx ex]; cbn; auto.
  - intros ->. reflexivity.
  - intros ->. apply sf_signed_nonneg. cbn [xorb].
    apply binary_round_aux_signed. lia.
Qed.

Lemma SFdiv_core_binary_nonneg (m1 e1 m2 e2 : Z) :
  0 <= m1 -> 0 < m2 ->
  0 <= fst (fst (SFdiv_core_binary prec emax m1 e1 m2 e2)).
Proof.
  intros H1 H2. unfold SFdiv_core_binary.
  set (s := e1 - e2 - _).
  set (m' := match s with Z0 => m1 | Zpos _ => Z.shiftl m1 s | Zneg _ => 0 end).
  assert (Hm : 0 <= m').
  { subst m'. destruct s; try lia. apply Z.shiftl_nonneg, H1. }
  pose proof (Z.div_pos m' m2 Hm H2) as Hq. unfold Z.div in Hq.
  destruct (Z.div_eucl m' m2) as [q r]. exact Hq.
Qed.

Lemma div_nonneg (x c : float) (m : positive) (e : Z) :
  Prim2SF c = S754_finite false m e ->
  Py.nonneg_or_nan x -> Py.nonneg_or_nan (x / c).
Proof.
  unfold Py.nonneg_or_nan. rewrite div_spec. intros ->.
  unfold SF64div, SFdiv.
  destruct (Prim2SF x) as [s | s | | s mx ex]; unfold Py.sf_nonneg; auto.
  - intros ->. reflexivity.
  - intros ->. fold (Py.sf_nonneg).
    pose proof (SFdiv_core_binary_nonneg (Z.pos mx) ex (Z.pos m) e
                  ltac:(lia) ltac:(lia)) as Hq.
    destruct (SFdiv_core_binary prec emax (Z.pos mx) ex (Z.pos m) e)
      as [[mz ez] lz].
    cbn [fst] in Hq.
    apply sf_signed_nonneg.
    change (xorb false false) with false.
    apply binary_round_aux_signed. exact Hq.
Qed.

Lemma add_nonneg (x y : float) :
  Py.nonneg_or_nan x -> Py.nonneg_or_nan y -> Py.nonneg_or_nan (x + y).
Proof.
  unfold Py.nonneg_or_nan. rewrite add_spec. unfold SF64add, SFadd.
  destruct (Prim2SF x) as [sx | sx | | sx mx ex];
    destruct (Prim2SF y) as [sy | sy | | sy my ey];
    unfold Py.sf_nonneg; auto;
    try (intros -> ->; reflexivity);
    try (intros _ _; destruct sx, sy; exact I).
  intros -> ->. fold Py.sf_nonneg. apply sf_signed_nonneg.
  unfold cond_Zopp. apply binary_normalize_nonneg. lia.
Qed.

Lemma abs_nonneg (x : float) : Py.nonneg_or_nan (abs x).
Proof.
  unfold Py.nonneg_or_nan. rewrite abs_spec.
  destruct (Prim2SF x); cbn; auto.
Qed.

Lemma min_nonneg (c x : float) :
  Py.nonneg_or_nan c -> Py.nonneg_or_nan x -> Py.nonneg_or_nan (Py.min c x).
Proof. unfold Py.min. destruct (x <? c)%float; auto. Qed.

Lemma nonneg_below_one (x : float) :
  Py.nonneg_or_nan x -> (x <? 1)%float = true -> (0 <=? x)%float = true.
Proof.
  unfold Py.nonneg_or_nan. rewrite ltb_spec, leb_spec.
  replace (Prim2SF 0) with (S754_zero false) by (vm_compute; reflexivity).
  generalize (Prim2SF 1). intros one.
  destruct (Prim2SF x) as [s | s | | s m e]; cbn; auto.
  - intros ->. reflexivity.
  - intros ->. reflexivity.
Qed.

Lemma mul_comm (x y : float) : (x * y = y * x)%float.
Proof.
  apply Prim2SF_inj. rewrite !mul_spec.
  destruct (Prim2SF x) as [sx | sx | | sx mx ex];
    destruct (Prim2SF y) as [sy | sy | | sy my ey]; cbn;
    rewrite ?(xorb_comm sx sy); try reflexivity.
  rewrite (Pos.mul_comm mx my), (Z.add_comm ex ey). reflexivity.
Qed.

(** ** Rounding to a double

    [SpecFloat]'s rounding of a positive mantissa, in integer arithmetic;
    it is monotone, and so are [float(n)] and the truncation [int(x)]. *)

Import Rounding.

Lemma pow2_pos (k : Z) : 0 <= k -> 0 < 2 ^ k.
Proof. intros. apply Z.pow_pos_nonneg; lia. Qed.

Lemma pow2_ge2 (k : Z) : 1 <= k -> 2 <= 2 ^ k.
Proof.
  intros H. replace k with (1 + (k - 1)) by lia.
  rewrite Z.pow_add_r by lia. pose proof (pow2_pos (k - 1)). lia.
Qed.

Lemma div_between (a b q : Z) : 0 < b -> q * b <= a < (q + 1) * b -> a / b = q.
Proof.
  intros Hb H. symmetry. apply (Z.div_unique_pos a b q (a - q * b)); lia.
Qed.

(** *** The number of bits of an int *)

Lemma digits2_pos_size (p : positive) : digits2_pos p = Pos.size p.
Proof. induction p; cbn; congruence. Qed.

Lemma Zdigits2_log2 (m : Z) : 0 < m -> Zdigits2 m = Z.log2 m + 1.
Proof.
  destruct m as [| p | p]; try lia. intros _. cbn [Zdigits2].
  rewrite digits2_pos_size. destruct p; cbn; lia.
Qed.

Lemma Zdigits2_bounds (m : Z) :
  0 < m -> 2 ^ (Zdigits2 m - 1) <= m < 2 ^ Zdigits2 m.
Proof.
  intros H. rewrite Zdigits2_log2 by assumption.
  replace (Z.log2 m + 1 - 1) with (Z.log2 m) by lia.
  apply Z.log2_spec, H.
Qed.

Lemma Zdigits2_unique (m d : Z) :
  2 ^ (d - 1) <= m < 2 ^ d -> 0 < d -> Zdigits2 m = d.
Proof.
  intros H Hd.
  assert (0 < m) by (pose proof (Z.pow_pos_nonneg 2 (d - 1)); lia).
  rewrite Zdigits2_log2 by assumption.
  rewrite (Z.log2_unique m (d - 1)); try lia.
  replace (Z.succ (d - 1)) with d by lia. exact H.
Qed.

Lemma Zdigits2_pos (m : Z) : 0 < m -> 0 < Zdigits2 m.
Proof.
  intros H. rewrite Zdigits2_log2 by assumption.
  pose proof (Z.log2_nonneg m). lia.
Qed.

Lemma Zdigits2_le (m1 m2 : Z) :
  0 < m1 -> m1 <= m2 -> Zdigits2 m1 <= Zdigits2 m2.
Proof.
  intros H1 H2. rewrite !Zdigits2_log2 by lia.
  pose proof (Z.log2_le_mono m1 m2 H2). lia.
Qed.

Lemma Zdigits2_shift (m j : Z) :
  0 < m -> 0 <= j -> Zdigits2 (m * 2 ^ j) = Zdigits2 m + j.
Proof.
  intros Hm Hj.
  assert (0 < m * 2 ^ j) by (pose proof (Z.pow_pos_nonneg 2 j); nia).
  rewrite !Zdigits2_log2 by assumption.
  rewrite Z.log2_mul_pow2 by lia. lia.
Qed.

Lemma Zdigits2_lower (m k : Z) : 0 <= k -> 2 ^ k <= m -> k + 1 <= Zdigits2 m.
Proof.
  intros Hk H. pose proof (pow2_pos k Hk).
  rewrite Zdigits2_log2 by lia.
  pose proof (Z.log2_le_mono _ _ H) as L. rewrite Z.log2_pow2 in L by lia. lia.
Qed.

Lemma Zdigits2_upper (m k : Z) : 0 < m -> m < 2 ^ k -> Zdigits2 m <= k.
Proof.
  intros Hm H. pose proof (Zdigits2_bounds m Hm) as [Hlo _].
  destruct (Z_le_gt_dec (Zdigits2 m) k); [ assumption |].
  assert (2 ^ k <= 2 ^ (Zdigits2 m - 1)) by (apply Z.pow_le_mono_r; lia).
  lia.
Qed.

(** *** Shifting right and rounding *)

Lemma iter_pos_nat {A} (f : A -> A) (p : positive) (x : A) :
  iter_pos f p x = Nat.iter (Pos.to_nat p) f x.
Proof.
  revert x. induction p as [p IH | p IH |]; intros x; cbn [iter_pos].
  - rewrite !IH, Pos2Nat.inj_xI. 
    replace (S (2 * Pos.to_nat p))%nat with (Pos.to_nat p + (Pos.to_nat p + 1))%nat by lia.
    rewrite !Nat.iter_add. reflexivity.
  - rewrite !IH, Pos2Nat.inj_xO.
    replace (2 * Pos.to_nat p)%nat with (Pos.to_nat p + Pos.to_nat p)%nat by lia.
    rewrite Nat.iter_add. reflexivity.
  - reflexivity.
Qed.

Lemma shr_1_div2 (q : Z) (r s : bool) :
  0 <= q ->
  shr_1 {| shr_m := q; shr_r := r; shr_s := s |}
  = {| shr_m := Z.div2 q; shr_r := Z.odd q; shr_s := r || s |}.
Proof.
  intros H. destruct q as [| [p | p |] | p]; try lia; reflexivity.
Qed.

Lemma shr_1_state (m k : Z) :
  0 <= m -> 0 <= k -> shr_1 (shr_state m k) = shr_state m (k + 1).
Proof.
  intros Hm Hk. unfold shr_state.
  assert (Hx : 0 < 2 ^ k) by (apply Z.pow_pos_nonneg; lia).
  rewrite Z.pow_add_r, Z.pow_1_r by lia.
  set (x := 2 ^ k) in *.
  assert (Hq : 0 <= m / x) by (apply Z.div_pos; lia).
  rewrite shr_1_div2 by assumption.
  pose proof (Z.mod_pos_bound m x Hx) as Hr.
  rewrite Z.div2_div, Z.div_div by lia.
  rewrite (Z.rem_mul_r m x 2) by lia.
  set (q := m / x) in *. set (r := m mod x) in *.
  assert (Hb : q mod 2 = if Z.odd q then 1 else 0).
  { rewrite Zmod_odd. reflexivity. }
  f_equal.
  - destruct (Z.odd q); rewrite Hb; symmetry.
    + apply Z.leb_le. lia.
    + apply Z.leb_gt. lia.
  - replace (2 * (r + x * (q mod 2))) with (2 * r + (q mod 2) * (x * 2)) by lia.
    rewrite Z.mod_add by lia.
    replace (x * 2) with (2 * x) by lia.
    rewrite Zmult_mod_distr_l, (Z.mod_small r x) by lia.
    destruct (Z.eq_dec r 0) as [-> | Hne].
    + replace (x <=? 2 * 0) with false by (symmetry; apply Z.leb_gt; lia).
      rewrite Z.mod_0_l by lia. reflexivity.
    + replace (2 * r =? 0) with false by (symmetry; apply Z.eqb_neq; lia).
      destruct (Z.leb_spec x (2 * r)); [ reflexivity |].
      rewrite Z.mod_small by lia.
      replace (2 * r =? 0) with false by (symmetry; apply Z.eqb_neq; lia).
      reflexivity.
Qed.

Lemma shr_state_0 (m : Z) :
  shr_state m 0 = {| shr_m := m; shr_r := false; shr_s := false |}.
Proof.
  unfold shr_state. rewrite Z.pow_0_r, Z.div_1_r, Z.mod_1_r. reflexivity.
Qed.

Lemma iter_shr_1_state (m : Z) (n : nat) :
  0 <= m ->
  Nat.iter n shr_1 {| shr_m := m; shr_r := false; shr_s := false |}
  = shr_state m (Z.of_nat n).
Proof.
  intros Hm. induction n as [| n IH].
  - symmetry. apply shr_state_0.
  - rewrite Nat.iter_succ, IH, shr_1_state by lia. f_equal. lia.
Qed.

Lemma shr_spec (m e k : Z) :
  0 <= m -> 0 <= k ->
  shr {| shr_m := m; shr_r := false; shr_s := false |} e k
  = (shr_state m k, e + k).
Proof.
  intros Hm Hk. unfold shr. destruct k as [| p | p]; try lia.
  - rewrite shr_state_0, Z.add_0_r. reflexivity.
  - rewrite iter_pos_nat, iter_shr_1_state by assumption.
    rewrite positive_nat_Z. reflexivity.
Qed.

Lemma round_shr_state (m k : Z) :
  0 <= m -> 0 <= k ->
  round_nearest_even (shr_m (shr_state m k)) (loc_of_shr_record (shr_state m k))
  = rne m k.
Proof.
  intros Hm Hk. unfold shr_state, rne. cbn [shr_m loc_of_shr_record].
  assert (Hx : 0 < 2 ^ k) by (apply Z.pow_pos_nonneg; lia).
  set (x := 2 ^ k) in *.
  pose proof (Z.mod_pos_bound m x Hx) as Hr.
  set (r := m mod x) in *. set (t := 2 * r) in *.
  destruct (Z.compare_spec t x) as [E | E | E].
  - replace (x <=? t) with true by (symmetry; apply Z.leb_le; lia).
    rewrite E, Z.mod_same by lia. reflexivity.
  - replace (x <=? t) with false by (symmetry; apply Z.leb_gt; lia).
    rewrite Z.mod_small by lia.
    destruct (t =? 0); reflexivity.
  - replace (x <=? t) with true by (symmetry; apply Z.leb_le; lia).
    assert (Hm' : t mod x = t - x).
    { symmetry. apply (Z.mod_unique t x 1); lia. }
    rewrite Hm'.
    replace (t - x =? 0) with false by (symmetry; apply Z.eqb_neq; lia).
    reflexivity.
Qed.

Lemma rne_between (m k : Z) : m / 2 ^ k <= rne m k <= m / 2 ^ k + 1.
Proof.
  unfold rne. destruct (2 * (m mod 2 ^ k) ?= 2 ^ k); try lia.
  destruct (Z.even (m / 2 ^ k)); lia.
Qed.

Lemma rne_0 (m : Z) : rne m 0 = m.
Proof.
  unfold rne. rewrite Z.pow_0_r, Z.mod_1_r, Z.div_1_r. reflexivity.
Qed.

Lemma rne_scale (m k j : Z) :
  0 <= k -> 0 <= j -> rne (m * 2 ^ j) (k + j) = rne m k.
Proof.
  intros Hk Hj. unfold rne.
  assert (Hx : 0 < 2 ^ k) by (apply Z.pow_pos_nonneg; lia).
  assert (Hy : 0 < 2 ^ j) by (apply Z.pow_pos_nonneg; lia).
  rewrite Z.pow_add_r by lia.
  rewrite Z.div_mul_cancel_r by lia.
  rewrite Z.mul_mod_distr_r by lia.
  rewrite Z.mul_assoc, <- Zmult_compare_compat_r by lia.
  reflexivity.
Qed.

Lemma rne_mono (m1 m2 k : Z) :
  0 <= k -> m1 <= m2 -> rne m1 k <= rne m2 k.
Proof.
  intros Hk Hm.
  assert (Hx : 0 < 2 ^ k) by (apply Z.pow_pos_nonneg; lia).
  pose proof (Z.div_le_mono m1 m2 (2 ^ k) Hx Hm) as Hq.
  destruct (Z.eq_dec (m1 / 2 ^ k) (m2 / 2 ^ k)) as [E | E].
  - unfold rne. rewrite <- E.
    assert (Hr : m1 mod 2 ^ k <= m2 mod 2 ^ k).
    { rewrite !Z.mod_eq by lia. rewrite E. lia. }
    destruct (Z.compare_spec (2 * (m1 mod 2 ^ k)) (2 ^ k));
      destruct (Z.compare_spec (2 * (m2 mod 2 ^ k)) (2 ^ k));
      try lia; destruct (Z.even (m1 / 2 ^ k)); lia.
  - pose proof (rne_between m1 k). pose proof (rne_between m2 k). lia.
Qed.

Lemma rne_range (m : Z) :
  53 <= Zdigits2 m -> 0 < m ->
  2 ^ 52 <= rne m (Zdigits2 m - 53) <= 2 ^ 53.
Proof.
  intros Hd Hm. pose proof (Zdigits2_bounds m Hm) as [Hlo Hhi].
  set (k := Zdigits2 m - 53) in *.
  replace (Zdigits2 m - 1) with (52 + k) in Hlo by lia.
  replace (Zdigits2 m) with (53 + k) in Hhi by lia.
  rewrite Z.pow_add_r in Hlo, Hhi by lia.
  assert (Hx : 0 < 2 ^ k) by (apply Z.pow_pos_nonneg; lia).
  pose proof (rne_between m k) as Hb.
  assert (2 ^ 52 <= m / 2 ^ k) by (apply Z.div_le_lower_bound; lia).
  assert (m / 2 ^ k < 2 ^ 53) by (apply Z.div_lt_upper_bound; lia).
  lia.
Qed.

Lemma rne_up (P k n D : Z) :
  0 <= k -> P = n * 2 ^ k - D -> 0 < D -> 2 * D <= 2 ^ k ->
  Z.even n = true -> rne P k = n.
Proof.
  intros Hk HP HD H2 Hn. pose proof (pow2_pos k Hk) as Hx.
  set (X := 2 ^ k) in *.
  assert (Hq : P / X = n - 1).
  { symmetry. apply (Z.div_unique_pos P X (n - 1) (X - D)); lia. }
  assert (Hr : P mod X = X - D).
  { symmetry. apply (Z.mod_unique_pos P X (n - 1) (X - D)); lia. }
  unfold rne. fold X. rewrite Hq, Hr.
  assert (He : Z.even (n - 1) = false).
  { rewrite Z.even_sub, Hn. reflexivity. }
  rewrite He.
  destruct (Z.compare_spec (2 * (X - D)) X); lia.
Qed.

Lemma rne_lt (P k n : Z) :
  0 <= k -> 2 * P < (2 * n - 1) * 2 ^ k -> rne P k < n.
Proof.
  intros Hk H. pose proof (pow2_pos k Hk) as Hx.
  pose proof (rne_between P k) as Hb.
  pose proof (Z.div_mod P (2 ^ k) ltac:(lia)) as Hdm.
  pose proof (Z.mod_pos_bound P (2 ^ k) Hx) as Hr.
  destruct (Z_lt_le_dec (P / 2 ^ k + 1) n) as [L | L]; [ lia |].
  unfold rne. set (X := 2 ^ k) in *.
  set (q := P / X) in *. set (r := P mod X) in *.
  assert (Hq : q = n - 1) by nia.
  replace (2 * r ?= X) with Lt; [ lia |].
  symmetry. apply Z.compare_lt_iff. nia.
Qed.

(** The rounding of [SpecFloat], for a mantissa of at least 53 bits in
    the normal range. *)
Lemma binary_round_aux_spec (sx : bool) (m e : Z) :
  0 < m -> 53 <= Zdigits2 m -> -1074 <= e + Zdigits2 m - 53 ->
  binary_round_aux prec emax sx m e loc_Exact
  = pack sx (rne m (Zdigits2 m - 53)) (e + Zdigits2 m - 53).
Proof.
  intros Hm Hd He. unfold binary_round_aux, shr_fexp.
  assert (F1 : fexp prec emax (Zdigits2 m + e) - e = Zdigits2 m - 53).
  { unfold fexp, SpecFloat.emin, prec, emax. lia. }
  rewrite F1. cbn [shr_record_of_loc].
  rewrite shr_spec by lia.
  rewrite round_shr_state by lia.
  pose proof (rne_range m Hd Hm) as Hr.
  set (r := rne m (Zdigits2 m - 53)) in *.
  set (e' := e + (Zdigits2 m - 53)).
  replace (e + Zdigits2 m - 53) with e' by (subst e'; lia).
  assert (He' : -1074 <= e') by (subst e'; lia).
  unfold pack.
  destruct (Z.eqb_spec r (2 ^ 53)) as [E | E].
  - rewrite E.
    assert (D : Zdigits2 (2 ^ 53) = 54) by reflexivity.
    assert (F2 : fexp prec emax (Zdigits2 (2 ^ 53) + e') - e' = 1).
    { rewrite D. unfold fexp, SpecFloat.emin, prec, emax. lia. }
    rewrite F2. cbn [shr_record_of_loc].
    rewrite shr_spec by lia.
    replace (shr_m (shr_state (2 ^ 53) 1)) with (2 ^ 52) by reflexivity.
    reflexivity.
  - assert (D : Zdigits2 r = 53).
    { apply Zdigits2_unique; [| lia ]. change (53 - 1) with 52. lia. }
    assert (F2 : fexp prec emax (Zdigits2 r + e') - e' = 0).
    { rewrite D. unfold fexp, SpecFloat.emin, prec, emax. lia. }
    rewrite F2. cbn [shr_record_of_loc].
    rewrite shr_spec by lia. rewrite shr_state_0. cbn [shr_m].
    rewrite Z.add_0_r. reflexivity.
Qed.

Lemma pack_norm (sx : bool) (r f : Z) : pack sx r f = finite_of sx (norm (r, f)).
Proof.
  unfold pack, finite_of, norm. cbn [fst snd].
  destruct (r =? 2 ^ 53); reflexivity.
Qed.

Lemma norm_range (r f : Z) :
  2 ^ 52 <= r <= 2 ^ 53 -> 2 ^ 52 <= fst (norm (r, f)) < 2 ^ 53.
Proof.
  intros H. unfold norm. cbn [fst snd].
  destruct (Z.eqb_spec r (2 ^ 53)); cbn [fst]; lia.
Qed.

Lemma round_pair_range (x : Z * Z) :
  0 < fst x -> 53 <= Zdigits2 (fst x) ->
  2 ^ 52 <= fst (round_pair x) < 2 ^ 53.
Proof.
  intros Hm Hd. unfold round_pair, round53.
  apply norm_range, rne_range; assumption.
Qed.

(** *** Rounding is monotone *)

Lemma norm_vle (r1 f1 r2 f2 : Z) :
  r1 <= 2 ^ 53 -> 0 < r2 <= 2 ^ 53 ->
  vle (r1, f1) (r2, f2) -> vle (norm (r1, f1)) (norm (r2, f2)).
Proof.
  unfold vle, norm. cbn [fst snd]. intros H1 H2 [Hf Hr].
  pose proof (pow2_pos (f2 - f1) ltac:(lia)) as Hp.
  destruct (Z.eqb_spec r1 (2 ^ 53)) as [E1 | E1];
    destruct (Z.eqb_spec r2 (2 ^ 53)) as [E2 | E2]; cbn [fst snd].
  - split; [ lia |]. replace (f2 + 1 - (f1 + 1)) with (f2 - f1) by lia.
    change (2 ^ 52) with 4503599627370496 in *. nia.
  - assert (Hlt : f1 < f2).
    { destruct (Z.eq_dec f1 f2) as [-> |]; [| lia ].
      rewrite Z.sub_diag, Z.pow_0_r in Hr. lia. }
    split; [ lia |].
    replace (f2 - f1) with (1 + (f2 - (f1 + 1))) in Hr by lia.
    rewrite Z.pow_add_r in Hr by lia.
    change (2 ^ 53) with (2 * 2 ^ 52) in *. lia.
  - split; [ lia |].
    replace (f2 + 1 - f1) with (1 + (f2 - f1)) by lia.
    rewrite Z.pow_add_r by lia.
    change (2 ^ 53) with (2 * 2 ^ 52) in *. lia.
  - split; assumption.
Qed.

Lemma round_pair_mono (x1 x2 : Z * Z) :
  0 < fst x1 -> 0 < fst x2 ->
  53 <= Zdigits2 (fst x1) -> 53 <= Zdigits2 (fst x2) ->
  vle x1 x2 -> vle (round_pair x1) (round_pair x2).
Proof.
  destruct x1 as [m1 e1], x2 as [m2 e2]. cbn [fst snd].
  intros Hm1 Hm2 Hd1 Hd2 [He Hm]. cbn [fst snd] in He, Hm.
  unfold round_pair. cbn [fst snd].
  pose proof (rne_range m1 Hd1 Hm1) as R1.
  pose proof (rne_range m2 Hd2 Hm2) as R2.
  apply norm_vle; unfold round53; [ lia | lia |].
  set (j := e2 - e1) in *.
  pose proof (pow2_pos j ltac:(lia)) as Hj.
  assert (Hd : Zdigits2 m1 <= Zdigits2 m2 + j).
  { rewrite <- Zdigits2_shift by lia. apply Zdigits2_le; lia. }
  unfold vle. cbn [fst snd]. split; [ lia |].
  replace (e2 + Zdigits2 m2 - 53 - (e1 + Zdigits2 m1 - 53))
    with (Zdigits2 m2 + j - Zdigits2 m1) by lia.
  destruct (Z.eq_dec (Zdigits2 m1) (Zdigits2 m2 + j)) as [E | E].
  - rewrite E, Z.sub_diag, Z.pow_0_r, Z.mul_1_r.
    rewrite <- (rne_scale m2 (Zdigits2 m2 - 53) j) by lia.
    replace (Zdigits2 m2 - 53 + j) with (Zdigits2 m2 + j - 53) by lia.
    apply rne_mono; lia.
  - pose proof (pow2_ge2 (Zdigits2 m2 + j - Zdigits2 m1) ltac:(lia)).
    change (2 ^ 53) with (2 * 2 ^ 52) in *. nia.
Qed.

(** *** [float(n)] *)

Lemma iter_xO (p d : positive) :
  Zpos (Pos.iter xO p d) = Zpos p * 2 ^ Zpos d.
Proof.
  change (Pos.iter xO p d) with (shift_pos d p).
  rewrite shift_pos_correct, Zpower_pos_nat, Zpower_nat_Z, positive_nat_Z.
  lia.
Qed.

Lemma aligned_pos (c : Z) :
  0 < c -> 0 < fst (aligned c) /\ 53 <= Zdigits2 (fst (aligned c))
           /\ snd (aligned c) + Zdigits2 (fst (aligned c)) - 53
              = Zdigits2 c - 53.
Proof.
  intros Hc. unfold aligned. pose proof (Zdigits2_pos c Hc) as Hd.
  destruct (Z.ltb_spec (Zdigits2 c) 53) as [H | H]; cbn [fst snd].
  - pose proof (pow2_pos (53 - Zdigits2 c) ltac:(lia)).
    rewrite Zdigits2_shift by lia. split; [ nia | lia ].
  - lia.
Qed.

(** [float(c)] and [float(-c)] for a positive int. *)
Lemma binary_normalize_spec (s : bool) (c : Z) :
  0 < c ->
  binary_normalize prec emax (cond_Zopp s c) 0 false
  = finite_of s (round_pair (aligned c)).
Proof.
  intros Hc. destruct (aligned_pos c Hc) as (Ha & Hda & Hea).
  unfold round_pair, round53. rewrite <- pack_norm.
  rewrite <- binary_round_aux_spec; try assumption.
  2:{ rewrite Hea. pose proof (Zdigits2_pos c Hc). lia. }
  destruct c as [| p | p]; try lia.
  assert (B : binary_normalize prec emax (cond_Zopp s (Z.pos p)) 0 false
              = binary_round prec emax s p 0) by (destruct s; reflexivity).
  rewrite B. unfold binary_round, shl_align, aligned.
  assert (F : fexp prec emax (Z.pos (digits2_pos p) + 0) - 0
              = Zdigits2 (Zpos p) - 53).
  { cbn [Zdigits2]. unfold fexp, SpecFloat.emin, prec, emax. lia. }
  rewrite F.
  replace (fexp prec emax (Z.pos (digits2_pos p) + 0))
    with (Zdigits2 (Zpos p) - 53) by lia.
  destruct (Z.ltb_spec (Zdigits2 (Zpos p)) 53) as [H | H].
  - destruct (Zdigits2 (Z.pos p) - 53) as [| q | q] eqn:E; try lia.
    cbn [fst snd]. rewrite iter_xO.
    replace (53 - Zdigits2 (Zpos p)) with (Zpos q) by lia.
    reflexivity.
  - destruct (Zdigits2 (Z.pos p) - 53) as [| q | q] eqn:E; try lia;
      reflexivity.
Qed.

Lemma round_pair_exponent (c : Z) :
  0 < c ->
  Zdigits2 c - 53 <= snd (round_pair (aligned c)) <= Zdigits2 c - 52.
Proof.
  intros Hc. destruct (aligned_pos c Hc) as (Ha & Hda & Hea).
  unfold round_pair, norm. cbn [fst snd]. rewrite Hea.
  destruct (_ =? _); cbn [snd]; lia.
Qed.

Lemma round_pair_aligned_small (c : Z) :
  0 < c -> Zdigits2 c <= 53 ->
  round_pair (aligned c) = (c * 2 ^ (53 - Zdigits2 c), Zdigits2 c - 53).
Proof.
  intros Hc Hd. pose proof (Zdigits2_pos c Hc) as Hp.
  pose proof (Zdigits2_bounds c Hc) as [Hlo Hhi].
  assert (Hm : 2 ^ 52 <= c * 2 ^ (53 - Zdigits2 c) < 2 ^ 53).
  { pose proof (pow2_pos (53 - Zdigits2 c) ltac:(lia)) as HA.
    assert (E1 : 2 ^ 52 = 2 ^ (Zdigits2 c - 1) * 2 ^ (53 - Zdigits2 c)).
    { rewrite <- Z.pow_add_r by lia. f_equal. lia. }
    assert (E2 : 2 ^ 53 = 2 ^ Zdigits2 c * 2 ^ (53 - Zdigits2 c)).
    { rewrite <- Z.pow_add_r by lia. f_equal. lia. }
    rewrite E1, E2. nia. }
  assert (Hdm : Zdigits2 (c * 2 ^ (53 - Zdigits2 c)) = 53).
  { rewrite Zdigits2_shift by lia. lia. }
  unfold aligned, round_pair, round53, norm.
  destruct (Z.ltb_spec (Zdigits2 c) 53) as [L | L]; cbn [fst snd].
  - rewrite Hdm, Z.sub_diag, rne_0.
    destruct (Z.eqb_spec (c * 2 ^ (53 - Zdigits2 c)) (2 ^ 53)); [ lia |].
    f_equal. lia.
  - assert (E : Zdigits2 c = 53) by lia. rewrite E in *.
    rewrite Z.sub_diag, rne_0, Z.pow_0_r, Z.mul_1_r in *.
    destruct (Z.eqb_spec c (2 ^ 53)); [ lia |]. reflexivity.
Qed.

(** Below 2^53 [float(n)] is [n] itself: the mantissa is [n] shifted
    left to 53 bits, at the exponent that shifts it back. *)
Lemma float_of_int_exact (s : bool) (c : Z) :
  0 < c < 2 ^ 53 ->
  exists q,
    Prim2SF (Py.float_of_int (cond_Zopp s c))
    = S754_finite s q (Zdigits2 c - 53)
    /\ Zpos q = c * 2 ^ (53 - Zdigits2 c).
Proof.
  intros [Hc Hlt]. pose proof (Zdigits2_upper c 53 Hc Hlt) as Hd.
  pose proof (Zdigits2_pos c Hc) as Hp.
  destruct (aligned_pos c Hc) as (Ha & Hda & _).
  pose proof (round_pair_range _ Ha Hda) as Hm.
  unfold Py.float_of_int. rewrite binary_normalize_spec by assumption.
  rewrite round_pair_aligned_small in * by assumption.
  cbn [fst] in Hm. unfold finite_of. cbn [fst snd].
  destruct (c * 2 ^ (53 - Zdigits2 c)) as [| q | q] eqn:E;
    try (change (2 ^ 52) with 4503599627370496 in Hm; lia).
  replace (Zdigits2 c - 53 <=? 971) with true
    by (symmetry; apply Z.leb_le; lia).
  exists q. split; [| reflexivity ].
  apply Prim2SF_SF2Prim. cbn [valid_binary]. unfold bounded, canonical_mantissa.
  apply andb_true_iff.
  split; [| apply Z.leb_le; unfold emax, prec; lia ].
  apply Z.eqb_eq.
  assert (D : Zpos (digits2_pos q) = 53).
  { change (Zpos (digits2_pos q)) with (Zdigits2 (Zpos q)).
    apply Zdigits2_unique; [ exact Hm | lia ]. }
  rewrite D. unfold fexp, SpecFloat.emin, prec, emax. lia.
Qed.

Lemma aligned_vle (c1 c2 : Z) :
  0 < c1 -> c1 <= c2 -> vle (aligned c1) (aligned c2).
Proof.
  intros H1 H2. pose proof (Zdigits2_le c1 c2 H1 H2) as Hd.
  pose proof (Zdigits2_pos c1 H1) as Hp.
  unfold vle, aligned.
  destruct (Z.ltb_spec (Zdigits2 c1) 53) as [L1 | L1];
    destruct (Z.ltb_spec (Zdigits2 c2) 53) as [L2 | L2]; cbn [fst snd];
    try lia.
  - split; [ lia |]. rewrite <- Z.mul_assoc, <- Z.pow_add_r by lia.
    replace (53 - Zdigits2 c2 + (Zdigits2 c2 - 53 - (Zdigits2 c1 - 53)))
      with (53 - Zdigits2 c1) by lia.
    pose proof (pow2_pos (53 - Zdigits2 c1) ltac:(lia)). nia.
  - split; [ lia |].
    replace (0 - (Zdigits2 c1 - 53)) with (53 - Zdigits2 c1) by lia.
    pose proof (pow2_pos (53 - Zdigits2 c1) ltac:(lia)). nia.
Qed.

(** Truncation is monotone. *)
Lemma shiftl_vle (r1 f1 r2 f2 : Z) :
  0 <= r1 -> 0 <= r2 -> vle (r1, f1) (r2, f2) ->
  0 <= Z.shiftl r1 f1 <= Z.shiftl r2 f2.
Proof.
  unfold vle. cbn [fst snd]. intros H1 H2 [Hf Hr].
  pose proof (pow2_pos (f2 - f1) ltac:(lia)) as Hp.
  split; [ apply Z.shiftl_nonneg; assumption |].
  destruct (Z_le_gt_dec 0 f1) as [P1 | N1].
  - rewrite !Z.shiftl_mul_pow2 by lia.
    assert (E : 2 ^ f2 = 2 ^ (f2 - f1) * 2 ^ f1).
    { rewrite <- Z.pow_add_r by lia. f_equal. lia. }
    rewrite E. pose proof (pow2_pos f1 P1). nia.
  - rewrite (Z.shiftl_div_pow2 r1) by lia.
    pose proof (pow2_pos (- f1) ltac:(lia)) as Hq.
    destruct (Z_le_gt_dec 0 f2) as [P2 | N2].
    + rewrite Z.shiftl_mul_pow2 by lia.
      replace (f2 - f1) with (f2 + - f1) in Hr by lia.
      rewrite Z.pow_add_r, Z.mul_assoc in Hr by lia.
      apply Z.div_le_upper_bound; lia.
    + rewrite Z.shiftl_div_pow2 by lia.
      replace (- f1) with ((- f2) + (f2 - f1)) by lia.
      rewrite Z.pow_add_r by lia.
      pose proof (pow2_pos (- f2) ltac:(lia)) as Hq2.
      rewrite <- (Z.div_mul_cancel_r r2 (2 ^ (- f2)) (2 ^ (f2 - f1))) by lia.
      apply Z.div_le_mono; [ nia | lia ].
Qed.

End FloatFacts.

(** * Properties of the cognitive profile *)

Module ProfileFacts.
Import Profile FloatFacts.
Import Rounding.

Ltac div_lia := Z.to_euclidean_division_equations; lia.

Ltac invert_Forall :=
  repeat match goal with
         | H : Forall _ (_ :: _) |- _ => inversion H; clear H; subst
         | H : Forall _ [] |- _ => clear H
         end.

(** Settle the integer comparisons of the goal from the context. *)
Ltac decide_cmp :=
  repeat match goal with
         | |- context [?a <=? ?b] =>
             first [ replace (a <=? b) with true
                       by (symmetry; apply Z.leb_le; lia)
                   | replace (a <=? b) with false
                       by (symmetry; apply Z.leb_gt; lia) ]
         | |- context [?a <? ?b] =>
             first [ replace (a <? b) with true
                       by (symmetry; apply Z.ltb_lt; lia)
                   | replace (a <? b) with false
                       by (symmetry; apply Z.ltb_ge; lia) ]
         end.

(** ** Ranges of integers, checked by evaluation *)

Lemma Zrange_forallb (f : Z -> bool) (n : nat) :
  forallb f (Zrange n) = true ->
  forall z, 0 <= z < Z.of_nat n -> f z = true.
Proof.
  intros H z Hz. rewrite forallb_forall in H. apply H.
  unfold Zrange. apply in_map_iff. exists (Z.to_nat z). split; [ lia |].
  apply in_seq. lia.
Qed.

(** ** Floats *)

(** [max(0.0, min(1.0, x))] lies in [[0, 1]] for every double, NaN and
    the infinities included. *)
Lemma clamp_unit (x : float) : in_unit_interval (Py.max 0 (Py.min 1 x)).
Proof.
  unfold in_unit_interval, Py.max, Py.min.
  destruct (x <? 1)%float eqn:E1.
  - destruct (0 <? x)%float eqn:E0.
    + split; apply ltb_leb; assumption.
    + split; reflexivity.
  - split; reflexivity.
Qed.

(** Up to 50 the decayed count is the integer [floor(19 n / 20)]. *)
Lemma decay_count_small (n : Z) :
  0 <= n <= 50 -> decay_count n = Some (n * 19 / 20).
Proof.
  intros Hn.
  assert (H : decay_check n = true).
  { apply (Zrange_forallb decay_check 51); [ vm_compute; reflexivity | lia ]. }
  unfold decay_check in H. destruct (decay_count n); [| discriminate H ].
  apply Z.eqb_eq in H. congruence.
Qed.

(** ** The decay of a count: [int(c * 0.95)] *)

Lemma decay_factor_spec :
  Prim2SF DECAY_FACTOR = S754_finite false 8556839292003942 (-53).
Proof. vm_compute. reflexivity. Qed.

Lemma product_digits (r : Z) :
  2 ^ 52 <= r < 2 ^ 53 ->
  0 < r * decay_mantissa /\ 105 <= Zdigits2 (r * decay_mantissa) <= 106.
Proof.
  intros H. unfold decay_mantissa.
  change (2 ^ 52) with 4503599627370496 in H.
  change (2 ^ 53) with 9007199254740992 in H.
  split; [ lia |]. split.
  - apply (Zdigits2_lower _ 104); [ lia |].
    change (2 ^ 104) with (4503599627370496 * 4503599627370496). nia.
  - assert (Hlt : r * 8556839292003942 < 2 ^ 106).
    { change (2 ^ 106) with (9007199254740992 * 9007199254740992). nia. }
    assert (Hp : 0 < r * 8556839292003942) by lia.
    pose proof (Zdigits2_bounds _ Hp) as [Hlo _].
    destruct (Z_le_gt_dec (Zdigits2 (r * 8556839292003942)) 106);
      [ assumption |].
    assert (2 ^ 106 <= 2 ^ (Zdigits2 (r * 8556839292003942) - 1))
      by (apply Z.pow_le_mono_r; lia).
    lia.
Qed.

(** The double computation, on integers. *)
Lemma decay_count_signed (s : bool) (c : Z) :
  0 < c ->
  decay_count (cond_Zopp s c) = option_map (cond_Zopp s) (decay_pos c).
Proof.
  intros Hc. unfold decay_count, decay_pos, Py.int_of_float, Py.float_of_int.
  rewrite mul_spec, decay_factor_spec, binary_normalize_spec by assumption.
  destruct (aligned_pos c Hc) as (Ha & Hda & Hea).
  pose proof (round_pair_range _ Ha Hda) as Hx.
  pose proof (round_pair_exponent c Hc) as Hfx.
  pose proof (Zdigits2_pos c Hc) as Hdc.
  set (x := round_pair (aligned c)) in *.
  destruct (product_digits (fst x) Hx) as (Hp & Hdp).
  pose proof (round_pair_range (fst x * decay_mantissa, snd x - 53)
                Hp ltac:(cbn [fst]; lia)) as Hy.
  unfold finite_of at 1.
  destruct (fst x) as [| q | q] eqn:Eq;
    try (change (2 ^ 52) with 4503599627370496 in Hx; lia).
  destruct (Z.leb_spec (snd x) 971) as [Hle | Hgt]; cbn [andb].
  - rewrite Prim2SF_SF2Prim.
    2:{ cbn [valid_binary]. unfold bounded, canonical_mantissa.
        apply andb_true_iff. split; [| apply Z.leb_le; exact Hle ].
        apply Z.eqb_eq.
        assert (D : Zpos (digits2_pos q) = 53).
        { change (Zpos (digits2_pos q)) with (Zdigits2 (Zpos q)).
          apply Zdigits2_unique; [ exact Hx | lia ]. }
        rewrite D. unfold fexp, SpecFloat.emin, prec, emax. lia. }
    unfold SF64mul, SFmul. rewrite xorb_false_r.
    rewrite Pos2Z.inj_mul.
    change (Z.pos 8556839292003942) with decay_mantissa.
    rewrite binary_round_aux_spec by lia.
    rewrite pack_norm.
    replace (snd x + -53 + Zdigits2 (Z.pos q * decay_mantissa) - 53)
      with (snd x - 53 + Zdigits2 (Z.pos q * decay_mantissa) - 53) by lia.
    change (norm (rne (Z.pos q * decay_mantissa)
                    (Zdigits2 (Z.pos q * decay_mantissa) - 53),
                  snd x - 53 + Zdigits2 (Z.pos q * decay_mantissa) - 53))
      with (round_pair (Z.pos q * decay_mantissa, snd x - 53)).
    set (y := round_pair (Z.pos q * decay_mantissa, snd x - 53)) in *.
    unfold finite_of.
    destruct (fst y) as [| q' | q'] eqn:Eq';
      try (change (2 ^ 52) with 4503599627370496 in Hy; lia).
    destruct (snd y <=? 971); reflexivity.
  - replace (Prim2SF (SF2Prim (S754_infinity s)))
      with (S754_infinity s) by (destruct s; vm_compute; reflexivity).
    reflexivity.
Qed.

Lemma decay_count_pos (c : Z) : 0 < c -> decay_count c = decay_pos c.
Proof.
  intros Hc. change c with (cond_Zopp false c) at 1.
  rewrite (decay_count_signed false c Hc).
  destruct (decay_pos c); reflexivity.
Qed.

Lemma decay_count_neg (c : Z) :
  c < 0 -> decay_count c = option_map Z.opp (decay_pos (- c)).
Proof.
  intros Hc. change Z.opp with (cond_Zopp true) at 1.
  rewrite <- (decay_count_signed true (- c)) by lia.
  cbn [cond_Zopp]. rewrite Z.opp_involutive. reflexivity.
Qed.

Lemma decay_pos_mono (c1 c2 b : Z) :
  0 < c1 -> c1 <= c2 -> decay_pos c2 = Some b ->
  exists a, decay_pos c1 = Some a /\ 0 <= a <= b.
Proof.
  intros H1 H2. unfold decay_pos.
  destruct (aligned_pos c1 H1) as (Ha1 & Hd1 & _).
  destruct (aligned_pos c2 ltac:(lia)) as (Ha2 & Hd2 & _).
  pose proof (round_pair_mono _ _ Ha1 Ha2 Hd1 Hd2 (aligned_vle c1 c2 H1 H2))
    as V1.
  pose proof (round_pair_range _ Ha1 Hd1) as Hx1.
  pose proof (round_pair_range _ Ha2 Hd2) as Hx2.
  set (x1 := round_pair (aligned c1)) in *.
  set (x2 := round_pair (aligned c2)) in *.
  clearbody x1 x2.
  destruct (product_digits (fst x1) Hx1) as (Hp1 & Hdp1).
  destruct (product_digits (fst x2) Hx2) as (Hp2 & Hdp2).
  set (z1 := (fst x1 * decay_mantissa, snd x1 - 53)).
  set (z2 := (fst x2 * decay_mantissa, snd x2 - 53)).
  assert (V2 : vle z1 z2).
  { destruct V1 as [Vf Vr]. unfold vle, z1, z2. cbn [fst snd].
    split; [ lia |].
    replace (snd x2 - 53 - (snd x1 - 53)) with (snd x2 - snd x1) by lia.
    unfold decay_mantissa in *. nia. }
  assert (Hz1 : 0 < fst z1 /\ 53 <= Zdigits2 (fst z1))
    by (unfold z1; cbn [fst]; lia).
  assert (Hz2 : 0 < fst z2 /\ 53 <= Zdigits2 (fst z2))
    by (unfold z2; cbn [fst]; lia).
  pose proof (round_pair_mono z1 z2 (proj1 Hz1) (proj1 Hz2)
                (proj2 Hz1) (proj2 Hz2) V2) as V3.
  pose proof (round_pair_range z1 (proj1 Hz1) (proj2 Hz1)) as Hy1.
  pose proof (round_pair_range z2 (proj1 Hz2) (proj2 Hz2)) as Hy2.
  set (y1 := round_pair z1) in *. set (y2 := round_pair z2) in *.
  clearbody y1 y2.
  destruct ((snd x2 <=? 971) && (snd y2 <=? 971)) eqn:E2; [| discriminate ].
  intros [= <-]. apply andb_true_iff in E2. destruct E2 as [E2 E2'].
  apply Z.leb_le in E2, E2'.
  destruct V1 as [Vf1 _]. pose proof V3 as [Vf3 _].
  replace (snd x1 <=? 971) with true by (symmetry; apply Z.leb_le; lia).
  replace (snd y1 <=? 971) with true by (symmetry; apply Z.leb_le; lia).
  cbn [andb]. eexists. split; [ reflexivity |].
  apply shiftl_vle; try lia.
  rewrite <- !surjective_pairing. exact V3.
Qed.

Lemma decay_count_0 : decay_count 0 = Some 0.
Proof. vm_compute. reflexivity. Qed.

Lemma decay_pos_nonneg (c b : Z) : 0 < c -> decay_pos c = Some b -> 0 <= b.
Proof.
  intros Hc H. destruct (decay_pos_mono c c b Hc ltac:(lia) H) as (a & Ha & Hab).
  lia.
Qed.

(** [int(c * 0.95)] is monotone on the non-negative ints: where the
    larger count converts, so does the smaller, to no more. *)
Lemma decay_count_mono (c1 c2 b : Z) :
  0 <= c1 <= c2 -> decay_count c2 = Some b ->
  exists a, decay_count c1 = Some a /\ 0 <= a <= b.
Proof.
  intros [H1 H2] Hb.
  destruct (Z.eq_dec c1 0) as [-> | N1].
  - exists 0. split; [ exact decay_count_0 |].
    destruct (Z.eq_dec c2 0) as [-> | N2].
    + rewrite decay_count_0 in Hb. injection Hb as <-. lia.
    + rewrite decay_count_pos in Hb by lia.
      pose proof (decay_pos_nonneg c2 b ltac:(lia) Hb). lia.
  - rewrite decay_count_pos in Hb by lia. rewrite decay_count_pos by lia.
    apply (decay_pos_mono c1 c2 b); [ lia | lia | exact Hb ].
Qed.

(** The rounded product [P] of a 53-bit [m1] by the mantissa of 0.95,
    between two multiples of [T]; [QA] and [RA] are the quotient and the
    remainder of [19 c] by 20, scaled as [m1] is. *)
Lemma decay_kernel_lin (m1 QA RA A T QT P k : Z) :
  (k = 52 /\ T = 2 * A /\ QT = 2 * QA) \/ (k = 53 /\ T = A /\ QT = QA) ->
  19 * m1 = 20 * QA + RA ->
  20 * P = 2 ^ 53 * (20 * QA + RA) - 8 * m1 ->
  2 ^ 52 <= m1 < 2 ^ 53 -> 2 ^ k * 2 ^ 52 <= P < 2 ^ k * 2 ^ 53 ->
  8 <= A -> RA = 0 \/ A <= RA <= 19 * A ->
  Z.even QT = true ->
  QT <= rne P k < QT + T.
Proof.
  intros Hk H19 H20 Hm HP HA HRA Hev.
  assert (K : 0 <= k /\ (2 ^ k = 2 ^ 52 /\ T = 2 * A /\ QT = 2 * QA
                         \/ 2 ^ k = 2 ^ 53 /\ T = A /\ QT = QA)).
  { destruct Hk as [(-> & ? & ?) | (-> & ? & ?)]; split; auto; lia. }
  clear Hk. destruct K as [Hk K].
  change (2 ^ 52) with 4503599627370496 in *.
  change (2 ^ 53) with 9007199254740992 in *.
  destruct HRA as [R0 | HRA].
  - rewrite (rne_up P k QT (8 * (m1 - QA))); try assumption.
    + lia.
    + destruct K as [(E & ? & ?) | (E & ? & ?)]; rewrite E in *; lia.
    + lia.
    + destruct K as [(E & ? & ?) | (E & ? & ?)]; rewrite E in *; lia.
  - pose proof (rne_between P k) as Hb.
    assert (HX0 : 0 < 2 ^ k) by (apply pow2_pos; exact Hk).
    assert (L : QT <= P / 2 ^ k).
    { apply Z.div_le_lower_bound; [ exact HX0 |].
      destruct K as [(E & ? & ?) | (E & ? & ?)]; rewrite E in *; lia. }
    assert (U : rne P k < QT + T).
    { apply rne_lt; [ exact Hk |].
      destruct K as [(E & ? & ?) | (E & ? & ?)]; rewrite E in *; lia. }
    lia.
Qed.

(** Below 2^50 the decayed count is [19 c / 20] rounded down. *)
Lemma decay_pos_small (c : Z) :
  0 < c < 2 ^ 50 -> decay_pos c = Some (c * 19 / 20).
Proof.
  intros [Hc Hlt].
  pose proof (Zdigits2_pos c Hc) as Hd0.
  pose proof (Zdigits2_upper c 50 Hc Hlt) as Hd.
  unfold decay_pos. rewrite round_pair_aligned_small by lia.
  cbn [fst snd].
  destruct (aligned_pos c Hc) as (Ha & Hda & _).
  pose proof (round_pair_range _ Ha Hda) as Hm.
  rewrite round_pair_aligned_small in Hm by lia. cbn [fst] in Hm.
  set (d := Zdigits2 c) in *.
  assert (HA : 2 ^ (53 - d) = 8 * 2 ^ (50 - d)).
  { change 8 with (2 ^ 3). rewrite <- Z.pow_add_r by lia. f_equal. lia. }
  pose proof (pow2_pos (50 - d) ltac:(lia)) as HA0.
  set (A := 2 ^ (53 - d)) in *.
  destruct (product_digits (c * A) Hm) as (HP0 & HdP).
  pose proof (Zdigits2_bounds _ HP0) as HPb.
  unfold round_pair, round53, norm. cbn [fst snd].
  set (P := c * A * decay_mantissa) in *.
  set (k := Zdigits2 P - 53) in *.
  pose proof (Z.div_mod (c * 19) 20 ltac:(lia)) as Hdiv.
  pose proof (Z.mod_pos_bound (c * 19) 20 ltac:(lia)) as Hrho.
  set (Q := c * 19 / 20) in *. set (rho := (c * 19) mod 20) in *.
  assert (H19 : 19 * (c * A) = 20 * (Q * A) + rho * A).
  { replace (19 * (c * A)) with (c * 19 * A) by ring. rewrite Hdiv. ring. }
  assert (H20 : 20 * P = 2 ^ 53 * (20 * (Q * A) + rho * A) - 8 * (c * A)).
  { rewrite <- H19. unfold P, decay_mantissa.
    change (2 ^ 53) with 9007199254740992. ring. }
  assert (HRA : rho * A = 0 \/ A <= rho * A <= 19 * A).
  { destruct (Z.eq_dec rho 0) as [-> | N]; [ left; reflexivity | right ].
    split; [ nia |]. apply Z.mul_le_mono_nonneg_r; lia. }
  set (t := 159 - d - Zdigits2 P).
  assert (Ht : 3 <= t) by (unfold t; lia).
  assert (HT : 2 ^ t = 2 * 2 ^ (t - 1)).
  { change 2 with (2 ^ 1) at 2. rewrite <- Z.pow_add_r by lia. f_equal. lia. }
  pose proof (pow2_pos (t - 1) ltac:(lia)) as HT0.
  assert (Hcase : (k = 52 /\ 2 ^ t = 2 * A /\ Q * 2 ^ t = 2 * (Q * A))
                  \/ (k = 53 /\ 2 ^ t = A /\ Q * 2 ^ t = Q * A)).
  { assert (D : Zdigits2 P = 105 \/ Zdigits2 P = 106) by lia.
    destruct D as [D | D]; [ left | right ]; unfold k, t, A; rewrite D.
    - replace (159 - d - 105) with (1 + (53 - d)) by lia.
      rewrite Z.pow_add_r by lia. change (2 ^ 1) with 2. lia.
    - replace (159 - d - 106) with (53 - d) by lia. lia. }
  assert (HPk : 2 ^ k * 2 ^ 52 <= P < 2 ^ k * 2 ^ 53).
  { unfold k. rewrite <- !Z.pow_add_r by lia.
    replace (Zdigits2 P - 53 + 52) with (Zdigits2 P - 1) by lia.
    replace (Zdigits2 P - 53 + 53) with (Zdigits2 P) by lia. exact HPb. }
  assert (Hev : Z.even (Q * 2 ^ t) = true).
  { rewrite HT, Z.mul_assoc, (Z.mul_comm Q 2), <- Z.mul_assoc.
    apply Z.even_mul. }
  pose proof (decay_kernel_lin (c * A) (Q * A) (rho * A) A (2 ^ t) (Q * 2 ^ t)
                P k Hcase H19 H20 Hm HPk ltac:(lia) HRA Hev) as Hr.
  replace (d - 53 <=? 971) with true by (symmetry; apply Z.leb_le; lia).
  replace (d - 53 - 53 + Zdigits2 P - 53) with (- t) by (unfold t; lia).
  set (r := rne P k) in *.
  destruct (Z.eqb_spec r (2 ^ 53)) as [E | E]; cbn [fst snd andb].
  - replace (- t + 1 <=? 971) with true by (symmetry; apply Z.leb_le; lia).
    f_equal. rewrite Z.shiftl_div_pow2 by lia.
    replace (- (- t + 1)) with (t - 1) by lia.
    apply div_between; [ exact HT0 |].
    change (2 ^ 53) with (2 * 2 ^ 52) in E. lia.
  - replace (- t <=? 971) with true by (symmetry; apply Z.leb_le; lia).
    f_equal. rewrite Z.shiftl_div_pow2 by lia.
    rewrite Z.opp_involutive.
    apply div_between; lia.
Qed.

Lemma decay_pos_returns (c : Z) :
  0 < c < 2 ^ 1022 -> exists b, decay_pos c = Some b.
Proof.
  intros [Hc Hlt]. pose proof (Zdigits2_upper c 1022 Hc Hlt) as Hd.
  destruct (aligned_pos c Hc) as (Ha & Hda & _).
  pose proof (round_pair_range _ Ha Hda) as Hx.
  pose proof (round_pair_exponent c Hc) as Hfx.
  unfold decay_pos. set (x := round_pair (aligned c)) in *. clearbody x.
  destruct (product_digits (fst x) Hx) as (Hp & Hdp).
  assert (Hy : snd (round_pair (fst x * decay_mantissa, snd x - 53))
               <= snd x + 1).
  { unfold round_pair, norm. cbn [fst snd].
    destruct (_ =? _); cbn [snd]; lia. }
  set (y := round_pair (fst x * decay_mantissa, snd x - 53)) in *.
  replace (snd x <=? 971) with true by (symmetry; apply Z.leb_le; lia).
  replace (snd y <=? 971) with true by (symmetry; apply Z.leb_le; lia).
  eexists. reflexivity.
Qed.

Lemma decay_count_exact (c : Z) :
  Z.abs c <= 2 ^ 50 -> decay_count c = Some (truncated_095 c).
Proof.
  intros H. unfold truncated_095.
  destruct (Z.eq_dec (Z.abs c) (2 ^ 50)) as [E | E].
  - assert (C : c = 2 ^ 50 \/ c = - 2 ^ 50) by lia.
    destruct C as [-> | ->]; vm_compute; reflexivity.
  - destruct (Z.lt_trichotomy c 0) as [N | [-> | P]].
    + rewrite decay_count_neg by assumption.
      rewrite decay_pos_small by lia. cbn [option_map]. f_equal.
      rewrite <- Z.quot_div_nonneg by lia.
      rewrite <- Z.quot_opp_l by lia. f_equal. lia.
    + exact decay_count_0.
    + rewrite decay_count_pos by assumption.
      rewrite decay_pos_small by lia. f_equal.
      symmetry. apply Z.quot_div_nonneg; lia.
Qed.

Lemma decay_count_returns (c : Z) :
  Z.abs c < 2 ^ 1022 -> exists b, decay_count c = Some b.
Proof.
  intros H. destruct (Z.lt_trichotomy c 0) as [N | [-> | P]].
  - rewrite decay_count_neg by assumption.
    destruct (decay_pos_returns (- c) ltac:(lia)) as (b & ->).
    eexists. reflexivity.
  - eexists. exact decay_count_0.
  - rewrite decay_count_pos by assumption.
    apply decay_pos_returns. lia.
Qed.

(** Beyond that range the double product is no longer the truncated
    [19 c / 20]: a little above [2^50 / 0.95] the two differ by one. *)
Lemma decay_count_inexact :
  decay_count 1185237467289601 = Some 1125975593925121
  /\ truncated_095 1185237467289601 = 1125975593925120.
Proof. split; vm_compute; reflexivity. Qed.

Lemma confidence_counts (b : IdleBucket) :
  confidence b = confidence (counts (total_count b) (validated_count b)).
Proof. destruct b; reflexivity. Qed.

(** The Wilson bound of a bucket below 50 samples is computed without a
    [ValueError] or a [ZeroDivisionError]. *)
Lemma confidence_small (b : IdleBucket) :
  bucket_inv b -> total_count b < 50 -> exists c, confidence b = Some c.
Proof.
  unfold bucket_inv. intros Hv Ht. rewrite confidence_counts.
  assert (H : confidence_check (total_count b) = true).
  { apply (Zrange_forallb confidence_check 50); [ vm_compute; reflexivity | lia ]. }
  unfold confidence_check in H.
  apply Zrange_forallb with (z := validated_count b) in H; [| lia ].
  destruct (confidence (counts (total_count b) (validated_count b))) as [c |];
    [ exists c; reflexivity | discriminate H ].
Qed.

Lemma validation_rate_total (b : IdleBucket) :
  exists r, validation_rate b = Some r.
Proof.
  unfold validation_rate, Py.int_truediv.
  destruct (total_count b =? 0); eexists; reflexivity.
Qed.

Lemma pm_validation_rate_total (m : ProjectModifier) :
  exists r, pm_validation_rate m = Some r.
Proof.
  unfold pm_validation_rate, Py.int_truediv.
  destruct (pm_total_validations m + pm_total_rejections m =? 0);
    eexists; reflexivity.
Qed.

(** ** Bucket lookup *)

Lemma bucket_key_cases (d : Z) :
  _bucket_key d =
    if (0 <=? d) && (d <? 180) then "0-180"%string
    else if (180 <=? d) && (d <? 420) then "180-420"%string
    else if (420 <=? d) && (d <? 900) then "420-900"%string
    else if (900 <=? d) && (d <? 1500) then "900-1500"%string
    else "1500-3600"%string.
Proof.
  unfold _bucket_key, BUCKET_RANGES, find_range.
  repeat match goal with
         | |- context [if ?c then _ else _] => destruct c
         end; reflexivity.
Qed.

(** One of the five keys, whatever the duration. *)
Ltac pick_key :=
  rewrite bucket_key_cases;
  repeat match goal with
         | |- context [if ?c && ?d then _ else _] => destruct (c && d)
         end.

Lemma keys_ok_shape (p : CognitiveProfile) :
  keys_ok p ->
  exists b0 b1 b2 b3 b4,
    _buckets p =
      [("0-180"%string, b0); ("180-420"%string, b1); ("420-900"%string, b2);
       ("900-1500"%string, b3); ("1500-3600"%string, b4)].
Proof.
  unfold keys_ok, Py.dict_keys. intros H.
  destruct (_buckets p) as [| [k0 b0] [| [k1 b1] [| [k2 b2] [| [k3 b3]
    [| [k4 b4] [| ? ?]]]]]]; try discriminate H.
  vm_compute in H. injection H as -> -> -> -> ->.
  exists b0, b1, b2, b3, b4. reflexivity.
Qed.

Lemma get_bucket_key (p : CognitiveProfile) (idle : Z) :
  keys_ok p ->
  exists b, _get_bucket p idle = Some (_bucket_key idle, b)
            /\ In b (Py.dict_values (_buckets p)).
Proof.
  intros Hk. destruct (keys_ok_shape p Hk) as (b0 & b1 & b2 & b3 & b4 & Hb).
  unfold _get_bucket. rewrite Hb. pick_key; cbn; eexists; split;
    try reflexivity; tauto.
Qed.

Ltac range_cases d :=
  destruct (Z.ltb_spec d 180); [|
  destruct (Z.ltb_spec d 420); [|
  destruct (Z.ltb_spec d 900); [|
  destruct (Z.ltb_spec d 1500); [|
  destruct (Z.ltb_spec d 3600) ]]]].

Ltac each_range H :=
  cbn in H;
  repeat (destruct H as [H | H]; [ injection H as <- <- |]);
  try contradiction.

(** C4: a duration [d >= 0] is looked up in exactly one of the five
    ranges [0,180), [180,420), [420,900), [900,1500), [1500,3600): the key
    [_bucket_key] returns is that of a range of [BUCKET_RANGES] which
    holds [d], or of the last range when [d >= 3600]; no other range holds
    [d]; and [_get_bucket] returns the bucket stored under that key. *)
Theorem bucket_lookup_exactly_one (d : Z) :
  0 <= d ->
  exists lo hi,
    In (lo, hi) BUCKET_RANGES
    /\ _bucket_key d = range_key (lo, hi)
    /\ (lo <= d < hi \/ (3600 <= d /\ (lo, hi) = (1500, 3600)))
    /\ (forall lo' hi',
          In (lo', hi') BUCKET_RANGES -> lo' <= d < hi' ->
          (lo', hi') = (lo, hi))
    /\ (forall p, keys_ok p ->
          exists b, _get_bucket p d = Some (range_key (lo, hi), b)
                    /\ Py.dict_get (_buckets p) (range_key (lo, hi)) = Some b)
    /\ (exists b, _get_bucket init d = Some (range_key (lo, hi), b)
                  /\ min_seconds b = lo /\ max_seconds b = hi)
    /\ BUCKET_RANGES =
         [(0, 180); (180, 420); (420, 900); (900, 1500); (1500, 3600)].
Proof.
  intros Hd.
  assert (Hsel : forall lo hi,
             In (lo, hi) BUCKET_RANGES ->
             (lo <= d < hi \/ (3600 <= d /\ (lo, hi) = (1500, 3600))) ->
             _bucket_key d = range_key (lo, hi)).
  { intros lo hi Hin Hr. rewrite bucket_key_cases.
    each_range Hin;
      (destruct Hr as [Hr | [Hr Heq]]; [| try discriminate Heq ]);
      decide_cmp; reflexivity. }
  assert (Hex : exists lo hi, In (lo, hi) BUCKET_RANGES
            /\ (lo <= d < hi \/ (3600 <= d /\ (lo, hi) = (1500, 3600)))).
  { range_cases d.
    - exists 0, 180. cbn. split; [ tauto | lia ].
    - exists 180, 420. cbn. split; [ tauto | lia ].
    - exists 420, 900. cbn. split; [ tauto | lia ].
    - exists 900, 1500. cbn. split; [ tauto | lia ].
    - exists 1500, 3600. cbn. split; [ tauto | lia ].
    - exists 1500, 3600. cbn.
      split; [ tauto | right; split; [ lia | reflexivity ] ]. }
  destruct Hex as (lo & hi & Hin & Hr).
  exists lo, hi. split; [ exact Hin |]. split; [ apply Hsel; assumption |].
  split; [ exact Hr |]. split; [| split; [| split; [| reflexivity ]]].
  - intros lo' hi' Hin' Hr'.
    each_range Hin; each_range Hin'; try reflexivity; exfalso;
      destruct Hr as [Hr | [Hr1 Hr2]]; lia.
  - intros p Hk.
    destruct (keys_ok_shape p Hk) as (b0 & b1 & b2 & b3 & b4 & Hb).
    unfold _get_bucket. rewrite (Hsel lo hi Hin Hr), Hb.
    each_range Hin; eexists; split; reflexivity.
  - unfold _get_bucket. rewrite (Hsel lo hi Hin Hr).
    each_range Hin; eexists; repeat split; reflexivity.
Qed.

Lemma bucket_lookup_exactly_one_witness :
  exists lo hi,
    In (lo, hi) BUCKET_RANGES
    /\ _bucket_key 3600 = range_key (lo, hi)
    /\ (lo <= 3600 < hi \/ (3600 <= 3600 /\ (lo, hi) = (1500, 3600)))
    /\ (forall lo' hi',
          In (lo', hi') BUCKET_RANGES -> lo' <= 3600 < hi' ->
          (lo', hi') = (lo, hi))
    /\ (forall p, keys_ok p ->
          exists b, _get_bucket p 3600 = Some (range_key (lo, hi), b)
                    /\ Py.dict_get (_buckets p) (range_key (lo, hi)) = Some b)
    /\ (exists b, _get_bucket init 3600 = Some (range_key (lo, hi), b)
                  /\ min_seconds b = lo /\ max_seconds b = hi)
    /\ BUCKET_RANGES =
         [(0, 180); (180, 420); (420, 900); (900, 1500); (1500, 3600)].
Proof. apply (bucket_lookup_exactly_one 3600). discriminate. Defined.

(** ** Pause classification *)

Lemma classify_pause_rules (p : CognitiveProfile) (d : Z) (i : float) :
  classify_pause p d i =
    if micro (minutes_of d) i then MICRO_THINKING
    else if planning (minutes_of d) then PLANNING_PAUSE
    else if switching (minutes_of d) (_recent_pauses p) then CONTEXT_SWITCH
    else if long_break (minutes_of d) then BREAK
    else UNKNOWN.
Proof. reflexivity. Qed.

Lemma first_match_unique (m i : float) (h : list PauseEvent)
    (r r' : PausePattern) :
  first_match m i h r -> first_match m i h r' -> r = r'.
Proof. intros H H'. destruct H; destruct H'; congruence. Qed.

(** Up to the largest idle time the timer can hand over (25 minutes), the
    comparisons on the double [d / 60] are those on the integer [d]. *)
Lemma minutes_thresholds_exact (d : Z) :
  0 <= d <= 1500 ->
  let m := minutes_of d in
  (m <=? 3)%float = (d <=? 180)
  /\ (5 <=? m)%float = (300 <=? d)
  /\ (m <=? 12)%float = (d <=? 720)
  /\ (m <? 10)%float = (d <? 600)
  /\ (15 <? m)%float = (900 <? d).
Proof.
  intros Hd m.
  assert (H : minutes_check d = true).
  { apply (Zrange_forallb minutes_check 1501); [ vm_compute; reflexivity | lia ]. }
  unfold minutes_check in H. fold m in H.
  repeat (apply andb_true_iff in H; destruct H as [H ?]).
  repeat split; apply eqb_prop; assumption.
Qed.

(** C6: [classify_pause] returns the pattern of the first rule that
    holds, the rules being tried in the order MICRO_THINKING ([d/60 <= 3]
    and [i > 0.5]), PLANNING_PAUSE ([5 <= d/60 <= 12]), CONTEXT_SWITCH (at
    least 2 of the last 5 pauses rejected and shorter than 300 s, and
    [d/60 < 10]), BREAK ([d/60 > 15]), else UNKNOWN; no other pattern
    fits.  For 90 s at intensity 0.8 with no history it is MICRO_THINKING,
    and for 600 s it is PLANNING_PAUSE whatever the intensity and the
    history. *)
Theorem classify_pause_first_match :
  (forall p d i,
      first_match (minutes_of d) i (_recent_pauses p) (classify_pause p d i)
      /\ (forall r, first_match (minutes_of d) i (_recent_pauses p) r ->
                    r = classify_pause p d i))
  /\ (forall m i,
        micro m i = ((m <=? 3)%float && (0.5 <? i)%float))
  /\ (forall m, planning m = ((5 <=? m)%float && (m <=? 12)%float))
  /\ (forall m h,
        switching m h =
          ((2 <=? Z.of_nat
                    (List.length
                       (filter
                          (fun e =>
                             negb (was_validated e)
                             && (duration_seconds e <? 300))
                          (Py.last_n 5 h))))
           && (m <? 10)%float))
  /\ (forall m, long_break m = (15 <? m)%float)
  /\ classify_pause init 90 0.8 = MICRO_THINKING
  /\ (forall p i, classify_pause p 600 i = PLANNING_PAUSE).
Proof.
  split; [| repeat split ].
  intros p d i.
  assert (H : first_match (minutes_of d) i (_recent_pauses p)
                (classify_pause p d i)).
  { rewrite classify_pause_rules.
    destruct (micro (minutes_of d) i) eqn:E1; [ constructor; assumption |].
    destruct (planning (minutes_of d)) eqn:E2; [ constructor; assumption |].
    destruct (switching (minutes_of d) (_recent_pauses p)) eqn:E3;
      [ constructor; assumption |].
    destruct (long_break (minutes_of d)) eqn:E4; constructor; assumption. }
  split; [ exact H |].
  intros r Hr. exact (first_match_unique _ _ _ _ _ Hr H).
Qed.

(** ** The bucket update of [record_validation] *)

Lemma keys_ok_init : keys_ok init.
Proof. reflexivity. Qed.

Lemma update_buckets_eq (p : CognitiveProfile) (idle : Z) (v : bool) :
  keys_ok p ->
  update_buckets p idle v =
    _apply_decay_to_buckets (with_buckets p (bumped p idle v)).
Proof.
  intros Hk. destruct (get_bucket_key p idle Hk) as (b & Hb & _).
  unfold update_buckets. rewrite Hb. reflexivity.
Qed.

Lemma bumped_total (p : CognitiveProfile) (idle : Z) (v : bool) :
  keys_ok p ->
  total_samples (with_buckets p (bumped p idle v)) = total_samples p + 1.
Proof.
  intros Hk. destruct (keys_ok_shape p Hk) as (b0 & b1 & b2 & b3 & b4 & Hb).
  unfold total_samples, bumped. cbn [_buckets with_buckets]. rewrite Hb.
  pick_key; cbn; lia.
Qed.

Lemma bumped_keys (p : CognitiveProfile) (idle : Z) (v : bool) :
  keys_ok p -> keys_ok (with_buckets p (bumped p idle v)).
Proof.
  intros Hk. destruct (keys_ok_shape p Hk) as (b0 & b1 & b2 & b3 & b4 & Hb).
  unfold keys_ok, bumped. cbn [_buckets with_buckets]. rewrite Hb.
  pick_key; reflexivity.
Qed.

Lemma bumped_never_lower (p : CognitiveProfile) (idle : Z) (v : bool) :
  keys_ok p -> never_lower (_buckets p) (bumped p idle v).
Proof.
  intros Hk. destruct (keys_ok_shape p Hk) as (b0 & b1 & b2 & b3 & b4 & Hb).
  unfold never_lower, bumped. rewrite Hb.
  pick_key; cbn; repeat constructor; cbn; lia.
Qed.

Lemma bumped_inv (p : CognitiveProfile) (idle : Z) (v : bool) :
  keys_ok p -> buckets_inv p -> buckets_inv (with_buckets p (bumped p idle v)).
Proof.
  intros Hk. destruct (keys_ok_shape p Hk) as (b0 & b1 & b2 & b3 & b4 & Hb).
  unfold buckets_inv, bucket_inv, bumped. cbn [_buckets with_buckets].
  rewrite Hb. cbn. intros H. invert_Forall.
  pick_key; cbn; repeat constructor; cbn; try lia; destruct v; lia.
Qed.

Lemma dict_adjust_Forall_impl {V} (P Q : V -> Prop) (f : V -> V)
    (d : list (string * V)) (k : string) :
  (forall v, P v -> Q v) -> (forall v, P v -> Q (f v)) ->
  Forall P (Py.dict_values d) ->
  Forall Q (Py.dict_values (Py.dict_adjust f d k)).
Proof.
  intros Hi Hf. induction d as [| [k' v] d IH]; cbn; intros H;
    [ constructor |].
  inversion H; subst.
  destruct (String.eqb k' k); cbn; constructor; auto.
  eapply Forall_impl; [| eassumption ]. exact Hi.
Qed.

Lemma counts_within_mono (n n' : Z) (p : CognitiveProfile) :
  n <= n' -> counts_within n p -> counts_within n' p.
Proof.
  intros Hn. unfold counts_within. apply Forall_impl. intros b. lia.
Qed.

(** The counts of the incremented buckets. *)
Lemma bumped_counts (n : Z) (p : CognitiveProfile) (idle : Z) (v : bool) :
  counts_within n p ->
  Forall
    (fun b => Z.abs (total_count b) <= n /\ Z.abs (validated_count b) <= n)
    (Py.dict_values (bumped p idle v)).
Proof.
  unfold counts_within, bumped. apply dict_adjust_Forall_impl.
  - intros b. lia.
  - intros b. unfold bump. cbn. destruct v; lia.
Qed.

(** Up to 2^50 the decay of every bucket is the truncated [19 c / 20]. *)
Lemma decay_all_decayed (bs bs' : list (string * IdleBucket)) :
  Forall
    (fun b => Z.abs (total_count b) <= 2 ^ 50
              /\ Z.abs (validated_count b) <= 2 ^ 50)
    (Py.dict_values bs) ->
  decay_all bs = Some bs' -> decayed bs bs'.
Proof.
  revert bs'. induction bs as [| [k b] bs IH]; intros bs' Hc H;
    cbn [decay_all] in H.
  - injection H as <-. constructor.
  - cbn [Py.dict_values map snd] in Hc.
    inversion Hc as [| ? ? [Ht Hv] Hc']; subst.
    unfold decay_bucket in H.
    rewrite (decay_count_exact _ Ht), (decay_count_exact _ Hv) in H.
    cbn [Py.bind] in H.
    destruct (decay_all bs) as [r |]; [| discriminate H ].
    cbn [Py.bind] in H. injection H as <-.
    constructor; [| apply IH; [ exact Hc' | reflexivity ] ].
    cbn [fst snd min_seconds max_seconds total_count validated_count].
    auto.
Qed.

Lemma decay_all_returns (bs : list (string * IdleBucket)) :
  Forall
    (fun b => Z.abs (total_count b) < 2 ^ 1022
              /\ Z.abs (validated_count b) < 2 ^ 1022)
    (Py.dict_values bs) ->
  exists bs', decay_all bs = Some bs'.
Proof.
  induction bs as [| [k b] bs IH]; intros Hc; cbn [decay_all].
  - eexists. reflexivity.
  - cbn [Py.dict_values map snd] in Hc.
    inversion Hc as [| ? ? [Ht Hv] Hc']; subst.
    destruct (decay_count_returns _ Ht) as (t & Et).
    destruct (decay_count_returns _ Hv) as (w & Ew).
    destruct (IH Hc') as (r & Er).
    unfold decay_bucket. rewrite Et, Ew, Er. cbn [Py.bind].
    eexists. reflexivity.
Qed.

(** The decay keeps the invariant of a bucket, whatever its counts:
    [int(c * 0.95)] is monotone. *)
Lemma decay_bucket_inv (b b' : IdleBucket) :
  bucket_inv b -> decay_bucket b = Some b' -> bucket_inv b'.
Proof.
  unfold bucket_inv, decay_bucket. intros Hb H.
  destruct (decay_count (total_count b)) as [t |] eqn:Et; [| discriminate H ].
  destruct (decay_count_mono _ _ t Hb Et) as (w & Ew & Hw).
  rewrite Ew in H. cbn [Py.bind] in H. injection H as <-.
  cbn [total_count validated_count]. exact Hw.
Qed.

Lemma decay_all_inv (bs bs' : list (string * IdleBucket)) :
  Forall bucket_inv (Py.dict_values bs) -> decay_all bs = Some bs' ->
  Forall bucket_inv (Py.dict_values bs').
Proof.
  revert bs'. induction bs as [| [k b] bs IH]; intros bs' Hi H;
    cbn [decay_all] in H.
  - injection H as <-. constructor.
  - cbn [Py.dict_values map snd] in Hi. inversion Hi; subst.
    destruct (decay_bucket b) as [b' |] eqn:Eb; [| discriminate H ].
    cbn [Py.bind] in H.
    destruct (decay_all bs) as [r |]; [| discriminate H ].
    cbn [Py.bind] in H. injection H as <-.
    cbn [Py.dict_values map snd]. constructor.
    + eapply decay_bucket_inv; eassumption.
    + apply IH; [ assumption | reflexivity ].
Qed.

Lemma apply_decay_inv (q q' : CognitiveProfile) :
  buckets_inv q -> _apply_decay_to_buckets q = Some q' -> buckets_inv q'.
Proof.
  unfold _apply_decay_to_buckets, buckets_inv. intros Hi H.
  destruct ((0 <? total_samples q) && (total_samples q mod 50 =? 0)).
  - destruct (decay_all (_buckets q)) as [bs |] eqn:Ed; [| discriminate H ].
    cbn [Py.bind] in H. injection H as <-. cbn [_buckets with_buckets].
    eapply decay_all_inv; eassumption.
  - injection H as <-. exact Hi.
Qed.

Lemma update_buckets_inv (p p1 : CognitiveProfile) (idle : Z) (v : bool) :
  buckets_inv p -> update_buckets p idle v = Some p1 -> buckets_inv p1.
Proof.
  unfold update_buckets. intros Hi H.
  destruct (_get_bucket p idle) as [[key b] |]; [| discriminate H ].
  cbn [Py.bind] in H. apply (apply_decay_inv _ _ ) in H; [ exact H |].
  unfold buckets_inv. cbn [_buckets with_buckets].
  apply (dict_adjust_Forall_impl bucket_inv bucket_inv);
    [ auto | | exact Hi ].
  intros b0. unfold bucket_inv, bump. cbn. destruct v; lia.
Qed.

Lemma apply_decay_returns (q : CognitiveProfile) :
  Forall
    (fun b => Z.abs (total_count b) < 2 ^ 1022
              /\ Z.abs (validated_count b) < 2 ^ 1022)
    (Py.dict_values (_buckets q)) ->
  exists q', _apply_decay_to_buckets q = Some q'.
Proof.
  intros Hc. unfold _apply_decay_to_buckets.
  destruct ((0 <? total_samples q) && (total_samples q mod 50 =? 0)).
  - destruct (decay_all_returns _ Hc) as (bs & ->). eexists. reflexivity.
  - eexists. reflexivity.
Qed.

(** The decay keeps (or brings) the grand total below 50. *)
Lemma apply_decay_wf (q : CognitiveProfile) :
  keys_ok q -> buckets_inv q -> 0 < total_samples q <= 50 ->
  exists q1, _apply_decay_to_buckets q = Some q1 /\ wf q1.
Proof.
  intros Hk Hi Hs.
  destruct (keys_ok_shape q Hk) as (b0 & b1 & b2 & b3 & b4 & Hb).
  unfold _apply_decay_to_buckets.
  destruct ((0 <? total_samples q) && (total_samples q mod 50 =? 0)) eqn:E.
  - apply andb_true_iff in E. destruct E as [_ E]. apply Z.eqb_eq in E.
    assert (S50 : total_samples q = 50) by div_lia. clear E Hs.
    unfold buckets_inv, bucket_inv in Hi. unfold total_samples in S50.
    rewrite Hb in *. cbn in Hi, S50. invert_Forall.
    cbn. unfold decay_bucket.
    rewrite !decay_count_small by lia. cbn.
    eexists. split; [ reflexivity |].
    unfold wf, keys_ok, buckets_inv, bucket_inv, total_samples. cbn.
    split; [ reflexivity |]. split; [ repeat constructor; cbn |]; div_lia.
  - exists q. split; [ reflexivity |].
    apply andb_false_iff in E. unfold wf. repeat split; auto.
    destruct E as [E | E]; [ apply Z.ltb_ge in E; lia |].
    apply Z.eqb_neq in E. div_lia.
Qed.

Lemma wf_init : wf init.
Proof.
  unfold wf, buckets_inv, bucket_inv, total_samples. cbn.
  split; [ reflexivity |]. split; [ repeat constructor; cbn; lia | lia ].
Qed.

Lemma total_samples_nonneg (p : CognitiveProfile) :
  keys_ok p ->
  Forall (fun b => 0 <= total_count b) (Py.dict_values (_buckets p)) ->
  0 <= total_samples p.
Proof.
  intros Hk H. destruct (keys_ok_shape p Hk) as (b0 & b1 & b2 & b3 & b4 & Hb).
  unfold total_samples. rewrite Hb in *. cbn in *. invert_Forall. lia.
Qed.

Lemma inv_totals_nonneg (p : CognitiveProfile) :
  buckets_inv p ->
  Forall (fun b => 0 <= total_count b) (Py.dict_values (_buckets p)).
Proof.
  unfold buckets_inv, bucket_inv. intros Hi.
  eapply Forall_impl; [| exact Hi ]. cbn. intros; lia.
Qed.

Lemma wf_update_buckets (p : CognitiveProfile) (idle : Z) (v : bool) :
  wf p -> exists p1, update_buckets p idle v = Some p1 /\ wf p1.
Proof.
  intros (Hk & Hi & Hs). rewrite update_buckets_eq by assumption.
  apply apply_decay_wf.
  - apply bumped_keys, Hk.
  - apply bumped_inv; assumption.
  - rewrite bumped_total by assumption.
    pose proof (total_samples_nonneg p Hk (inv_totals_nonneg p Hi)). lia.
Qed.

Lemma record_validation_buckets env p idle v proj p' :
  record_validation env p idle v proj = Some p' ->
  exists p1, update_buckets p idle v = Some p1 /\ _buckets p' = _buckets p1.
Proof.
  unfold record_validation. intros H.
  destruct (update_buckets p idle v) as [p1 |]; [| discriminate H ].
  exists p1. split; [ reflexivity |]. cbn in H.
  destruct (session_age_now env p); [| discriminate H ]. cbn in H.
  destruct (update_modifiers p proj idle v); [| discriminate H ]. cbn in H.
  injection H as <-. reflexivity.
Qed.

Lemma update_buckets_returns (p : CognitiveProfile) (idle : Z) (v : bool) :
  keys_ok p -> counts_within (2 ^ 1021) p ->
  exists p1, update_buckets p idle v = Some p1.
Proof.
  intros Hk Hc. rewrite update_buckets_eq by assumption.
  apply apply_decay_returns. cbn [_buckets with_buckets].
  eapply Forall_impl; [| exact (bumped_counts _ p idle v Hc) ].
  intros b. cbn beta.
  assert (2 ^ 1021 < 2 ^ 1022) by (apply Z.pow_lt_mono_r; lia).
  lia.
Qed.

Lemma record_validation_returns env p idle v proj :
  keys_ok p -> counts_within (2 ^ 1021) p ->
  bookkeeping_ok env p idle v proj ->
  exists p', record_validation env p idle v proj = Some p'.
Proof.
  intros Hk Hc (Hage & Hmods).
  destruct (update_buckets_returns p idle v Hk Hc) as (p1 & Hp1).
  unfold record_validation. rewrite Hp1. cbn.
  destruct (session_age_now env p); [| congruence ]. cbn.
  destruct (update_modifiers p proj idle v); [| congruence ]. cbn.
  eexists; reflexivity.
Qed.

Lemma record_validation_inv env p idle v proj p' :
  buckets_inv p -> record_validation env p idle v proj = Some p' ->
  buckets_inv p'.
Proof.
  intros Hi H.
  destruct (record_validation_buckets _ _ _ _ _ _ H) as (p1 & Hp1 & Hb).
  unfold buckets_inv. rewrite Hb.
  exact (update_buckets_inv p p1 idle v Hi Hp1).
Qed.

Lemma wf_same_buckets (p q : CognitiveProfile) :
  _buckets p = _buckets q -> wf q -> wf p.
Proof.
  unfold wf, keys_ok, buckets_inv, total_samples. intros ->. auto.
Qed.

(** C5: in a call of [record_validation] the matched bucket's total goes
    up by one and no other total changes; the grand total after this
    increment is the old one plus one, and the buckets the call leaves are
    the incremented ones when that total is not a multiple of 50.  When
    it is, every count [c] of the incremented ones has become [19 c / 20]
    truncated: that is what [int(c * 0.95)] gives in doubles for counts
    up to 2^50, and not for all larger ones.  The call returns whenever
    its bookkeeping outside the buckets raises nothing, for counts that
    convert to doubles and ints that convert as they are. *)
Theorem record_validation_monotone_until_decay
    (env : Env) (p : CognitiveProfile) (idle : Z) (v : bool)
    (proj : option string) :
  (forall p',
      keys_ok p ->
      Forall (fun b => 0 <= total_count b) (Py.dict_values (_buckets p)) ->
      record_validation env p idle v proj = Some p' ->
      total_samples (with_buckets p (bumped p idle v)) = total_samples p + 1
      /\ never_lower (_buckets p) (bumped p idle v)
      /\ ((total_samples p + 1) mod 50 <> 0 ->
          _buckets p' = bumped p idle v)
      /\ ((total_samples p + 1) mod 50 = 0 ->
          counts_within (2 ^ 50) p ->
          decayed (bumped p idle v) (_buckets p')))
  /\ (keys_ok p -> counts_within (2 ^ 1021) p ->
      converts_exactly p idle proj -> bookkeeping_ok env p idle v proj ->
      exists p', record_validation env p idle v proj = Some p')
  /\ (decay_count 1185237467289601 = Some 1125975593925121
      /\ truncated_095 1185237467289601 = 1125975593925120).
Proof.
  split; [| split; [| exact decay_count_inexact ] ].
  - intros p' Hk Hpos H.
    destruct (record_validation_buckets _ _ _ _ _ _ H) as (p1 & Hp1 & ->).
    rewrite update_buckets_eq in Hp1 by assumption.
    pose proof (bumped_total p idle v Hk) as Hsum.
    pose proof (total_samples_nonneg p Hk Hpos) as H0.
    split; [ exact Hsum |]. split; [ apply bumped_never_lower, Hk |].
    unfold _apply_decay_to_buckets in Hp1. rewrite Hsum in Hp1.
    replace (0 <? total_samples p + 1) with true in Hp1
      by (symmetry; apply Z.ltb_lt; lia).
    cbn [andb] in Hp1.
    destruct (Z.eqb_spec ((total_samples p + 1) mod 50) 0) as [E | E].
    + destruct (decay_all (_buckets (with_buckets p (bumped p idle v))))
        as [bs |] eqn:Ed; [| discriminate Hp1 ].
      cbn [Py.bind] in Hp1. injection Hp1 as <-.
      split; [ intros Hne; contradiction |].
      intros _ Hc. cbn [_buckets with_buckets] in *.
      apply decay_all_decayed; [| exact Ed ].
      apply bumped_counts, Hc.
    + injection Hp1 as <-.
      split; [ intros _; reflexivity | intros E'; contradiction ].
  - intros Hk Hc _ Hb. apply record_validation_returns; assumption.
Qed.

Lemma record_validation_monotone_until_decay_witness :
  exists p',
    record_validation morning (with_counts 49 40 0 0 0 0 0 0 0 0)
      90 true None = Some p'
    /\ decayed (bumped (with_counts 49 40 0 0 0 0 0 0 0 0) 90 true)
         (_buckets p')
    /\ bucket_counts p'
       = [("0-180"%string, (47, 38)); ("180-420"%string, (0, 0));
          ("420-900"%string, (0, 0)); ("900-1500"%string, (0, 0));
          ("1500-3600"%string, (0, 0))].
Proof.
  eexists. split; [ vm_compute; reflexivity |].
  split; [| reflexivity ].
  apply (proj1 (record_validation_monotone_until_decay morning
                  (with_counts 49 40 0 0 0 0 0 0 0 0) 90 true None)).
  - reflexivity.
  - repeat constructor; cbn; lia.
  - vm_compute. reflexivity.
  - reflexivity.
  - unfold counts_within. repeat constructor; cbn; lia.
Defined.

(** ** The bucket invariant *)

Lemma dict_adjust_keys {V} (f : V -> V) (d : list (string * V)) (k : string) :
  Py.dict_keys (Py.dict_adjust f d k) = Py.dict_keys d.
Proof.
  induction d as [| [k' v] d IH]; cbn; [ reflexivity |].
  destruct (String.eqb k' k); cbn; [ reflexivity |].
  f_equal. exact IH.
Qed.

Lemma dict_adjust_Forall {V} (P : V -> Prop) (f : V -> V)
    (d : list (string * V)) (k : string) :
  (forall v, P (f v)) ->
  Forall P (Py.dict_values d) -> Forall P (Py.dict_values (Py.dict_adjust f d k)).
Proof.
  intros Hf. induction d as [| [k' v] d IH]; cbn; intros H; [ constructor |].
  inversion H; subst.
  destruct (String.eqb k' k); cbn; constructor; auto.
Qed.

Lemma load_buckets_keys (entries : list (string * BucketData))
    (bs : list (string * IdleBucket)) :
  Py.dict_keys (fold_left load_bucket entries bs) = Py.dict_keys bs.
Proof.
  revert bs. induction entries as [| e entries IH]; intros bs;
    cbn [fold_left]; [ reflexivity |].
  rewrite IH. apply dict_adjust_keys.
Qed.

Lemma load_buckets_inv (entries : list (string * BucketData))
    (bs : list (string * IdleBucket)) :
  Forall (fun e => entry_ok (snd e)) entries ->
  Forall bucket_inv (Py.dict_values bs) ->
  Forall bucket_inv (Py.dict_values (fold_left load_bucket entries bs)).
Proof.
  revert bs. induction entries as [| e entries IH]; intros bs He Hb;
    cbn [fold_left]; [ exact Hb |].
  inversion He; subst. apply IH; [ assumption |].
  unfold load_bucket. apply dict_adjust_Forall; [| exact Hb ].
  intros b. unfold bucket_inv. cbn. assumption.
Qed.

Lemma from_dict_keys (p : CognitiveProfile) (data : ProfileData) :
  keys_ok p -> keys_ok (from_dict p data).
Proof.
  unfold keys_ok, from_dict. intros Hk.
  destruct (is_empty data); [ exact Hk |]. cbn [_buckets].
  destruct (d_buckets data); [| exact Hk ].
  rewrite load_buckets_keys. exact Hk.
Qed.

Lemma from_dict_inv (p : CognitiveProfile) (data : ProfileData) :
  buckets_inv p -> data_ok data -> buckets_inv (from_dict p data).
Proof.
  unfold buckets_inv, data_ok, from_dict. intros Hi Hd.
  destruct (is_empty data); [ exact Hi |]. cbn [_buckets].
  destruct (d_buckets data); [| exact Hi ].
  apply load_buckets_inv; assumption.
Qed.

Lemma from_dict_to_dict (p0 p : CognitiveProfile) :
  keys_ok p0 -> keys_ok p ->
  bucket_counts (from_dict p0 (to_dict p)) = bucket_counts p.
Proof.
  intros H0 H.
  destruct (keys_ok_shape p0 H0) as (a0 & a1 & a2 & a3 & a4 & Ha).
  destruct (keys_ok_shape p H) as (b0 & b1 & b2 & b3 & b4 & Hb).
  unfold bucket_counts, from_dict, to_dict. cbn. rewrite Ha, Hb. reflexivity.
Qed.

(** C8, as stated, fails: [from_dict] stores whatever counts the data
    holds.  Loading an entry for ["0-180"] with ["validated": 5] and no
    ["total"] into the initial profile leaves that bucket with 5 validated
    out of 0, and an entry with ["total": 3, "validated": 7] leaves it
    with 7 out of 3. *)
Lemma from_dict_breaks_invariant :
  bucket_counts
    (from_dict init
       (one_entry "0-180"
          {| bd_min := None; bd_max := None;
             bd_total := None; bd_validated := Some 5 |}))
  = [("0-180"%string, (0, 5)); ("180-420"%string, (0, 0));
     ("420-900"%string, (0, 0)); ("900-1500"%string, (0, 0));
     ("1500-3600"%string, (0, 0))]
  /\ ~ buckets_inv
       (from_dict init
          (one_entry "0-180"
             {| bd_min := None; bd_max := None;
                bd_total := None; bd_validated := Some 5 |}))
  /\ ~ buckets_inv
       (from_dict init
          (one_entry "0-180"
             {| bd_min := Some 0; bd_max := Some 180;
                bd_total := Some 3; bd_validated := Some 7 |})).
Proof.
  split; [ reflexivity |].
  split; unfold buckets_inv, bucket_inv; cbn; intros H;
    inversion H; subst; cbn in *; lia.
Qed.

(** C8, amended: [0 <= validated_count <= total_count] holds in every
    bucket of the initial profile and after every [record_validation]
    that returns, its decay with integer truncation included, from any
    profile that has it, whatever its counts; the call returns for
    counts that convert to doubles.  [from_dict] keeps the invariant
    when every stored entry, with 0 for a missing count, satisfies it,
    as the entries written by [to_dict] from such a profile do; it
    checks nothing, so other data breaks it. *)
Theorem bucket_invariant_maintained :
  buckets_inv init
  /\ (forall q q',
        buckets_inv q -> _apply_decay_to_buckets q = Some q' ->
        buckets_inv q')
  /\ (forall p idle v p1,
        buckets_inv p -> update_buckets p idle v = Some p1 -> buckets_inv p1)
  /\ (forall env p idle v proj p',
        buckets_inv p -> record_validation env p idle v proj = Some p' ->
        buckets_inv p')
  /\ (forall env p idle v proj,
        keys_ok p -> counts_within (2 ^ 1021) p ->
        converts_exactly p idle proj -> bookkeeping_ok env p idle v proj ->
        exists p', record_validation env p idle v proj = Some p')
  /\ (forall p data,
        buckets_inv p -> data_ok data -> buckets_inv (from_dict p data))
  /\ (forall p data, keys_ok p -> keys_ok (from_dict p data))
  /\ (forall p0 p,
        keys_ok p0 -> keys_ok p -> buckets_inv p ->
        bucket_counts (from_dict p0 (to_dict p)) = bucket_counts p
        /\ buckets_inv (from_dict p0 (to_dict p))).
Proof.
  split; [ apply wf_init |].
  split; [ exact apply_decay_inv |].
  split; [ intros p idle v p1; apply update_buckets_inv |].
  split; [ exact record_validation_inv |].
  split.
  { intros env p idle v proj Hk Hc _ Hb.
    apply record_validation_returns; assumption. }
  split; [ exact from_dict_inv |]. split; [ exact from_dict_keys |].
  intros p0 p H0 Hk Hi.
  pose proof (from_dict_to_dict p0 p H0 Hk) as Hc.
  split; [ exact Hc |].
  destruct (keys_ok_shape p0 H0) as (a0 & a1 & a2 & a3 & a4 & Ha).
  destruct (keys_ok_shape p Hk) as (b0 & b1 & b2 & b3 & b4 & Hb).
  unfold buckets_inv, bucket_inv in *.
  unfold from_dict, to_dict. cbn. rewrite Ha, Hb in *. cbn in *.
  invert_Forall. repeat constructor; cbn; lia.
Qed.

Lemma bucket_invariant_maintained_witness :
  exists p',
    record_validation morning (with_counts 100 60 49 49 0 0 0 0 0 0)
      200 true None = Some p'
    /\ bucket_counts p'
       = [("0-180"%string, (95, 57)); ("180-420"%string, (47, 47));
          ("420-900"%string, (0, 0)); ("900-1500"%string, (0, 0));
          ("1500-3600"%string, (0, 0))]
    /\ buckets_inv p'.
Proof.
  eexists. split; [ vm_compute; reflexivity |].
  split; [ reflexivity |].
  apply (proj1 (proj2 (proj2 (proj2 bucket_invariant_maintained)))
           morning (with_counts 100 60 49 49 0 0 0 0 0 0) 200 true None).
  - unfold buckets_inv, bucket_inv. repeat constructor; cbn; lia.
  - vm_compute. reflexivity.
Defined.

(** ** Confidence and decision *)

Lemma wf_bucket_small (p : CognitiveProfile) (b : IdleBucket) :
  wf p -> In b (Py.dict_values (_buckets p)) ->
  bucket_inv b /\ total_count b < 50.
Proof.
  intros (Hk & Hi & Hs) Hin.
  destruct (keys_ok_shape p Hk) as (b0 & b1 & b2 & b3 & b4 & Hb).
  unfold buckets_inv, bucket_inv, total_samples in *. rewrite Hb in *.
  cbn in *. invert_Forall.
  repeat (destruct Hin as [<- | Hin]; [ split; lia |]). contradiction.
Qed.


Lemma calculate_confidence_result env p idle proj c d f :
  calculate_confidence env p idle proj = Some (c, d, f) ->
  in_unit_interval c /\ d = decide (total_samples p) c.
Proof.
  unfold calculate_confidence. intros H.
  destruct (_get_bucket p idle) as [[key bucket] |]; [| discriminate H ].
  cbn [Py.bind] in H.
  destruct (validation_rate bucket) as [base_rate |]; [| discriminate H ].
  cbn [Py.bind] in H.
  destruct (confidence bucket) as [bucket_confidence |]; [| discriminate H ].
  cbn [Py.bind] in H.
  match type of H with
  | Py.bind ?a _ = _ => destruct a as [[[pf pr] ph] |]; [| discriminate H ]
  end.
  cbn [Py.bind] in H.
  match type of H with
  | Py.bind ?a _ = _ => destruct a as [base |]; [| discriminate H ]
  end.
  cbn [Py.bind] in H.
  injection H as <- <- _.
  split; [ apply clamp_unit | reflexivity ].
Qed.

Lemma calculate_confidence_returns env p idle proj :
  wf p -> exists c d f, calculate_confidence env p idle proj = Some (c, d, f).
Proof.
  intros Hwf. pose proof Hwf as (Hk & _).
  destruct (get_bucket_key p idle Hk) as (b & Hb & Hin).
  destruct (wf_bucket_small p b Hwf Hin) as (Hinv & Hsmall).
  destruct (validation_rate_total b) as (r & Hr).
  destruct (confidence_small b Hinv Hsmall) as (bc & Hbc).
  unfold calculate_confidence. rewrite Hb. cbn [Py.bind].
  rewrite Hr. cbn [Py.bind]. rewrite Hbc. cbn [Py.bind].
  destruct (known_project p proj) as [m |].
  - destruct (pm_validation_rate_total m) as (pr & Hpr). rewrite Hpr.
    cbn [Py.bind].
    destruct (0.5 <? bc)%float; cbn [Py.bind].
    + do 3 eexists; reflexivity.
    + unfold Py.int_truediv.
      replace (Z.max 1 (_total_validations p + _total_rejections p) =? 0)
        with false by (symmetry; apply Z.eqb_neq; lia).
      cbn [Py.bind]. do 3 eexists; reflexivity.
  - cbn [Py.bind].
    destruct (0.5 <? bc)%float; cbn [Py.bind].
    + do 3 eexists; reflexivity.
    + unfold Py.int_truediv.
      replace (Z.max 1 (_total_validations p + _total_rejections p) =? 0)
        with false by (symmetry; apply Z.eqb_neq; lia).
      cbn [Py.bind]. do 3 eexists; reflexivity.
Qed.



(** The three decisions at work, at 10 in the morning: 20 validated
    samples out of 20 in the bucket and a streak give AUTO_ACCEPT, 20
    rejected out of 20 give AUTO_DISCARD, 12 out of 12 without a streak give
    ASK_USER; and with 9 samples the same confidence as in the first case
    still gives ASK_USER. *)
Example decisions_at_work :
  verdict (calculate_confidence morning
             (in_flow (with_counts 20 20 0 0 0 0 0 0 0 0)) 90 None)
  = Some (0.92400000000000015%float, AUTO_ACCEPT)
  /\ verdict (calculate_confidence morning
                (with_counts 20 0 0 0 0 0 0 0 0 0) 90 None)
     = Some (0%float, AUTO_DISCARD)
  /\ verdict (calculate_confidence morning
                (with_counts 12 12 0 0 0 0 0 0 0 0) 90 None)
     = Some (0.68250000000000011%float, ASK_USER)
  /\ verdict (calculate_confidence morning
                (in_flow (with_counts 9 9 0 0 0 0 0 0 0 0)) 90 None)
     = Some (0.92400000000000015%float, ASK_USER).
Proof. repeat split; vm_compute; reflexivity. Qed.

(** Outside the bucket invariant the Wilson bound can raise: with -2
    validated out of -5 the argument of [math.sqrt] is negative. *)
Remark wilson_bound_raises_on_negative_counts :
  confidence (counts (-5) (-2)) = None.
Proof. vm_compute. reflexivity. Qed.

(** ** Trust level *)

Lemma get_trust_level_low (p : CognitiveProfile) :
  _total_validations p + _total_rejections p < 10 ->
  get_trust_level p = Some 0%float.
Proof.
  intros H. unfold get_trust_level, MIN_SAMPLES_FOR_AUTO.
  apply Z.ltb_lt in H. rewrite H. reflexivity.
Qed.

Lemma get_trust_level_high (p : CognitiveProfile) :
  10 <= _total_validations p + _total_rejections p ->
  get_trust_level p =
    Some (Py.min 1
            (trust_formula (_total_validations p + _total_rejections p)
               (Py.float_of_int (_total_validations p)
                / Py.float_of_int (_total_validations p + _total_rejections p))
               (_longest_validated_streak p)))
  /\ Py.int_truediv (_total_validations p)
       (_total_validations p + _total_rejections p)
     = Some (Py.float_of_int (_total_validations p)
             / Py.float_of_int (_total_validations p + _total_rejections p))%float.
Proof.
  intros H. unfold get_trust_level, MIN_SAMPLES_FOR_AUTO, Py.int_truediv.
  replace (_total_validations p + _total_rejections p <? 10) with false
    by (symmetry; apply Z.ltb_ge; lia).
  replace (0 <? _total_validations p + _total_rejections p) with true
    by (symmetry; apply Z.ltb_lt; lia).
  replace (_total_validations p + _total_rejections p =? 0) with false
    by (symmetry; apply Z.eqb_neq; lia).
  cbn [Py.bind]. unfold trust_formula.
  rewrite (mul_comm 0.4), (mul_comm 0.4). split; reflexivity.
Qed.

Lemma trust_formula_nonneg (total : Z) (rate : float) (streak : Z) :
  0 <= total -> 0 <= streak ->
  Py.nonneg_or_nan (trust_formula total rate streak).
Proof.
  intros Ht Hs. unfold trust_formula.
  rewrite (mul_comm 0.4), (mul_comm 0.4).
  repeat apply add_nonneg.
  - eapply mul_nonneg; [ vm_compute; reflexivity |].
    apply min_nonneg; [ vm_compute; reflexivity |].
    eapply div_nonneg; [ vm_compute; reflexivity |].
    apply float_of_int_nonneg, Ht.
  - eapply mul_nonneg; [ vm_compute; reflexivity |].
    eapply mul_nonneg; [ vm_compute; reflexivity |]. apply abs_nonneg.
  - apply min_nonneg; [ vm_compute; reflexivity |].
    eapply div_nonneg; [ vm_compute; reflexivity |].
    apply float_of_int_nonneg, Hs.
Qed.

Lemma min_one_unit (x : float) :
  Py.nonneg_or_nan x -> in_unit_interval (Py.min 1 x).
Proof.
  intros H. unfold in_unit_interval, Py.min.
  destruct (x <? 1)%float eqn:E.
  - split; [ apply nonneg_below_one; assumption | apply ltb_leb, E ].
  - split; reflexivity.
Qed.

Lemma min_one_le (x : float) : (Py.min 1 x <=? 1)%float = true.
Proof.
  unfold Py.min. destruct (x <? 1)%float eqn:E;
    [ apply ltb_leb, E | reflexivity ].
Qed.

(** C9: [get_trust_level] returns 0 below 10 recorded samples and
    otherwise [0.4 * min(1, total/100) + 0.4 * (|rate - 0.5| * 2)
    + min(0.2, longest_streak/50)] capped at 1, where [rate] is
    validations over total; the result is at most 1, and lies in [[0, 1]]
    when the longest streak is not negative, as a count is.
    [should_use_notification] returns true exactly when the implicit-trust
    opt-in is set and the trust level is [>= 0.8]. *)
Theorem trust_level_and_notification (p : CognitiveProfile) :
  let total := _total_validations p + _total_rejections p in
  (total < 10 -> get_trust_level p = Some 0%float)
  /\ (10 <= total ->
      exists rate,
        Py.int_truediv (_total_validations p) total = Some rate
        /\ get_trust_level p =
             Some (Py.min 1
                     (trust_formula total rate (_longest_validated_streak p))))
  /\ (exists t, get_trust_level p = Some t /\ (t <=? 1)%float = true)
  /\ (0 <= _longest_validated_streak p ->
      exists t, get_trust_level p = Some t /\ in_unit_interval t)
  /\ (should_use_notification p = Some true <->
      _implicit_trust_enabled p = true
      /\ exists t, get_trust_level p = Some t /\ (0.8 <=? t)%float = true)
  /\ (exists b, should_use_notification p = Some b).
Proof.
  intros total.
  assert (Hlow : total < 10 -> get_trust_level p = Some 0%float)
    by apply get_trust_level_low.
  pose proof (get_trust_level_high p) as Hhigh. fold total in Hhigh.
  assert (Hret : exists t, get_trust_level p = Some t
                           /\ (t <=? 1)%float = true).
  { destruct (Z.lt_ge_cases total 10) as [H | H].
    - exists 0%float. split; [ apply Hlow, H | reflexivity ].
    - destruct (Hhigh H) as [E _]. eexists. split; [ exact E |].
      apply min_one_le. }
  split; [ exact Hlow |]. split; [| split; [ exact Hret |] ].
  - intros H. destruct (Hhigh H) as [E1 E2]. eexists. split; eassumption.
  - split; [| split ].
    + intros Hs. destruct (Z.lt_ge_cases total 10) as [H | H].
      * exists 0%float. split; [ apply Hlow, H | split; reflexivity ].
      * destruct (Hhigh H) as [E _]. eexists. split; [ exact E |].
        apply min_one_unit, trust_formula_nonneg; [ lia | exact Hs ].
    + unfold should_use_notification, TRUST_LEVEL_HIGH.
      destruct Hret as (t & Et & _). rewrite Et. cbn [Py.bind].
      destruct (_implicit_trust_enabled p); cbn [negb]; split.
      * intros H. injection H as H. split; [ reflexivity |].
        exists t. split; [ reflexivity | exact H ].
      * intros (_ & t' & Et' & H). injection Et' as <-. rewrite H. reflexivity.
      * intros H. discriminate H.
      * intros (H & _). discriminate H.
    + unfold should_use_notification.
      destruct Hret as (t & Et & _). rewrite Et. cbn [Py.bind].
      destruct (negb (_implicit_trust_enabled p)); eexists; reflexivity.
Qed.

Lemma trust_level_and_notification_witness :
  exists t,
    get_trust_level (with_history 40 2 12 true) = Some t
    /\ in_unit_interval t.
Proof.
  apply (proj1 (proj2 (proj2 (proj2
           (trust_level_and_notification (with_history 40 2 12 true)))))).
  discriminate.
Defined.

(** Two histories: 40 validations, 2 rejections and a longest streak of 12
    give a trust of about 0.73, below the notification threshold; 95, 5 and
    30 give 0.96, above it. *)
Example trust_levels_at_work :
  get_trust_level (with_history 40 2 12 true)
  = Some 0.72990476190476183%float
  /\ should_use_notification (with_history 40 2 12 true) = Some false
  /\ get_trust_level (with_history 95 5 30 true)
     = Some 0.95999999999999996%float
  /\ should_use_notification (with_history 95 5 30 true) = Some true
  /\ should_use_notification (with_history 95 5 30 false) = Some false.
Proof. repeat split; vm_compute; reflexivity. Qed.

End ProfileFacts.

(** * Further properties of the timer automaton *)

Module TimerLaws.
Import Timer TimerFacts.

(** Case analysis along the branches of the operations: [fin] closes
    each branch. *)
Ltac automaton s e fin :=
  let st := fresh "st" in
  let tot := fresh "tot" in
  let buf := fresh "buf" in
  let pts := fresh "pts" in
  let idl := fresh "idl" in
  let lim := fresh "lim" in
  let cb := fresh "cb" in
  let slot := fresh "slot" in
  let tick := fresh "tick" in
  let btm := fresh "btm" in
  let wt := fresh "was_thinking" in
  let a := fresh "accepted" in
  destruct s as [st tot buf pts idl lim cb slot tick btm];
  destruct e as [ | | | | | wt | | | | ? | ? | ? ];
  cbn in *;
  [ destruct st; cbn in *; fin
  | destruct st; cbn in *; fin
  | destruct st; cbn in *; fin
  | destruct st; cbn in *; try solve [ fin ];
    destruct (Z.leb_spec idl (lim * 60)); cbn in *; try solve [ fin ];
    destruct cb as [cb |]; cbn in *; try solve [ fin ];
    destruct (cb idl) as [? []]; cbn in *; fin
  | destruct st; cbn in *; fin
  | destruct st; cbn in *; try solve [ fin ];
    destruct wt; cbn in *; fin
  | destruct slot as [[[a ?] ?] |]; cbn in *; try solve [ fin ];
    destruct a; cbn in *; fin
  | destruct tick; cbn in *; try solve [ fin ];
    destruct st; cbn in *; try solve [ fin ];
    destruct (Z.ltb_spec (lim * 60) (idl + 1)); cbn in *; fin
  | destruct btm; cbn in *; try solve [ fin ];
    destruct st; cbn in *; fin
  | cbn in *; fin
  | cbn in *; fin
  | cbn in *; fin ].

Lemma run_events_app (s : TimerManager) (es fs : list Event) :
  run_events s (es ++ fs) = run_events (run_events s es) fs.
Proof. apply fold_left_app. Qed.

Lemma timers_ok_step (s : TimerManager) (e : Event) :
  timers_ok s -> timers_ok (step s e).
Proof.
  unfold timers_ok. intros [Ht Hb].
  automaton s e ltac:(auto).
Qed.

(** X1: in every state reached from the initial timer, the one-second
    timer runs exactly when the state is not STOPPED and the buffer
    timer exactly when the state is BUFFER. *)
Theorem timers_follow_state (es : list Event) :
  let s := run_events init es in
  _tick_timer s = negb (state_eqb (_state s) STOPPED)
  /\ _buffer_timer s = state_eqb (_state s) BUFFER.
Proof.
  cbn zeta. change (timers_ok (run_events init es)).
  assert (H : timers_ok init) by (split; reflexivity).
  revert H. generalize init.
  induction es as [| e es IH]; intros s H; cbn; auto.
  apply IH, timers_ok_step, H.
Qed.

(** X2: the signals report the changes.  An operation emits
    [state_changed x] exactly when it changes the state, to [x]; every
    [time_updated n] it emits carries the total it leaves, and it emits
    one whenever it changes the total. *)
Theorem signals_report_changes (s : TimerManager) (e : Event) :
  (forall x, In (state_changed x) (emitted s e) <->
             x = _state (step s e) /\ _state (step s e) <> _state s)
  /\ (forall n, In (time_updated n) (emitted s e) ->
                n = _total_seconds (step s e))
  /\ (_total_seconds (step s e) <> _total_seconds s ->
      In (time_updated (_total_seconds (step s e))) (emitted s e)).
Proof.
  assert (Hsc : forall x y z : TimerState,
            y <> z ->
            (In (state_changed x) [state_changed y] <-> x = y /\ y <> z)).
  { intros x y z Hyz. cbn. split.
    - intros [H | []]. injection H as ->. auto.
    - intros [-> _]. auto. }
  assert (Hno : forall (x y : TimerState), (False <-> x = y /\ y <> y)).
  { intros x y. split; [ tauto | intros [_ H]; congruence ]. }
  automaton s e ltac:(
    repeat split; intros;
    repeat match goal with
    | H : _ \/ _ |- _ => destruct H
    | H : False |- _ => destruct H
    | H : _ /\ _ |- _ => destruct H
    | H : state_changed _ = state_changed _ |- _ => injection H as H; subst
    | H : time_updated _ = time_updated _ |- _ => injection H as H; subst
    | H : _ = _ :> Signal |- _ => discriminate H
    end; subst; auto; try congruence; try tauto).
Qed.

Lemma total_le_seen (s : TimerManager) :
  inv s -> _total_seconds s + _idle_seconds s <= seen_seconds s.
Proof.
  unfold inv, seen_seconds. intros (Ht & Hi & Hs).
  destruct (_last_auto_decision s) as [[[[] secs] c] |]; lia.
Qed.

Lemma seen_step (s : TimerManager) (e : Event) :
  inv s ->
  match e with SetTotalSeconds _ => False | _ => True end ->
  seen_seconds (step s e) <= seen_seconds s + ticks [e].
Proof.
  unfold inv, seen_seconds. intros (Ht & Hi & Hs) He.
  automaton s e ltac:(
    try contradiction;
    repeat match goal with
    | |- context [match ?o with Some _ => _ | None => _ end] =>
        destruct o as [[[[] ?] ?] |]
    end;
    lia).
Qed.

Lemma seen_run_events (es : list Event) (s : TimerManager) :
  inv s -> loads_no_total es = true ->
  seen_seconds (run_events s es) <= seen_seconds s + ticks es.
Proof.
  revert s. induction es as [| e es IH]; intros s Hs Hes.
  - cbn. lia.
  - cbn [loads_no_total forallb] in Hes. apply andb_true_iff in Hes.
    destruct Hes as [He Hes].
    cbn [run_events fold_left].
    pose proof (IH (step s e) (inv_step s e Hs) Hes) as H1.
    assert (H2 : seen_seconds (step s e) <= seen_seconds s + ticks [e]).
    { apply seen_step; auto. destruct e; auto; discriminate He. }
    unfold run_events in H1.
    assert (H3 : ticks (e :: es) = ticks [e] + ticks es).
    { destruct e; cbn; lia. }
    lia.
Qed.

(** X3: the timer never counts more than the clock gave it.  In a run
    from the initial timer that loads no total from storage, the total
    plus the idle time being held is at most the number of one-second
    ticks of the run, whatever the callback answers and whatever is
    accepted, discarded or undone. *)
Theorem never_more_than_ticks (es : list Event) :
  loads_no_total es = true ->
  _total_seconds (run_events init es) + _idle_seconds (run_events init es)
    <= ticks es.
Proof.
  intros Hes.
  pose proof (seen_run_events es init inv_init Hes) as H.
  pose proof (total_le_seen _ (inv_run_events es init inv_init)) as H'.
  change (seen_seconds init) with 0 in H. lia.
Qed.

Lemma never_more_than_ticks_witness :
  _total_seconds (run_events init [ActivityDetected; Tick; Tick; Stop; Tick])
  + _idle_seconds (run_events init [ActivityDetected; Tick; Tick; Stop; Tick])
    <= 3.
Proof.
  exact (never_more_than_ticks [ActivityDetected; Tick; Tick; Stop; Tick]
           eq_refl).
Defined.

Lemma paused_tick (s : TimerManager) :
  _state s = PAUSED -> _tick_timer s = true ->
  0 <= _idle_seconds s <= _t_limit_minutes s * 60 ->
  step s Tick =
    set_idle ((_idle_seconds s + 1) mod (_t_limit_minutes s * 60 + 1)) s.
Proof.
  intros Hst Htk Hi. open_state s. cbn.
  destruct (Z.ltb_spec (lim * 60) (idl + 1)) as [E | E]; cbn.
  - assert (idl = lim * 60) by lia. subst idl.
    rewrite Z.mod_same by lia. reflexivity.
  - rewrite Z.mod_small by lia. reflexivity.
Qed.

(** X4: idle time wraps around.  A paused timer with [idle <= T_limit *
    60] that receives [k] ticks holds [(idle + k) mod (T_limit * 60 + 1)]
    idle seconds: once the pause is longer than the limit the counter
    starts again from 0, and the seconds before are gone.  Nothing else
    changes; the timer stays PAUSED. *)
Theorem paused_ticks_wrap (k : nat) (s : TimerManager) :
  _state s = PAUSED -> _tick_timer s = true ->
  0 <= _idle_seconds s <= _t_limit_minutes s * 60 ->
  run_events s (repeat Tick k) =
    set_idle ((_idle_seconds s + Z.of_nat k)
                mod (_t_limit_minutes s * 60 + 1)) s.
Proof.
  revert s. induction k as [| k IH]; intros s Hst Htk Hi.
  - cbn [repeat run_events fold_left]. rewrite Z.add_0_r.
    rewrite Z.mod_small by lia. destruct s; reflexivity.
  - cbn [repeat run_events fold_left].
    rewrite (paused_tick s Hst Htk Hi).
    set (L := _t_limit_minutes s * 60) in *.
    pose proof (Z.mod_pos_bound (_idle_seconds s + 1) (L + 1) ltac:(lia)) as Hb.
    fold (run_events (set_idle ((_idle_seconds s + 1) mod (L + 1)) s)
            (repeat Tick k)).
    rewrite IH.
    + cbn [_idle_seconds _t_limit_minutes set_idle]. fold L.
      rewrite Z.add_mod_idemp_l by lia.
      replace (_idle_seconds s + 1 + Z.of_nat k)
        with (_idle_seconds s + Z.of_nat (S k)) by lia.
      destruct s; reflexivity.
    + destruct s; cbn in *; auto.
    + destruct s; cbn in *; auto.
    + cbn [_idle_seconds _t_limit_minutes set_idle]. fold L. lia.
Qed.

Lemma paused_ticks_wrap_witness :
  run_events (paused 500 0 None None) (repeat Tick 1500) =
    paused 500 299 None None.
Proof.
  exact (paused_ticks_wrap 1500 (paused 500 0 None None) eq_refl eq_refl
           ltac:(cbn; lia)).
Defined.

Lemma buffer_ticks (k : nat) (s : TimerManager) :
  _state s = BUFFER -> _tick_timer s = true ->
  run_events s (repeat Tick k) =
    set_buffer (_buffer_seconds s + Z.of_nat k)
      (set_total (_total_seconds s + Z.of_nat k) s).
Proof.
  revert s. induction k as [| k IH]; intros s Hst Htk.
  - cbn [repeat run_events fold_left Z.of_nat]. rewrite !Z.add_0_r.
    destruct s; reflexivity.
  - cbn [repeat run_events fold_left].
    fold (run_events (step s Tick) (repeat Tick k)).
    rewrite IH by (open_state s; reflexivity).
    replace (Z.of_nat (S k)) with (Z.of_nat k + 1) by lia.
    generalize (Z.of_nat k) as z. intros z.
    open_state s. unfold set_buffer, set_total. cbn. f_equal; lia.
Qed.

(** X5: the buffer counts as work.  When activity stops in RUNNING, the
    [k] seconds ticked in BUFFER are added to the total; if activity
    returns the timer is RUNNING again with nothing else changed, and if
    the buffer expires instead the timer is PAUSED with the same total
    and an idle counter of 0: the buffer seconds stay counted. *)
Theorem buffer_counts_as_work (k : nat) (s : TimerManager) :
  _state s = RUNNING -> _tick_timer s = true -> _buffer_timer s = false ->
  run_events s (ActivityStopped :: repeat Tick k ++ [ActivityDetected]) =
    set_buffer 0 (set_total (_total_seconds s + Z.of_nat k) s)
  /\ run_events s (ActivityStopped :: repeat Tick k ++ [BufferExpired]) =
       set_idle 0 (set_state PAUSED
         (set_buffer (Z.of_nat k)
            (set_total (_total_seconds s + Z.of_nat k) s))).
Proof.
  intros Hst Htk Hbt.
  cbn [run_events fold_left].
  fold (run_events (step s ActivityStopped)
          (repeat Tick k ++ [ActivityDetected])).
  fold (run_events (step s ActivityStopped)
          (repeat Tick k ++ [BufferExpired])).
  rewrite !run_events_app.
  rewrite buffer_ticks by (open_state s; reflexivity).
  open_state s. cbn. split; reflexivity.
Qed.

Lemma buffer_counts_as_work_witness :
  _total_seconds
    (run_events (run_events init [Start])
       (ActivityStopped :: repeat Tick 60 ++ [BufferExpired])) = 60.
Proof.
  rewrite (proj2 (buffer_counts_as_work 60 (run_events init [Start])
                    eq_refl eq_refl eq_refl)).
  reflexivity.
Defined.

Lemma asking_step (s : TimerManager) (e : Event) :
  _state s = COGNITIVE_CHECK -> _buffer_timer s = false ->
  ignored_while_asking e = true -> step s e = s.
Proof.
  intros Hst Hbt He.
  destruct e; try discriminate He; open_state s; cbn; auto.
  destruct tick; reflexivity.
Qed.

(** X6: a pending question freezes the timer.  In COGNITIVE_CHECK,
    activity, inactivity, ticks and [start] change nothing at all, so the
    time the question stays open is counted nowhere; the answer that
    follows adds exactly the idle seconds the question was asked about
    (or none), and the timer is RUNNING with an idle counter of 0. *)
Theorem question_freezes_timer (s : TimerManager) (es : list Event)
    (was_thinking : bool) :
  _state s = COGNITIVE_CHECK -> _buffer_timer s = false ->
  forallb ignored_while_asking es = true ->
  run_events s es = s
  /\ let s' := run_events s (es ++ [CognitiveResponse was_thinking]) in
     _state s' = RUNNING
     /\ _idle_seconds s' = 0
     /\ _total_seconds s' =
          _total_seconds s + (if was_thinking then _idle_seconds s else 0).
Proof.
  intros Hst Hbt Hes.
  assert (H : run_events s es = s).
  { induction es as [| e es IH]; [ reflexivity |].
    cbn [forallb] in Hes. apply andb_true_iff in Hes. destruct Hes as [He Hes].
    cbn [run_events fold_left]. rewrite asking_step by assumption.
    apply IH, Hes. }
  split; [ exact H |].
  cbn zeta. rewrite run_events_app, H.
  open_state s. destruct was_thinking; cbn; repeat split; lia.
Qed.

Lemma question_freezes_timer_witness :
  _total_seconds
    (run_events (set_state COGNITIVE_CHECK (paused 500 90 None None))
       ([Tick; ActivityDetected; Tick; ActivityStopped; Tick]
          ++ [CognitiveResponse true])) = 590.
Proof.
  exact (proj2 (proj2 (proj2 (question_freezes_timer
           (set_state COGNITIVE_CHECK (paused 500 90 None None))
           [Tick; ActivityDetected; Tick; ActivityStopped; Tick] true
           eq_refl eq_refl eq_refl)))).
Defined.

(** X7: a question is answered once.  [on_cognitive_response] does
    nothing outside COGNITIVE_CHECK, and it always leaves that state: so
    whatever the state, a second response right after a first changes
    nothing and emits nothing, and the idle time cannot be added twice. *)
Theorem response_answers_once (s : TimerManager) (first second : bool) :
  on_cognitive_response second (fst (on_cognitive_response first s)) =
    (fst (on_cognitive_response first s), [])
  /\ (_state s = COGNITIVE_CHECK \/ on_cognitive_response first s = (s, [])).
Proof.
  open_state s. split.
  - destruct st; cbn; auto. destruct first; reflexivity.
  - destruct st; cbn; auto.
Qed.

(** X8: [stop] and [reset].  [stop] leaves the timer STOPPED with both
    timers off, the idle and buffer counters at 0 and the total as it
    was; [reset] does the same and sets the total to 0, announcing it.
    Both are idempotent.  Neither clears the undo slot: an undo after a
    reset still applies the remembered auto-decision to the new total. *)
Theorem stop_and_reset (s : TimerManager) :
  let stopped := fst (stop s) in
  let cleared := fst (reset s) in
  (_state stopped = STOPPED /\ _tick_timer stopped = false
   /\ _buffer_timer stopped = false /\ _idle_seconds stopped = 0
   /\ _buffer_seconds stopped = 0
   /\ _total_seconds stopped = _total_seconds s)
  /\ cleared = set_total 0 stopped
  /\ In (time_updated 0) (snd (reset s))
  /\ fst (stop stopped) = stopped
  /\ fst (reset cleared) = cleared
  /\ _last_auto_decision cleared = _last_auto_decision s
  /\ (forall seconds c,
        _last_auto_decision s = Some (false, seconds, c) ->
        _total_seconds (undone cleared) = seconds).
Proof.
  assert (Hstop : forall t, fst (stop t) =
            set_idle 0 (set_buffer 0 (set_state STOPPED
              (set_buffer_timer false (set_tick_timer false t))))).
  { intros [[] ? ? ? ? ? ? ? ? ?]; reflexivity. }
  assert (Hreset : forall t, reset t =
            (set_total 0 (fst (stop t)), snd (stop t) ++ [time_updated 0])).
  { intros [[] ? ? ? ? ? ? ? ? ?]; reflexivity. }
  cbv zeta. rewrite !Hreset. cbn [fst snd]. rewrite !Hstop.
  repeat split.
  - apply in_or_app. right. left. reflexivity.
  - intros seconds c E. unfold undone, undo_last_auto_decision.
    cbn [_last_auto_decision set_total set_idle set_buffer set_state
         set_buffer_timer set_tick_timer].
    rewrite E. reflexivity.
Qed.

Lemma in_ranges_step (s : TimerManager) (e : Event) :
  in_ranges s -> in_ranges (step s e).
Proof.
  unfold in_ranges. intros (Hl & Hi & Hs).
  automaton s e ltac:(repeat split; auto; lia).
Qed.

(** X9: in every state reached from the initial timer, whatever values
    the limit is set to, the limit is between 15 and 25 minutes, the idle
    counter between 0 and 1500 seconds, and so is the idle time of a
    remembered auto-decision: no decision ever adds or removes more than
    25 minutes. *)
Theorem limit_and_idle_in_range (es : list Event) :
  let s := run_events init es in
  15 <= _t_limit_minutes s <= 25
  /\ 0 <= _idle_seconds s <= 25 * 60
  /\ (forall a seconds c,
        _last_auto_decision s = Some (a, seconds, c) ->
        0 <= seconds <= 25 * 60).
Proof.
  cbn zeta.
  assert (H : in_ranges (run_events init es)).
  { assert (H : in_ranges init) by (unfold in_ranges; cbn; lia).
    revert H. generalize init.
    induction es as [| e es IH]; intros s H; cbn; auto.
    apply IH, in_ranges_step, H. }
  destruct H as (Hl & Hi & Hs). split; [ lia | split; [ lia |] ].
  intros a0 n0 c0 E. rewrite E in Hs. lia.
Qed.

Lemma idle_within_limit_step (s : TimerManager) (e : Event) :
  match e with SetTLimitMinutes _ => False | _ => True end ->
  0 <= _idle_seconds s <= _t_limit_minutes s * 60 ->
  0 <= _idle_seconds (step s e) <= _t_limit_minutes (step s e) * 60.
Proof.
  intros He H.
  automaton s e ltac:(try contradiction; lia).
Qed.

(** X10: the idle counter stays within the limit.  In a run that sets
    the limit first and then leaves it alone, the idle counter is between
    0 and [T_limit * 60] in every state; so the test [idle <= T_limit *
    60] of [on_activity_detected] succeeds whenever the timer is PAUSED:
    the pause is put to the callback (or to the user), however long it
    lasted, and the branch that drops it unasked is not taken. *)
Theorem idle_within_limit (value : Z) (es : list Event) :
  keeps_limit es = true ->
  let s := run_events init (SetTLimitMinutes value :: es) in
  0 <= _idle_seconds s <= _t_limit_minutes s * 60
  /\ (_idle_seconds s <=? _t_limit_minutes s * 60) = true.
Proof.
  intros Hes. cbn zeta.
  assert (H : 0 <= _idle_seconds (run_events init (SetTLimitMinutes value :: es))
              <= _t_limit_minutes (run_events init (SetTLimitMinutes value :: es)) * 60).
  { cbn [run_events fold_left].
    assert (H0 : 0 <= _idle_seconds (step init (SetTLimitMinutes value))
                 <= _t_limit_minutes (step init (SetTLimitMinutes value)) * 60).
    { cbn. lia. }
    revert H0. generalize (step init (SetTLimitMinutes value)).
    induction es as [| e es IH]; intros s H; [ exact H |].
    cbn [keeps_limit forallb] in Hes. apply andb_true_iff in Hes.
    destruct Hes as [He Hes].
    cbn [fold_left]. apply IH; [ exact Hes |].
    apply idle_within_limit_step; [| exact H ].
    destruct e; auto; discriminate He. }
  split; [ exact H | apply Z.leb_le; lia ].
Qed.

Lemma idle_within_limit_witness :
  (_idle_seconds
     (run_events init
        (SetTLimitMinutes 15
           :: [Start; ActivityStopped; BufferExpired] ++ repeat Tick 1000))
   <=? 900) = true.
Proof.
  exact (proj2 (idle_within_limit 15
           ([Start; ActivityStopped; BufferExpired] ++ repeat Tick 1000)
           eq_refl)).
Defined.

Lemma concat_two (a b : string) :
  String.concat " " [a; b] = (a ++ " " ++ b)%string.
Proof. reflexivity. Qed.

(** X11: the displayed time.  For a total that is not negative,
    [get_display_time] gives the whole hours and the minutes below 60 of
    the total truncated to the minute, and [format_time] writes the
    minutes alone under one hour, the hours alone on the full hour, and
    both otherwise, each with its singular for 1. *)
Theorem display_time (s : TimerManager) :
  0 <= _total_seconds s ->
  let hours := fst (get_display_time s) in
  let minutes := snd (get_display_time s) in
  0 <= hours /\ 0 <= minutes < 60
  /\ hours * 3600 + minutes * 60 <= _total_seconds s
       < hours * 3600 + minutes * 60 + 60
  /\ format_time s =
       if hours =? 0 then minutes_text minutes
       else if minutes =? 0 then hours_text hours
       else (hours_text hours ++ " " ++ minutes_text minutes)%string.
Proof.
  intros Ht. unfold format_time, get_display_time. cbn [fst snd].
  set (t := _total_seconds s) in *.
  set (h := t / 60 / 60). set (m := (t / 60) mod 60).
  assert (Hh : 0 <= h) by (subst h; Z.to_euclidean_division_equations; lia).
  assert (Hm : 0 <= m < 60) by (subst m; Z.to_euclidean_division_equations; lia).
  assert (Hd : h * 3600 + m * 60 <= t < h * 3600 + m * 60 + 60)
    by (subst h m; Z.to_euclidean_division_equations; lia).
  repeat split; try lia.
  unfold hours_text, minutes_text.
  destruct (Z.eqb_spec h 0) as [E0 | E0].
  - assert (E : (0 <? h) = false) by (apply Z.ltb_ge; lia). rewrite E.
    rewrite orb_true_r. reflexivity.
  - assert (E : (0 <? h) = true) by (apply Z.ltb_lt; lia). rewrite E.
    rewrite orb_false_r.
    destruct (Z.eqb_spec m 0) as [E1 | E1].
    + assert (E' : (0 <? m) = false) by (apply Z.ltb_ge; lia). rewrite E'.
      destruct (h =? 1); reflexivity.
    + assert (E' : (0 <? m) = true) by (apply Z.ltb_lt; lia). rewrite E'.
      cbn [app]. rewrite concat_two.
      destruct (h =? 1), (m =? 1); reflexivity.
Qed.

Lemma display_time_witness :
  format_time (set_total 30720 init) = "8 hrs 32 mins"%string
  /\ format_time (set_total 2700 init) = "45 mins"%string
  /\ format_time (set_total 3900 init) = "1 hr 5 mins"%string.
Proof.
  split; [| split ].
  - rewrite (proj2 (proj2 (proj2 (display_time (set_total 30720 init)
                                    ltac:(cbn; lia))))).
    reflexivity.
  - rewrite (proj2 (proj2 (proj2 (display_time (set_total 2700 init)
                                    ltac:(cbn; lia))))).
    reflexivity.
  - rewrite (proj2 (proj2 (proj2 (display_time (set_total 3900 init)
                                    ltac:(cbn; lia))))).
    reflexivity.
Defined.

Lemma step_keeps_settings (s : TimerManager) (e : Event) :
  match e with
  | SetTLimitMinutes _ | SetCallback _ => False
  | _ => True
  end ->
  _t_limit_minutes (step s e) = _t_limit_minutes s
  /\ _cognitive_decision_callback (step s e) = _cognitive_decision_callback s.
Proof.
  intros He. automaton s e ltac:(try contradiction; auto).
Qed.

End TimerLaws.

(** * Further properties of the cognitive profile *)

Module ProfileLaws.
Import Profile FloatFacts ProfileFacts.

(** ** Floats *)

Lemma leb_zero_signed (x : spec_float) :
  Py.sf_signed false x -> SFleb (S754_zero false) x = true.
Proof. destruct x as [s | s | | s m e]; cbn; intros H; subst; tauto. Qed.

Lemma add_one_nonneg (x : float) :
  (0 <=? x)%float = true -> (0 <=? x + 1)%float = true.
Proof.
  rewrite !leb_spec, add_spec.
  replace (Prim2SF 0) with (S754_zero false) by (vm_compute; reflexivity).
  replace (Prim2SF 1) with (S754_finite false 4503599627370496 (-52))
    by (vm_compute; reflexivity).
  destruct (Prim2SF x) as [s | s | | s m e]; intros H.
  - reflexivity.
  - destruct s; [ discriminate H | reflexivity ].
  - discriminate H.
  - destruct s; [ discriminate H |].
    apply leb_zero_signed. unfold SF64add, SFadd, cond_Zopp.
    apply binary_normalize_nonneg. lia.
Qed.

Lemma max_zero_nonneg (x : float) : (0 <=? Py.max 0 x)%float = true.
Proof.
  unfold Py.max. destruct (0 <? x)%float eqn:E;
    [ apply ltb_leb, E | reflexivity ].
Qed.

(** [max(-1.0, min(1.0, x))] lies in [[-1, 1]] for every double. *)
Lemma clamp_bias (x : float) :
  (-1 <=? Py.max (-1) (Py.min 1 x))%float = true
  /\ (Py.max (-1) (Py.min 1 x) <=? 1)%float = true.
Proof.
  unfold Py.max, Py.min.
  destruct (x <? 1)%float eqn:E1.
  - destruct (-1 <? x)%float eqn:E0.
    + split; apply ltb_leb; assumption.
    + split; reflexivity.
  - split; reflexivity.
Qed.

(** ** Dictionaries *)

Lemma dict_get_none {V} (d : list (string * V)) (k : string) :
  Py.dict_get d k = None <-> ~ In k (Py.dict_keys d).
Proof.
  induction d as [| [k' v] d IH]; cbn; [ tauto |].
  destruct (String.eqb_spec k' k) as [-> | Hne].
  - split; [ discriminate | tauto ].
  - rewrite IH. tauto.
Qed.

Lemma dict_get_in {V} (d : list (string * V)) (k : string) (v : V) :
  Py.dict_get d k = Some v -> In v (Py.dict_values d).
Proof.
  induction d as [| [k' v'] d IH]; cbn; [ discriminate |].
  destruct (String.eqb k' k); [ intros [= ->]; auto | auto ].
Qed.

Lemma dict_set_fresh {V} (d : list (string * V)) (k : string) (v : V) :
  ~ In k (Py.dict_keys d) -> Py.dict_set d k v = d ++ [(k, v)].
Proof.
  induction d as [| [k' v'] d IH]; cbn; intros H; [ reflexivity |].
  destruct (String.eqb_spec k' k) as [-> | Hne]; [ tauto |].
  rewrite IH by tauto. reflexivity.
Qed.

Lemma dict_set_keys {V} (d : list (string * V)) (k : string) (v : V) :
  Py.dict_keys (Py.dict_set d k v) =
    if in_dec string_dec k (Py.dict_keys d) then Py.dict_keys d
    else Py.dict_keys d ++ [k].
Proof.
  induction d as [| [k' v'] d IH]; cbn [Py.dict_set Py.dict_keys map fst].
  - destruct (in_dec string_dec k []) as [[] |]. reflexivity.
  - destruct (String.eqb_spec k' k) as [-> | Hne].
    + destruct (in_dec string_dec k (k :: map fst d)) as [| H];
        [ reflexivity | exfalso; apply H; left; reflexivity ].
    + cbn [map fst]. fold (Py.dict_keys (Py.dict_set d k v)).
      rewrite IH. fold (Py.dict_keys d).
      destruct (in_dec string_dec k (Py.dict_keys d)) as [Hin | Hout];
        destruct (in_dec string_dec k (k' :: Py.dict_keys d)) as [Hin' | Hout'];
        try reflexivity.
      * exfalso. apply Hout'. right. exact Hin.
      * destruct Hin' as [E | Hin']; [ congruence | tauto ].
Qed.

Lemma dict_set_nodup {V} (d : list (string * V)) (k : string) (v : V) :
  NoDup (Py.dict_keys d) -> NoDup (Py.dict_keys (Py.dict_set d k v)).
Proof.
  intros H. rewrite dict_set_keys.
  destruct (in_dec string_dec k (Py.dict_keys d)) as [Hin | Hout];
    [ exact H |].
  apply NoDup_app; [ exact H | repeat constructor; auto | ].
  intros x Hx [<- | []]. exact (Hout Hx).
Qed.

Lemma dict_set_forall {V} (P : V -> Prop) (d : list (string * V))
    (k : string) (v : V) :
  P v -> Forall P (Py.dict_values d) ->
  Forall P (Py.dict_values (Py.dict_set d k v)).
Proof.
  intros Hv. induction d as [| [k' v'] d IH]; cbn; intros H.
  - repeat constructor. exact Hv.
  - inversion H; subst.
    destruct (String.eqb k' k); cbn; constructor; auto.
Qed.

Lemma dict_adjust_forall {V} (P : V -> Prop) (f : V -> V)
    (d : list (string * V)) (k : string) :
  (forall v, P v -> P (f v)) ->
  Forall P (Py.dict_values d) ->
  Forall P (Py.dict_values (Py.dict_adjust f d k)).
Proof.
  intros Hf. induction d as [| [k' v] d IH]; cbn; intros H; [ constructor |].
  inversion H; subst.
  destruct (String.eqb k' k); cbn; constructor; auto.
Qed.

Lemma dict_get_set_same {V} (d : list (string * V)) (k : string) (v : V) :
  Py.dict_get (Py.dict_set d k v) k = Some v.
Proof.
  induction d as [| [k' v'] d IH]; cbn.
  - rewrite String.eqb_refl. reflexivity.
  - destruct (String.eqb k' k) eqn:E; cbn; rewrite E; auto.
Qed.

Lemma dict_get_set_other {V} (d : list (string * V)) (k k0 : string) (v : V) :
  k0 <> k -> Py.dict_get (Py.dict_set d k v) k0 = Py.dict_get d k0.
Proof.
  intros Hne. induction d as [| [k' v'] d IH]; cbn.
  - destruct (String.eqb_spec k k0); [ congruence | reflexivity ].
  - destruct (String.eqb_spec k' k) as [-> | H]; cbn.
    + destruct (String.eqb_spec k k0); [ congruence | reflexivity ].
    + destruct (String.eqb k' k0); auto.
Qed.

Lemma dict_get_adjust_same {V} (f : V -> V) (d : list (string * V))
    (k : string) :
  Py.dict_get (Py.dict_adjust f d k) k = option_map f (Py.dict_get d k).
Proof.
  induction d as [| [k' v'] d IH]; cbn; [ reflexivity |].
  destruct (String.eqb k' k) eqn:E; cbn; rewrite E; auto.
Qed.

Lemma dict_get_adjust_other {V} (f : V -> V) (d : list (string * V))
    (k k0 : string) :
  k0 <> k -> Py.dict_get (Py.dict_adjust f d k) k0 = Py.dict_get d k0.
Proof.
  intros Hne. induction d as [| [k' v'] d IH]; cbn; [ reflexivity |].
  destruct (String.eqb_spec k' k) as [-> | H]; cbn.
  - destruct (String.eqb_spec k k0); [ congruence | reflexivity ].
  - destruct (String.eqb k' k0); auto.
Qed.

(** Writing the entries of a dictionary one by one into an empty one
    gives the dictionary back. *)
Lemma dict_copy {V} (es acc : list (string * V)) :
  NoDup (Py.dict_keys (acc ++ es)) ->
  fold_left (fun d e => Py.dict_set d (fst e) (snd e)) es acc = acc ++ es.
Proof.
  revert acc. induction es as [| [k v] es IH]; intros acc H; cbn [fold_left].
  - rewrite app_nil_r. reflexivity.
  - cbn [fst snd]. rewrite dict_set_fresh.
    + rewrite IH; rewrite <- app_assoc; [ reflexivity | exact H ].
    + unfold Py.dict_keys in *. rewrite map_app in H. cbn in H.
      apply NoDup_remove_2 in H. intros Hin. apply H.
      apply in_or_app. left. exact Hin.
Qed.

Lemma last_n_length {A} (n : nat) (xs : list A) :
  (List.length (Py.last_n n xs) <= n)%nat.
Proof. unfold Py.last_n. rewrite length_skipn. lia. Qed.

(** ** The invariant of the profiles the program produces *)

Lemma buckets_shape (p : CognitiveProfile) :
  keys_ok p -> bounds_ok p ->
  exists t0 v0 t1 v1 t2 v2 t3 v3 t4 v4,
    _buckets p = _buckets (with_counts t0 v0 t1 v1 t2 v2 t3 v3 t4 v4).
Proof.
  intros Hk Hb.
  destruct (keys_ok_shape p Hk) as (b0 & b1 & b2 & b3 & b4 & E).
  unfold bounds_ok in Hb. rewrite E in Hb. cbn in Hb.
  destruct b0 as [m0 x0 t0 v0], b1 as [m1 x1 t1 v1], b2 as [m2 x2 t2 v2],
    b3 as [m3 x3 t3 v3], b4 as [m4 x4 t4 v4].
  cbn in Hb. injection Hb as -> -> -> -> -> -> -> -> -> ->.
  exists t0, v0, t1, v1, t2, v2, t3, v3, t4, v4. exact E.
Qed.

Lemma update_buckets_sound (p p1 : CognitiveProfile) (idle : Z) (v : bool) :
  wf p -> bounds_ok p -> update_buckets p idle v = Some p1 ->
  wf p1 /\ bounds_ok p1 /\ total_samples p1 <= total_samples p + 1.
Proof.
  intros Hwf Hb H.
  destruct (wf_update_buckets p idle v Hwf) as (q & Hq & Hwfq).
  rewrite Hq in H. injection H as <-. split; [ exact Hwfq |]. clear Hwfq.
  destruct Hwf as (Hk & Hi & Hs).
  pose proof (bumped_total p idle v Hk) as Ht.
  rewrite update_buckets_eq in Hq by assumption.
  destruct (buckets_shape p Hk Hb)
    as (t0 & v0 & t1 & v1 & t2 & v2 & t3 & v3 & t4 & v4 & E).
  unfold _apply_decay_to_buckets in Hq. rewrite Ht in Hq.
  destruct ((0 <? total_samples p + 1)
            && ((total_samples p + 1) mod 50 =? 0)) eqn:C.
  - apply andb_true_iff in C. destruct C as [_ C]. apply Z.eqb_eq in C.
    pose proof (total_samples_nonneg p Hk (inv_totals_nonneg p Hi)) as H0.
    assert (S50 : total_samples p + 1 = 50) by div_lia. clear C H0.
    unfold buckets_inv, bucket_inv in Hi.
    unfold total_samples in Hs, Ht, S50 |- *. unfold bounds_ok.
    unfold bumped in Hq, Ht. cbn [_buckets with_buckets] in Hq, Ht.
    rewrite E in Hi, Hs, Hq, Ht, S50 |- *. cbn in Hi, Hs, S50.
    invert_Forall. cbn in *.
    revert Hq Ht. pick_key; cbn; unfold decay_bucket; cbn;
      rewrite ?decay_count_small by (destruct v; lia); cbn;
      intros [= <-] Ht; cbn; (split; [ reflexivity | div_lia ]).
  - injection Hq as <-. split.
    + unfold bounds_ok, bumped. cbn [_buckets with_buckets]. rewrite E.
      pick_key; reflexivity.
    + rewrite Ht. lia.
Qed.

Lemma update_modifiers_sound (p : CognitiveProfile) (h : option string)
    (idle : Z) (v : bool) (mods : list (string * ProjectModifier)) :
  modifiers_ok p ->
  0 <= _total_validations p -> 0 <= _total_rejections p ->
  update_modifiers p h idle v = Some mods ->
  NoDup (Py.dict_keys mods)
  /\ Forall
       (fun m =>
          0 <= pm_total_validations m
            <= (if v then _total_validations p + 1 else _total_validations p)
          /\ 0 <= pm_total_rejections m
               <= (if v then _total_rejections p else _total_rejections p + 1))
       (Py.dict_values mods).
Proof.
  intros [Hn Hf] Hv Hr H.
  set (P := fun m =>
          0 <= pm_total_validations m
            <= (if v then _total_validations p + 1 else _total_validations p)
          /\ 0 <= pm_total_rejections m
               <= (if v then _total_rejections p else _total_rejections p + 1)).
  assert (Hw : Forall P (Py.dict_values (_project_modifiers p))).
  { eapply Forall_impl; [| exact Hf ]. subst P. cbn. destruct v; lia. }
  assert (Hold : NoDup (Py.dict_keys (_project_modifiers p)) /\
                 Forall P (Py.dict_values (_project_modifiers p)))
    by (split; assumption).
  unfold update_modifiers in H.
  destruct h as [h |]; [| injection H as <-; exact Hold ].
  destruct (String.eqb h EmptyString); [ injection H as <-; exact Hold |].
  unfold _update_project_modifier in H.
  set (mods0 := match Py.dict_get (_project_modifiers p) h with
                | Some _ => _project_modifiers p
                | None => Py.dict_set (_project_modifiers p) h (new_modifier h)
                end) in H.
  assert (H0 : NoDup (Py.dict_keys mods0) /\ Forall P (Py.dict_values mods0)).
  { subst mods0. destruct (Py.dict_get (_project_modifiers p) h);
      [ exact Hold |].
    split; [ apply dict_set_nodup, Hn |].
    apply dict_set_forall; [| exact Hw ].
    subst P. cbn. destruct v; lia. }
  destruct H0 as [Hn0 Hf0].
  destruct (Py.dict_get mods0 h) as [m |] eqn:Em; [| discriminate H ].
  cbn [Py.bind] in H.
  pose proof (dict_get_in _ _ _ Em) as Hin.
  rewrite Forall_forall in Hf. 
  assert (Hm : 0 <= pm_total_validations m <= _total_validations p
               /\ 0 <= pm_total_rejections m <= _total_rejections p).
  { subst mods0. destruct (Py.dict_get (_project_modifiers p) h) eqn:Eg.
    - apply Hf, Hin.
    - rewrite dict_get_set_same in Em. injection Em as <-. cbn. lia. }
  destruct v.
  - match type of H with
    | Py.bind ?a _ = _ => destruct a as [avg |]; [| discriminate H ]
    end.
    cbn [Py.bind] in H. injection H as <-.
    split; [ apply dict_set_nodup, Hn0 |].
    apply dict_set_forall; [| exact Hf0 ]. subst P. cbn. lia.
  - injection H as <-.
    split; [ apply dict_set_nodup, Hn0 |].
    apply dict_set_forall; [| exact Hf0 ]. subst P. cbn. lia.
Qed.

Lemma sound_init : sound init.
Proof.
  unfold sound. split; [ exact wf_init |].
  unfold bounds_ok, behind_counters, counters_ok, history_ok, modifiers_ok,
    preferences_ok, focus_ok.
  cbn. repeat split; try reflexivity; try lia; constructor.
Qed.

Lemma sound_record_validation env p idle v h p' :
  sound p -> record_validation env p idle v h = Some p' -> sound p'.
Proof.
  intros (Hwf & Hb & Hbe & Hc & Hh & Hbu & Hm & Hp & Hf) H.
  unfold record_validation in H.
  destruct (update_buckets p idle v) as [p1 |] eqn:E1; [| discriminate H ].
  cbn [Py.bind] in H.
  destruct (session_age_now env p) as [age |]; [| discriminate H ].
  cbn [Py.bind] in H.
  destruct (update_modifiers p h idle v) as [mods |] eqn:E2;
    [| discriminate H ].
  cbn [Py.bind] in H. injection H as <-.
  destruct (update_buckets_sound p p1 idle v Hwf Hb E1) as (Hwf1 & Hb1 & Ht1).
  unfold counters_ok in Hc. destruct Hc as (Hc1 & Hc2 & Hc3 & Hc4 & Hc5).
  destruct (update_modifiers_sound p h idle v mods Hm ltac:(lia) ltac:(lia) E2)
    as (Hn & Hfa).
  destruct Hh as (Hh1 & Hh2 & Hh3).
  refine (conj _ (conj _ (conj _ (conj _ (conj _ (conj _ (conj _
            (conj _ _)))))))).
  - apply (wf_same_buckets _ p1); [ reflexivity | exact Hwf1 ].
  - exact Hb1.
  - unfold behind_counters in *.
    match goal with
    | |- total_samples ?q <= _ => change (total_samples q) with (total_samples p1)
    end.
    cbn [_total_validations _total_rejections]. destruct v; lia.
  - unfold counters_ok. cbn. destruct v; cbn.
    + destruct (Z.ltb_spec (_longest_validated_streak p) (_current_streak p + 1));
        lia.
    + lia.
  - unfold history_ok.
    cbn [_max_recent_pauses _recent_pauses _repeated_rejection_patterns].
    rewrite Hh1. repeat apply conj.
    + reflexivity.
    + match goal with
      | |- context [(?a <? ?b)%nat] => destruct (Nat.ltb_spec a b)
      end; [ apply last_n_length | assumption ].
    + destruct v; [ exact Hh3 |].
      match goal with
      | |- context [(?a <? ?b)%nat] => destruct (Nat.ltb_spec a b)
      end; [ apply last_n_length | assumption ].
  - exact Hbu.
  - unfold modifiers_ok. cbn. split; [ exact Hn |]. destruct v; exact Hfa.
  - exact Hp.
  - unfold focus_ok. cbn. apply max_zero_nonneg.
Qed.

(** Soundness is about the buckets, the counters, the histories, the
    bursts, the projects, the bias and the focus count. *)
Lemma sound_fields (p q : CognitiveProfile) :
  sound p ->
  _buckets q = _buckets p ->
  _total_validations q = _total_validations p ->
  _total_rejections q = _total_rejections p ->
  _longest_validated_streak q = _longest_validated_streak p ->
  _current_streak q = _current_streak p ->
  _consecutive_validated q = _consecutive_validated p ->
  _consecutive_rejected q = _consecutive_rejected p ->
  _max_recent_pauses q = _max_recent_pauses p ->
  _recent_pauses q = _recent_pauses p ->
  _repeated_rejection_patterns q = _repeated_rejection_patterns p ->
  Forall burst_ok (_activity_bursts q) ->
  NoDup (Py.dict_keys (_project_modifiers q)) ->
  Forall
    (fun m =>
       0 <= pm_total_validations m <= _total_validations p
       /\ 0 <= pm_total_rejections m <= _total_rejections p)
    (Py.dict_values (_project_modifiers q)) ->
  preferences_ok q -> focus_ok q ->
  sound q.
Proof.
  intros (Hwf & Hb & Hbe & Hc & Hh & Hbu & Hm & Hp & Hf)
    E1 E2 E3 E4 E5 E6 E7 E8 E9 E10 Hbu' Hn' Hf' Hp' Hfo'.
  refine (conj _ (conj _ (conj _ (conj _ (conj _ (conj _ (conj _
            (conj _ _)))))))); try assumption.
  - apply (wf_same_buckets _ p); assumption.
  - unfold bounds_ok. rewrite E1. exact Hb.
  - unfold behind_counters, total_samples in *. rewrite E1, E2, E3. exact Hbe.
  - unfold counters_ok in *. rewrite E2, E3, E4, E5, E6, E7. exact Hc.
  - unfold history_ok in *. rewrite E8, E9, E10. exact Hh.
  - unfold modifiers_ok. rewrite E2, E3. split; assumption.
Qed.

Ltac same_fields Hs :=
  apply (sound_fields _ _ Hs); try reflexivity;
  try solve [ apply Hs ].

Lemma sound_record_focus_lost p : sound p -> sound (record_focus_lost p).
Proof.
  intros Hs. same_fields Hs. unfold focus_ok. cbn.
  apply add_one_nonneg, Hs.
Qed.

Lemma sound_record_focus_regained p :
  sound p -> sound (record_focus_regained p).
Proof.
  intros Hs. same_fields Hs. unfold focus_ok. cbn. apply max_zero_nonneg.
Qed.

Lemma sound_set_user_bias p bias : sound p -> sound (set_user_bias p bias).
Proof.
  intros Hs. same_fields Hs. unfold preferences_ok. cbn. apply clamp_bias.
Qed.

Lemma sound_enable_implicit_trust p enabled :
  sound p -> sound (enable_implicit_trust p enabled).
Proof. intros Hs. same_fields Hs. Qed.

Lemma sound_start_session env p h : sound p -> sound (start_session env p h).
Proof.
  intros Hs.
  assert (H0 : sound (with_bursts (with_focus (with_session_start p (now env)) 0) [])).
  { same_fields Hs. constructor. }
  unfold start_session.
  destruct h as [h |]; [| exact H0 ].
  destruct (String.eqb h EmptyString); [ exact H0 |].
  cbn [with_bursts with_focus with_session_start _project_modifiers].
  destruct (Py.dict_get (_project_modifiers p) h); [| exact H0 ].
  apply (sound_fields _ _ Hs); try reflexivity; try solve [ apply Hs ].
  - constructor.
  - cbn [_project_modifiers with_modifiers].
    rewrite dict_adjust_keys. apply Hs.
  - cbn [_project_modifiers with_modifiers].
    apply dict_adjust_forall; [ intros m Hm; exact Hm | apply Hs ].
Qed.

Lemma sound_update_project_work_time p h t :
  sound p -> sound (update_project_work_time p h t).
Proof.
  intros Hs. pose proof Hs as (_ & _ & _ & Hc & _ & _ & [Hn Hf] & _).
  unfold counters_ok in Hc.
  apply (sound_fields _ _ Hs); try reflexivity; try solve [ apply Hs ].
  - unfold update_project_work_time. cbn [_project_modifiers with_modifiers].
    rewrite dict_adjust_keys.
    destruct (Py.dict_get (_project_modifiers p) h);
      [ exact Hn | apply dict_set_nodup, Hn ].
  - unfold update_project_work_time. cbn [_project_modifiers with_modifiers].
    apply dict_adjust_forall; [ intros m Hm; exact Hm |].
    destruct (Py.dict_get (_project_modifiers p) h); [ exact Hf |].
    apply dict_set_forall; [ cbn; lia | exact Hf ].
Qed.

Lemma new_burst_ok (count : Z) (start duration : float) :
  0 < count ->
  burst_ok {| ab_timestamp := start; ab_duration_seconds := duration;
              intensity := Py.min 1.0 (Py.float_of_int count / 60)%float;
              event_count := count |}.
Proof.
  intros H. split; [| exact H ]. cbn [intensity].
  apply min_one_unit.
  eapply div_nonneg; [ vm_compute; reflexivity |].
  apply float_of_int_nonneg. lia.
Qed.

Lemma sound_record_activity t w p :
  sound p -> sound (snd (record_activity t (w, p))).
Proof.
  intros Hs. unfold record_activity.
  destruct (30 <? t - _window_start_time w)%float; [| exact Hs ].
  destruct (Z.ltb_spec 0 (_activity_count_window w)) as [Hc | Hc];
    [| exact Hs ].
  cbn [snd]. same_fields Hs.
  cbn [_activity_bursts with_bursts].
  apply Forall_forall. intros b Hb. apply filter_In in Hb.
  destruct Hb as [Hb _]. apply in_app_or in Hb.
  destruct Hb as [Hb | [<- | []]].
  - destruct Hs as (_ & _ & _ & _ & _ & Hbu & _).
    rewrite Forall_forall in Hbu. apply Hbu, Hb.
  - apply new_burst_ok, Hc.
Qed.

Lemma reload_eq (p : CognitiveProfile) :
  keys_ok p -> bounds_ok p -> NoDup (Py.dict_keys (_project_modifiers p)) ->
  from_dict init (to_dict p) = reloaded p.
Proof.
  intros Hk Hb Hn.
  destruct (buckets_shape p Hk Hb)
    as (t0 & v0 & t1 & v1 & t2 & v2 & t3 & v3 & t4 & v4 & E).
  unfold from_dict, to_dict, reloaded. cbn [is_empty].
  cbn [d_buckets d_project_modifiers d_total_validations d_total_rejections
       d_longest_validated_streak d_user_bias d_implicit_trust_enabled get].
  change (_project_modifiers init) with (@nil (string * ProjectModifier)).
  rewrite (dict_copy (_project_modifiers p) []) by exact Hn.
  rewrite E. reflexivity.
Qed.

Lemma sound_reload p : sound p -> sound (from_dict init (to_dict p)).
Proof.
  intros Hs. pose proof Hs as (Hwf & Hb & Hbe & Hc & Hh & Hbu & Hm & Hp & Hf).
  rewrite reload_eq; [| apply Hwf | exact Hb | apply Hm ].
  unfold counters_ok in Hc.
  refine (conj _ (conj _ (conj _ (conj _ (conj _ (conj _ (conj _
            (conj _ _)))))))).
  - apply (wf_same_buckets _ p); [ reflexivity | exact Hwf ].
  - exact Hb.
  - exact Hbe.
  - unfold counters_ok. cbn. lia.
  - unfold history_ok. cbn. lia.
  - constructor.
  - exact Hm.
  - exact Hp.
  - reflexivity.
Qed.

Lemma sound_reached (p : CognitiveProfile) : reached p -> sound p.
Proof.
  induction 1;
    eauto using sound_init, sound_record_validation, sound_record_activity,
      sound_record_focus_lost, sound_record_focus_regained,
      sound_set_user_bias, sound_enable_implicit_trust, sound_start_session,
      sound_update_project_work_time, sound_reload.
Qed.

Lemma reached_learn env (samples : list (Z * bool * option string)) :
  forall p q, reached p -> learn env p samples = Some q -> reached q.
Proof.
  induction samples as [| [[idle v] h] rest IH]; intros p q Hp H; cbn in H.
  - injection H as <-. exact Hp.
  - destruct (record_validation env p idle v h) as [p' |] eqn:E;
      [| discriminate H ].
    cbn [Py.bind] in H. eapply IH; [| exact H ].
    eapply reached_record_validation; eassumption.
Qed.

(** ** What holds of every profile the program produces *)

(** X12: the streak counters of a profile produced by the program agree:
    the current streak is the number of consecutive validations, it is
    not negative and at most the longest streak, which is at most the
    number of validations; the consecutive rejections are at most the
    rejections; and of the two consecutive counters one is 0. *)
Theorem reached_counters (p : CognitiveProfile) :
  reached p ->
  _current_streak p = _consecutive_validated p
  /\ 0 <= _current_streak p <= _longest_validated_streak p
  /\ _longest_validated_streak p <= _total_validations p
  /\ 0 <= _consecutive_rejected p <= _total_rejections p
  /\ (_consecutive_validated p = 0 \/ _consecutive_rejected p = 0).
Proof. intros H. apply (sound_reached p H). Qed.

Lemma reached_counters_witness :
  exists q,
    learn morning init three_pauses = Some q
    /\ _current_streak q = _consecutive_validated q
    /\ 0 <= _current_streak q <= _longest_validated_streak q
    /\ _longest_validated_streak q <= _total_validations q
    /\ 0 <= _consecutive_rejected q <= _total_rejections q
    /\ (_consecutive_validated q = 0 \/ _consecutive_rejected q = 0).
Proof.
  eexists. split; [ vm_compute; reflexivity |].
  apply reached_counters.
  eapply (reached_learn morning three_pauses init);
    [ exact reached_init | vm_compute; reflexivity ].
Defined.

(** X13: the histories stay within their lengths: a profile produced by
    the program keeps at most 100 recent pauses (its limit stays 100)
    and at most 20 rejection patterns. *)
Theorem reached_history_bounded (p : CognitiveProfile) :
  reached p ->
  _max_recent_pauses p = 100%nat
  /\ (List.length (_recent_pauses p) <= 100)%nat
  /\ (List.length (_repeated_rejection_patterns p) <= 20)%nat.
Proof. intros H. apply (sound_reached p H). Qed.

Lemma reached_history_bounded_witness :
  exists q,
    learn morning init three_pauses = Some q
    /\ _max_recent_pauses q = 100%nat
    /\ (List.length (_recent_pauses q) <= 100)%nat
    /\ (List.length (_repeated_rejection_patterns q) <= 20)%nat.
Proof.
  eexists. split; [ vm_compute; reflexivity |].
  apply reached_history_bounded.
  eapply (reached_learn morning three_pauses init);
    [ exact reached_init | vm_compute; reflexivity ].
Defined.

(** X14: the buckets of a profile produced by the program keep the five
    keys and the bounds of [BUCKET_RANGES], every bucket has [0 <=
    validated <= total], and their grand total is below 50 and at most
    the number of samples ever recorded (validations plus rejections):
    the decay takes samples out of the buckets, never out of the
    counters. *)
Theorem reached_buckets (p : CognitiveProfile) :
  reached p ->
  Py.dict_keys (_buckets p) = map range_key BUCKET_RANGES
  /\ map (fun kb => (min_seconds (snd kb), max_seconds (snd kb))) (_buckets p)
     = BUCKET_RANGES
  /\ Forall (fun b => 0 <= validated_count b <= total_count b)
       (Py.dict_values (_buckets p))
  /\ total_samples p < 50
  /\ total_samples p <= _total_validations p + _total_rejections p.
Proof.
  intros H.
  destruct (sound_reached p H) as ((Hk & Hi & Hs) & Hb & Hbe & _).
  repeat split; assumption.
Qed.

Lemma reached_buckets_witness :
  exists q,
    learn morning init three_pauses = Some q
    /\ total_samples q = 3
    /\ total_samples q <= _total_validations q + _total_rejections q.
Proof.
  eexists. split; [ vm_compute; reflexivity |].
  split; [ vm_compute; reflexivity |].
  apply reached_buckets.
  eapply (reached_learn morning three_pauses init);
    [ exact reached_init | vm_compute; reflexivity ].
Defined.

Lemma few_samples_ask env (p : CognitiveProfile) (idle : Z)
    (proj : option string) :
  reached p ->
  _total_validations p + _total_rejections p < 10 ->
  exists c f, calculate_confidence env p idle proj = Some (c, ASK_USER, f).
Proof.
  intros Hr Hlt.
  destruct (sound_reached p Hr) as (Hwf & _ & Hbe & _).
  unfold behind_counters in Hbe.
  destruct (calculate_confidence_returns env p idle proj Hwf)
    as (c & d & f & E).
  destruct (calculate_confidence_result env p idle proj c d f E) as [_ Hd].
  exists c, f. rewrite E, Hd. unfold decide, MIN_SAMPLES_FOR_AUTO.
  replace (total_samples p <? 10) with true
    by (symmetry; apply Z.ltb_lt; lia).
  reflexivity.
Qed.

(** X15: the first pauses are always put to the user.  On a profile
    produced by the program with fewer than 10 samples recorded,
    [calculate_confidence] returns ASK_USER for every idle time, project
    and clock, the trust level is 0, the accuracy indicator reads
    "Learning" at 0 percent and no notification replaces the dialog. *)
Theorem first_pauses_always_asked
    (env : Env) (p : CognitiveProfile) (idle : Z) (proj : option string) :
  reached p ->
  _total_validations p + _total_rejections p < 10 ->
  (exists c f, calculate_confidence env p idle proj = Some (c, ASK_USER, f))
  /\ get_trust_level p = Some 0%float
  /\ get_accuracy_indicator p = Some ("Learning"%string, 0%float)
  /\ should_use_notification p = Some false.
Proof.
  intros Hr Hlt.
  pose proof (get_trust_level_low p Hlt) as Ht.
  split; [| split; [ exact Ht | split ] ].
  - apply few_samples_ask; assumption.
  - unfold get_accuracy_indicator. rewrite Ht. reflexivity.
  - unfold should_use_notification. rewrite Ht.
    destruct (_implicit_trust_enabled p); reflexivity.
Qed.

Lemma first_pauses_always_asked_witness :
  exists q,
    learn morning init three_pauses = Some q
    /\ option_map (fun r => snd (fst r)) (calculate_confidence morning q 90 None)
       = Some ASK_USER.
Proof.
  eexists. split; [ vm_compute; reflexivity |].
  match goal with
  | |- option_map _ (calculate_confidence ?e ?q ?i ?h) = _ =>
      destruct (proj1 (first_pauses_always_asked e q i h
                  (reached_learn morning three_pauses init q reached_init
                     ltac:(vm_compute; reflexivity))
                  ltac:(vm_compute; reflexivity)))
        as (c & f & E)
  end.
  rewrite E. reflexivity.
Defined.

(** X16: [set_user_bias] stores a bias in [[-1, 1]] for every double: a
    bias strictly inside is kept, every other one becomes -1 or 1 (a NaN
    becomes 1, as [min(1.0, nan)] is 1.0); setting the stored bias again
    changes nothing, and no other attribute is touched. *)
Theorem set_user_bias_clamps (p : CognitiveProfile) (bias : float) :
  let stored := _user_bias (set_user_bias p bias) in
  ((-1 <=? stored)%float = true /\ (stored <=? 1)%float = true)
  /\ (stored = bias \/ stored = 1%float \/ stored = (-1)%float)
  /\ ((-1 <? bias)%float && (bias <? 1)%float = true -> stored = bias)
  /\ _user_bias (set_user_bias p nan) = 1%float
  /\ set_user_bias (set_user_bias p bias) stored = set_user_bias p bias
  /\ set_user_bias p bias = with_bias p stored.
Proof.
  cbn zeta. split; [ apply clamp_bias |].
  unfold set_user_bias. cbn [_user_bias with_bias]. unfold Py.max, Py.min.
  destruct (bias <? 1)%float eqn:E1.
  - destruct (-1 <? bias)%float eqn:E0.
    + rewrite E1, E0. repeat split; auto.
    + repeat split; auto. discriminate.
  - repeat split; auto. rewrite andb_false_r. discriminate.
Qed.

(** X17: in a profile produced by the program the bias lies in [[-1,
    1]], the focus-lost count is not negative (and not NaN), and every
    activity burst has an intensity in [[0, 1]] and at least one event. *)
Theorem reached_signals (p : CognitiveProfile) :
  reached p ->
  ((-1 <=? _user_bias p)%float = true /\ (_user_bias p <=? 1)%float = true)
  /\ (0 <=? _focus_lost_count p)%float = true
  /\ Forall
       (fun b => in_unit_interval (intensity b) /\ 0 < event_count b)
       (_activity_bursts p).
Proof.
  intros H.
  destruct (sound_reached p H) as (_ & _ & _ & _ & _ & Hbu & _ & Hp & Hf).
  repeat split; try apply Hp; assumption.
Qed.

Lemma reached_signals_witness :
  (0 <=? _focus_lost_count
           (record_focus_regained
              (snd (record_activity 2000
                      (record_activity 1000 (no_activity, init))))))%float
  = true.
Proof.
  exact (proj1 (proj2 (reached_signals _
           (reached_record_focus_regained _
              (reached_record_activity 2000
                 (fst (record_activity 1000 (no_activity, init))) _
                 (reached_record_activity 1000 no_activity init
                    reached_init)))))).
Defined.

(** X18: the accuracy indicator and the notification mode are read off
    the same trust level.  [get_trust_level] returns for every profile;
    the indicator is that level times 100 with the label "High" from
    0.8, "Medium" from 0.5 and "Learning" below; and a notification
    replaces the dialog exactly when implicit trust is enabled and the
    label is "High". *)
Theorem accuracy_indicator_and_notification (p : CognitiveProfile) :
  exists trust label,
    get_trust_level p = Some trust
    /\ get_accuracy_indicator p = Some (label, (trust * 100)%float)
    /\ label =
         (if (0.8 <=? trust)%float then "High"
          else if (0.5 <=? trust)%float then "Medium"
          else "Learning")%string
    /\ should_use_notification p =
         Some (_implicit_trust_enabled p && String.eqb label "High").
Proof.
  assert (Ht : exists trust, get_trust_level p = Some trust).
  { destruct (Z.ltb_spec (_total_validations p + _total_rejections p) 10).
    - eexists. apply get_trust_level_low. assumption.
    - eexists. apply get_trust_level_high. assumption. }
  destruct Ht as [trust Ht]. exists trust.
  unfold get_accuracy_indicator, should_use_notification. rewrite Ht.
  cbn [Py.bind]. unfold TRUST_LEVEL_HIGH, TRUST_LEVEL_MEDIUM.
  destruct (0.8 <=? trust)%float.
  - eexists. repeat split. destruct (_implicit_trust_enabled p); reflexivity.
  - destruct (0.5 <=? trust)%float; eexists; repeat split;
      destruct (_implicit_trust_enabled p); reflexivity.
Qed.

(** X19: what is stored is what was learnt.  Loading into a new profile
    the dictionary [to_dict] makes of a profile produced by the program
    gives back its buckets, global counters, preferences and projects,
    with the streaks, the histories, the focus count and the session of
    a new profile; so the trust level, the notification mode and the
    number of bucket samples are those before the save. *)
Theorem reload_keeps_what_was_learnt (p : CognitiveProfile) :
  reached p ->
  from_dict init (to_dict p) = reloaded p
  /\ get_trust_level (from_dict init (to_dict p)) = get_trust_level p
  /\ should_use_notification (from_dict init (to_dict p))
     = should_use_notification p
  /\ total_samples (from_dict init (to_dict p)) = total_samples p.
Proof.
  intros H.
  destruct (sound_reached p H) as (Hwf & Hb & _ & _ & _ & _ & Hm & _).
  rewrite reload_eq; [| apply Hwf | exact Hb | apply Hm ].
  repeat split; reflexivity.
Qed.

Lemma reload_keeps_what_was_learnt_witness :
  exists q,
    learn morning init three_pauses = Some q
    /\ _consecutive_validated q = 1
    /\ from_dict init (to_dict q) = reloaded q.
Proof.
  eexists. split; [ vm_compute; reflexivity |].
  split; [ reflexivity |].
  apply reload_keeps_what_was_learnt.
  eapply (reached_learn morning three_pauses init);
    [ exact reached_init | vm_compute; reflexivity ].
Defined.

Lemma update_project_modifier_spec
    (mods mods' : list (string * ProjectModifier)) (h : string)
    (idle : Z) (v : bool) :
  _update_project_modifier mods h idle v = Some mods' ->
  (forall k, k <> h -> Py.dict_get mods' k = Py.dict_get mods k)
  /\ exists m',
       Py.dict_get mods' h = Some m'
       /\ let m := match Py.dict_get mods h with
                   | Some m => m
                   | None => new_modifier h
                   end in
          pm_total_validations m' =
            pm_total_validations m + (if v then 1 else 0)
          /\ pm_total_rejections m' =
               pm_total_rejections m + (if v then 0 else 1)
          /\ session_count m' = session_count m
          /\ total_work_time m' = total_work_time m
          /\ file_hash m' = file_hash m
          /\ last_filename m' = last_filename m.
Proof.
  unfold _update_project_modifier.
  set (mods0 := match Py.dict_get mods h with
                | Some _ => mods
                | None => Py.dict_set mods h (new_modifier h)
                end).
  assert (H0 : forall k, k <> h -> Py.dict_get mods0 k = Py.dict_get mods k).
  { intros k Hk. subst mods0. destruct (Py.dict_get mods h); [ reflexivity |].
    apply dict_get_set_other, Hk. }
  assert (H1 : Py.dict_get mods0 h =
               Some match Py.dict_get mods h with
                    | Some m => m
                    | None => new_modifier h
                    end).
  { subst mods0. destruct (Py.dict_get mods h) eqn:E; [ exact E |].
    apply dict_get_set_same. }
  rewrite H1. cbn [Py.bind].
  set (m := match Py.dict_get mods h with
            | Some m => m
            | None => new_modifier h
            end).
  destruct v.
  - match goal with
    | |- Py.bind ?a _ = _ -> _ => destruct a as [avg |]; [| discriminate ]
    end.
    cbn [Py.bind]. intros [= <-]. split.
    + intros k Hk. rewrite dict_get_set_other by exact Hk. apply H0, Hk.
    + eexists. split; [ apply dict_get_set_same |]. cbn.
      repeat split; lia.
  - intros [= <-]. split.
    + intros k Hk. rewrite dict_get_set_other by exact Hk. apply H0, Hk.
    + eexists. split; [ apply dict_get_set_same |]. cbn.
      repeat split; lia.
Qed.

Lemma record_validation_modifiers env p idle v h p' :
  record_validation env p idle v h = Some p' ->
  update_modifiers p h idle v = Some (_project_modifiers p').
Proof.
  unfold record_validation. intros H.
  destruct (update_buckets p idle v) as [p1 |]; [| discriminate H ].
  cbn [Py.bind] in H.
  destruct (session_age_now env p) as [age |]; [| discriminate H ].
  cbn [Py.bind] in H.
  destruct (update_modifiers p h idle v) as [mods |]; [| discriminate H ].
  cbn [Py.bind] in H. injection H as <-. reflexivity.
Qed.

(** X20: a sample counts for its project only.  [record_validation]
    leaves the modifier of every other project as it was; with no
    project (or an empty hash) it leaves them all; and the modifier of
    the sample's project (a new one on its first sample) gets one more
    validation or one more rejection, its work time, session count and
    names unchanged. *)
Theorem record_validation_one_project
    (env : Env) (p p' : CognitiveProfile) (idle : Z) (v : bool)
    (h : option string) :
  record_validation env p idle v h = Some p' ->
  (forall k, h <> Some k ->
     Py.dict_get (_project_modifiers p') k
     = Py.dict_get (_project_modifiers p) k)
  /\ (h = None \/ h = Some EmptyString ->
      _project_modifiers p' = _project_modifiers p)
  /\ (forall k, h = Some k -> k <> EmptyString ->
      exists m',
        Py.dict_get (_project_modifiers p') k = Some m'
        /\ pm_total_validations m' =
             pm_total_validations (modifier_of p k) + (if v then 1 else 0)
        /\ pm_total_rejections m' =
             pm_total_rejections (modifier_of p k) + (if v then 0 else 1)
        /\ session_count m' = session_count (modifier_of p k)
        /\ total_work_time m' = total_work_time (modifier_of p k)
        /\ file_hash m' = file_hash (modifier_of p k)
        /\ last_filename m' = last_filename (modifier_of p k)).
Proof.
  intros H. apply record_validation_modifiers in H.
  unfold update_modifiers in H.
  destruct h as [h |].
  - destruct (String.eqb h EmptyString) eqn:Eh.
    + apply String.eqb_eq in Eh. subst h.
      injection H as H. rewrite <- H. repeat split; auto.
      intros k [= <-] Hk. contradiction.
    + apply String.eqb_neq in Eh.
      destruct (update_project_modifier_spec _ _ _ _ _ H) as [Ho Hs].
      repeat split.
      * intros k Hk. apply Ho. congruence.
      * intros [E | E]; [ discriminate E | congruence ].
      * intros k [= <-] _. exact Hs.
  - injection H as H. rewrite <- H. repeat split; auto.
    intros k E. discriminate E.
Qed.

Lemma record_validation_one_project_witness :
  exists q,
    record_validation morning init 90 true (Some "a1b2"%string) = Some q
    /\ exists m',
         Py.dict_get (_project_modifiers q) "a1b2" = Some m'
         /\ pm_total_validations m' = 1.
Proof.
  eexists. split; [ vm_compute; reflexivity |].
  match goal with
  | |- exists m', Py.dict_get (_project_modifiers ?q) _ = _ /\ _ =>
      destruct (proj2 (proj2 (record_validation_one_project morning init q
                  90 true (Some "a1b2"%string)
                  ltac:(vm_compute; reflexivity)))
                  "a1b2"%string eq_refl ltac:(discriminate))
        as (m' & Hg & Hv & _)
  end.
  exists m'. split; [ exact Hg | exact Hv ].
Defined.

Lemma summary_shape (events : list PauseEvent) (a b c d e : Z) :
  exists a' b' c' d' e',
    fold_left
      (fun d event =>
         Py.dict_adjust (fun n => n + 1) d (pattern_name (pattern event)))
      events
      [("MICRO_THINKING"%string, a); ("PLANNING_PAUSE"%string, b);
       ("CONTEXT_SWITCH"%string, c); ("BREAK"%string, d);
       ("UNKNOWN"%string, e)]
    = [("MICRO_THINKING"%string, a'); ("PLANNING_PAUSE"%string, b');
       ("CONTEXT_SWITCH"%string, c'); ("BREAK"%string, d');
       ("UNKNOWN"%string, e')]
    /\ a' + b' + c' + d' + e' = a + b + c + d + e + Z.of_nat (List.length events)
    /\ a <= a' /\ b <= b' /\ c <= c' /\ d <= d' /\ e <= e'.
Proof.
  revert a b c d e.
  induction events as [| ev events IH]; intros a b c d e.
  - exists a, b, c, d, e. cbn. repeat split; lia.
  - cbn [fold_left List.length].
    destruct (pattern ev); cbn [pattern_name Py.dict_adjust String.eqb
                                 Ascii.eqb Bool.eqb];
      match goal with
      | |- context [fold_left _ events ?l] =>
          match l with
          | [(_, ?a0); (_, ?b0); (_, ?c0); (_, ?d0); (_, ?e0)] =>
              destruct (IH a0 b0 c0 d0 e0)
                as (a' & b' & c' & d' & e' & E & Hsum & Hle)
          end
      end;
      exists a', b', c', d', e'; (split; [ exact E |]); lia.
Qed.

(** X22: the pattern summary has one count for each of the five
    patterns, in the order of the enumeration; no count is negative and
    together they count every remembered pause once. *)
Theorem pattern_summary_counts (p : CognitiveProfile) :
  Py.dict_keys (get_pattern_summary p) = map pattern_name all_patterns
  /\ Forall (fun n => 0 <= n) (Py.dict_values (get_pattern_summary p))
  /\ summary_total (get_pattern_summary p)
     = Z.of_nat (List.length (_recent_pauses p)).
Proof.
  unfold get_pattern_summary, summary_total.
  cbn [all_patterns fold_left pattern_name Py.dict_set String.eqb Ascii.eqb
       Bool.eqb].
  destruct (summary_shape (_recent_pauses p) 0 0 0 0 0)
    as (a & b & c & d & e & E & Hsum & Hle).
  rewrite E. cbn. repeat split; try lia.
  repeat constructor; lia.
Qed.

(** [start_session] followed by [update_project_work_time], the two
    calls that end [_handle_saved_document], on the profile they find:
    the project has the given work time and its validation counts, the
    session starts at the clock's time with no focus loss and no
    bursts, no other project is touched, and a session is counted for a
    project the profile knows. *)
Lemma session_then_work_time
    (env : Env) (p : CognitiveProfile) (h : string) (total_seconds : Z) :
  h <> EmptyString ->
  let p' :=
    update_project_work_time (start_session env p (Some h)) h total_seconds in
  (exists m,
     Py.dict_get (_project_modifiers p') h = Some m
     /\ total_work_time m = total_seconds
     /\ session_count m =
          match Py.dict_get (_project_modifiers p) h with
          | Some known => session_count known + 1
          | None => 0
          end
     /\ pm_total_validations m = pm_total_validations (modifier_of p h)
     /\ pm_total_rejections m = pm_total_rejections (modifier_of p h))
  /\ (forall k, k <> h ->
      Py.dict_get (_project_modifiers p') k
      = Py.dict_get (_project_modifiers p) k)
  /\ _session_start_time p' = now env
  /\ _focus_lost_count p' = 0%float
  /\ _activity_bursts p' = []
  /\ _buckets p' = _buckets p
  /\ _recent_pauses p' = _recent_pauses p.
Proof.
  intros Hne. cbv zeta.
  apply String.eqb_neq in Hne.
  unfold start_session, update_project_work_time, modifier_of. rewrite Hne.
  change (_project_modifiers
            (with_bursts (with_focus (with_session_start p (now env)) 0) []))
    with (_project_modifiers p).
  destruct (Py.dict_get (_project_modifiers p) h) as [known |] eqn:Eg.
  - cbn [_project_modifiers with_modifiers].
    rewrite ?dict_get_adjust_same, ?Eg. cbn [option_map].
    split.
    + eexists. rewrite ?dict_get_adjust_same, ?Eg.
      cbn. repeat split.
    + repeat split.
      intros k Hk. rewrite !dict_get_adjust_other by exact Hk. reflexivity.
  - cbn [_project_modifiers with_modifiers with_bursts with_focus
         with_session_start].
    rewrite ?Eg.
    split.
    + eexists. rewrite dict_get_adjust_same, dict_get_set_same.
      cbn. repeat split.
    + repeat split.
      intros k Hk. rewrite dict_get_adjust_other by exact Hk.
      apply dict_get_set_other, Hk.
Qed.

End ProfileLaws.

(** * Properties of the cognitive loop of the extension *)

Module ExtensionLaws.
Import Timer Profile TimerFacts ProfileFacts TimerLaws ProfileLaws Extension.

Lemma record_validation_counters env p idle v h p' :
  record_validation env p idle v h = Some p' ->
  _total_validations p' = _total_validations p + (if v then 1 else 0)
  /\ _total_rejections p' = _total_rejections p + (if v then 0 else 1)
  /\ _user_bias p' = _user_bias p
  /\ _implicit_trust_enabled p' = _implicit_trust_enabled p.
Proof.
  unfold record_validation. intros H.
  destruct (update_buckets p idle v) as [p1 |]; [| discriminate H ].
  cbn [Py.bind] in H.
  destruct (session_age_now env p) as [age |]; [| discriminate H ].
  cbn [Py.bind] in H.
  destruct (update_modifiers p h idle v) as [mods |]; [| discriminate H ].
  cbn [Py.bind] in H. injection H as <-. cbn.
  destruct v; repeat split; lia.
Qed.

Lemma same_but_profile_refl x : same_but_profile x x.
Proof. unfold same_but_profile. tauto. Qed.

Lemma same_but_profile_trans x y z :
  same_but_profile x y -> same_but_profile y z -> same_but_profile x z.
Proof.
  unfold same_but_profile.
  intros (A1 & A2 & A3 & A4 & A5 & A6 & A7) (B1 & B2 & B3 & B4 & B5 & B6 & B7).
  repeat split; try congruence. auto.
Qed.

Lemma slot_fields env x sig x' :
  slot env x sig = Some x' -> same_but_profile x x'.
Proof.
  destruct sig as [st | total | idle c d | a secs c]; cbn.
  - intros [= <-]. apply same_but_profile_refl.
  - intros [= <-]. unfold _on_time_updated.
    destruct (_current_file_hash x) as [h |];
      [| apply same_but_profile_refl ].
    destruct (String.eqb h EmptyString); [ apply same_but_profile_refl |].
    unfold same_but_profile. cbn. repeat split.
    apply reached_update_project_work_time.
  - intros [= <-]. apply same_but_profile_refl.
  - unfold _show_cognitive_notification.
    destruct (record_validation env (_cognitive_profile x) secs a
                (_current_file_hash x)) as [p |] eqn:E; [| discriminate ].
    cbn [Py.bind]. intros [= <-]. unfold same_but_profile. cbn.
    repeat split. intros Hr. eapply reached_record_validation; eassumption.
Qed.

Lemma deliver_fields env sigs :
  forall x x', deliver env x sigs = Some x' -> same_but_profile x x'.
Proof.
  induction sigs as [| sig sigs IH]; intros x x' H; cbn in H.
  - injection H as <-. apply same_but_profile_refl.
  - destruct (slot env x sig) as [y |] eqn:E; [| discriminate H ].
    cbn [Py.bind] in H.
    eapply same_but_profile_trans; [ eapply slot_fields, E | apply IH, H ].
Qed.

Lemma answering_cases env x s1 :
  answering env x = Some s1 ->
  (calls_back (_timer_manager x) = false /\ s1 = _timer_manager x)
  \/ (calls_back (_timer_manager x) = true
      /\ exists answer,
           _get_cognitive_decision env x (_idle_seconds (_timer_manager x))
           = Some answer
           /\ s1 = set_callback (Some (fun _ => answer)) (_timer_manager x)).
Proof.
  unfold answering. destruct (calls_back (_timer_manager x)).
  - destruct (_get_cognitive_decision env x (_idle_seconds (_timer_manager x)))
      as [answer |]; [| discriminate ].
    cbn [Py.bind]. intros [= <-]. right. split; [ reflexivity |].
    exists answer. split; reflexivity.
  - intros [= <-]. left. split; reflexivity.
Qed.

Lemma run_fields env x s (method : Stmt) x' :
  run_method env x s method = Some x' ->
  _timer_manager x' = fst (method s)
  /\ same_but_profile (with_timer x (fst (method s))) x'.
Proof.
  unfold run_method. intros H.
  destruct (method s) as [s' sigs]. cbn [fst].
  pose proof (deliver_fields env sigs _ _ H) as Hd.
  split; [ apply Hd | exact Hd ].
Qed.

Lemma timer_steady_step s st e :
  match e with
  | SetTLimitMinutes _ | SetCallback _ => False
  | _ => True
  end ->
  timer_steady s st -> timer_steady (step s e) st.
Proof.
  intros He (Hi & Ht & Hl & Hs & Hc).
  destruct (step_keeps_settings s e He) as [El Ec].
  unfold timer_steady. rewrite El, Ec.
  refine (conj _ (conj _ (conj Hl (conj Hs Hc)))).
  - apply inv_step, Hi.
  - apply timers_ok_step, Ht.
Qed.

Lemma timer_steady_answering env x s1 :
  answering env x = Some s1 ->
  timer_steady (_timer_manager x) (_storage x) -> timer_steady s1 (_storage x).
Proof.
  intros H Hs. destruct (answering_cases env x s1 H) as [[_ ->] | (_ & a & _ & ->)];
    [ exact Hs |].
  destruct Hs as (Hi & Ht & Hl & Hs & Hc).
  refine (conj Hi (conj Ht (conj Hl (conj Hs _)))). discriminate.
Qed.

Lemma steady_split x :
  steady x <->
  timer_steady (_timer_manager x) (_storage x) /\ reached (_cognitive_profile x).
Proof. unfold steady, timer_steady. tauto. Qed.

Lemma steady_run env x s s0 (method : Stmt) (e : Event) x' :
  fst (method s) = step s0 e ->
  match e with
  | SetTLimitMinutes _ | SetCallback _ => False
  | _ => True
  end ->
  timer_steady s0 (_storage x) -> reached (_cognitive_profile x) ->
  run_method env x s method = Some x' -> steady x'.
Proof.
  intros Hm He Ht Hr H.
  destruct (run_fields env x s method x' H) as (Et & Hsame).
  destruct Hsame as (_ & Est & _ & _ & _ & _ & Hreach).
  apply steady_split. cbn in Est, Hreach. rewrite Et, Est, Hm.
  split; [| apply Hreach, Hr ].
  apply timer_steady_step; assumption.
Qed.

Lemma steady_call env x (method : Stmt) (e : Event) x' :
  fst (method (_timer_manager x)) = step (_timer_manager x) e ->
  match e with
  | SetTLimitMinutes _ | SetCallback _ => False
  | _ => True
  end ->
  steady x -> call env x method = Some x' -> steady x'.
Proof.
  intros Hm He Hs H. apply steady_split in Hs. destruct Hs as [Ht Hr].
  eapply steady_run; eassumption.
Qed.

Lemma steady_handle x e x' : steady x -> handle x e = Some x' -> steady x'.
Proof.
  intros Hs H.
  destruct e as [env doc existing | env | has_focus | env | env | env | env b | env];
    cbn [handle] in H.
  - (* _handle_unsaved_document *)
    unfold _handle_unsaved_document in H.
    match type of H with
    | Py.bind (call _ ?y _) _ = _ =>
        assert (Hy : steady y) by (apply steady_split; apply steady_split in Hs;
                                   exact Hs)
    end.
    match type of H with
    | Py.bind ?a _ = _ => destruct a as [x1 |] eqn:E1; [| discriminate H ]
    end.
    cbn [Py.bind] in H.
    destruct (call env x1 start) as [x2 |] eqn:E2; [| discriminate H ].
    cbn [Py.bind] in H. injection H as <-.
    assert (H1 : steady x1).
    { match type of E1 with
      | call _ ?y _ = _ =>
          apply (steady_call env y (set_total_seconds existing)
                   (SetTotalSeconds existing) x1);
            [ reflexivity | exact I | exact Hy | exact E1 ]
      end. }
    assert (H2 : steady x2).
    { eapply (steady_call env _ start Start);
        [ reflexivity | exact I | exact H1 | exact E2 ]. }
    apply steady_split in H2. destruct H2 as [Ht2 Hr2].
    apply steady_split. split; [ exact Ht2 |].
    exact (reached_start_session env _ (Some doc) Hr2).
  - (* _on_activity *)
    unfold _on_activity in H.
    destruct (record_activity (now env) (_activity_window x, _cognitive_profile x))
      as [w p] eqn:Er.
    assert (Hp : reached p).
    { replace p with (snd (record_activity (now env)
                             (_activity_window x, _cognitive_profile x)))
        by (rewrite Er; reflexivity).
      apply reached_record_activity, Hs. }
    match type of H with
    | (if _ then Py.bind (answering _ ?y) _ else _) = _ =>
        assert (Hy : steady y)
          by (apply steady_split; split;
              [ exact (proj1 (proj1 (steady_split x) Hs)) | exact Hp ]);
        set (xa := y) in *
    end.
    match type of H with
    | (if ?c then _ else _) = _ => destruct c
    end.
    + destruct (answering env xa) as [s1 |] eqn:Ea; [| discriminate H ].
      cbn [Py.bind] in H.
      apply steady_split in Hy. destruct Hy as [Hty Hry].
      eapply (steady_run env xa s1 s1 on_activity_detected ActivityDetected);
        [ reflexivity | exact I | | exact Hry | exact H ].
      eapply timer_steady_answering; eassumption.
    + injection H as <-. exact Hy.
  - (* _on_focus_changed *)
    injection H as <-. apply steady_split in Hs. destruct Hs as [Ht Hr].
    apply steady_split. unfold _on_focus_changed.
    destruct has_focus; cbn; (split; [ exact Ht |]).
    + apply reached_record_focus_regained, Hr.
    + apply reached_record_focus_lost, Hr.
  - (* _check_idle *)
    unfold _check_idle in H.
    destruct (x_last_activity_time x =? 0)%float; [ injection H as <-; exact Hs |].
    destruct (IDLE_THRESHOLD <? (now env - x_last_activity_time x) * 1000)%float;
      [| injection H as <-; exact Hs ].
    destruct (_state (_timer_manager x));
      try (injection H as <-; exact Hs).
    eapply (steady_call env _ on_activity_stopped ActivityStopped);
      [ reflexivity | exact I | exact Hs | exact H ].
  - (* the tick timer *)
    unfold tick in H.
    destruct (_tick_timer (_timer_manager x)) eqn:Et;
      [| injection H as <-; exact Hs ].
    eapply (steady_call env _ _on_tick Tick); [| exact I | exact Hs | exact H ].
    cbn [step]. rewrite Et. reflexivity.
  - (* the buffer timer *)
    unfold buffer_timeout in H.
    destruct (_buffer_timer (_timer_manager x)) eqn:Eb;
      [| injection H as <-; exact Hs ].
    apply steady_split in Hs. destruct Hs as [Ht Hr].
    eapply (steady_run env _ _ (_timer_manager x) _on_buffer_expired
              BufferExpired); [| exact I | exact Ht | exact Hr | exact H ].
    cbn [step _timer_manager with_timer]. rewrite Eb. reflexivity.
  - (* _on_cognitive_response *)
    unfold _on_cognitive_response in H.
    destruct (record_validation env (_cognitive_profile x)
                (_idle_seconds (_timer_manager x)) b (_current_file_hash x))
      as [p |] eqn:Er; [| discriminate H ].
    cbn [Py.bind] in H.
    set (delta := if b then 1 else -1).
    replace (if b then Storage.adjust_t_limit (_storage (with_profile x p)) 1
             else Storage.adjust_t_limit (_storage (with_profile x p)) (-1))
      with (Storage.adjust_t_limit (_storage x) delta) in H
      by (subst delta; destruct b; reflexivity).
    unfold Storage.adjust_t_limit in H. cbv zeta in H.
    match type of H with
    | Py.bind (call _ ?y _) _ = _ => set (x1 := y) in H
    end.
    destruct (call env x1 (on_cognitive_response b)) as [x2 |] eqn:Ec;
      [| discriminate H ].
    cbn [Py.bind] in H. injection H as <-.
    apply steady_split in Hs. destruct Hs as [(Hi & Ht & Hl & Hst & Hc) Hr].
    assert (H1 : steady x1).
    { apply steady_split. subst x1. cbn. split.
      - refine (conj Hi (conj Ht (conj _ (conj _ Hc)))).
        + cbn [_t_limit_minutes set_t_limit]. lia.
        + cbn [_t_limit_minutes set_t_limit].
          set (n := Z.max 15 (Z.min 25 (Storage.get_t_limit (_storage x) + delta))).
          change (Storage.get_t_limit (Storage.set_t_limit (_storage x) n))
            with (Z.max 15 (Z.min 25 n)).
          lia.
      - eapply reached_record_validation; eassumption. }
    assert (H2 : steady x2).
    { eapply (steady_call env x1 (on_cognitive_response b) (CognitiveResponse b));
        [ reflexivity | exact I | exact H1 | exact Ec ]. }
    apply steady_split in H2. apply steady_split.
    unfold _save_cognitive_profile. cbn. exact H2.
  - (* _on_notification_undo *)
    unfold _on_notification_undo in H.
    pose proof (inv_step (_timer_manager x) UndoLastAutoDecision) as Hi.
    pose proof (timer_steady_step (_timer_manager x) (_storage x)
                  UndoLastAutoDecision I) as Hts.
    cbn [step] in Hts.
    destruct (undo_last_auto_decision (_timer_manager x)) as [result [s' sigs]].
    cbn [fst snd] in Hts.
    destruct (deliver env (with_timer x s') sigs) as [x1 |] eqn:Ed;
      [| discriminate H ].
    cbn [Py.bind] in H.
    pose proof (deliver_fields env sigs _ _ Ed)
      as (Et & Est & _ & _ & _ & _ & Hreach).
    apply steady_split in Hs. destruct Hs as [Ht Hr].
    assert (H1 : steady x1).
    { apply steady_split. cbn in Et, Est, Hreach. rewrite Et, Est.
      split; [ apply Hts, Ht | apply Hreach, Hr ]. }
    destruct result as [[a secs] |]; [| injection H as <-; exact H1 ].
    destruct (record_validation env (_cognitive_profile x1) secs (negb a)
                (_current_file_hash x1)) as [p |] eqn:Er; [| discriminate H ].
    cbn [Py.bind] in H. injection H as <-.
    apply steady_split in H1. destruct H1 as [Ht1 Hr1].
    apply steady_split. cbn. split; [ exact Ht1 |].
    eapply reached_record_validation; eassumption.
Qed.

Lemma steady_startup (st : WorkTimerStorage) :
  written_by_program st -> steady (createActions (Extension.init st)).
Proof.
  intros Hw. apply steady_split. split.
  - change (_timer_manager (createActions (Extension.init st)))
      with (set_callback (Some bound_method)
              (set_t_limit (Z.max 15 (Z.min 25 (Storage.get_t_limit st)))
                 Timer.init)).
    change (_storage (createActions (Extension.init st))) with st.
    unfold timer_steady. generalize (Storage.get_t_limit st). intros n.
    refine (conj _ (conj _ (conj _ (conj _ _)))).
    + unfold Timer.inv. cbn [_total_seconds _idle_seconds _last_auto_decision
                              set_callback set_t_limit Timer.init]. lia.
    + split; reflexivity.
    + cbn [_t_limit_minutes set_callback set_t_limit]. lia.
    + reflexivity.
    + discriminate.
  - change (_cognitive_profile (createActions (Extension.init st)))
      with (enable_implicit_trust
              (set_user_bias
                 (from_dict Profile.init (s_cognitive_profile st))
                 (Storage.get_user_bias st))
              (Storage.get_implicit_trust_enabled st)).
    apply reached_enable_implicit_trust, reached_set_user_bias.
    destruct Hw as [-> | (p & Hp & ->)].
    + exact reached_init.
    + apply reached_reload, Hp.
Qed.

(** X23: the extension stays steady.  Started on a storage whose profile
    dictionary is empty or was written by the program, and through any
    activity, focus changes, idle checks, seconds, buffer timeouts,
    answers and undo requests that do not raise, the timer's total and
    idle counter are not negative, its one-second timer runs exactly
    outside STOPPED and its buffer timer exactly in BUFFER, its limit is
    the stored one and within 15 and 25 minutes, its callback is set and
    the profile is one the program produces. *)
Theorem extension_stays_steady
    (st : WorkTimerStorage) (es : list Happening) (x : WorkTimerExtension) :
  written_by_program st ->
  handle_all (createActions (Extension.init st)) es = Some x ->
  (0 <= _total_seconds (_timer_manager x)
   /\ 0 <= _idle_seconds (_timer_manager x))
  /\ _tick_timer (_timer_manager x)
     = negb (state_eqb (_state (_timer_manager x)) STOPPED)
  /\ _buffer_timer (_timer_manager x)
     = state_eqb (_state (_timer_manager x)) BUFFER
  /\ 15 <= _t_limit_minutes (_timer_manager x) <= 25
  /\ _t_limit_minutes (_timer_manager x)
     = Z.max 15 (Z.min 25 (Storage.get_t_limit (_storage x)))
  /\ _cognitive_decision_callback (_timer_manager x) <> None
  /\ reached (_cognitive_profile x).
Proof.
  intros Hw H.
  assert (Hs : steady x).
  { pose proof (steady_startup st Hw) as H0. revert H0 H.
    generalize (createActions (Extension.init st)).
    induction es as [| e es IH]; intros y Hy H; cbn in H.
    - injection H as <-. exact Hy.
    - destruct (handle y e) as [y' |] eqn:E; [| discriminate H ].
      cbn [Py.bind] in H. eapply IH; [| exact H ].
      eapply steady_handle; eassumption. }
  destruct Hs as ((Ht & Hi & _) & (Htk & Hbt) & Hl & Hst & Hc & Hr).
  repeat split; auto; lia.
Qed.

Lemma extension_stays_steady_witness :
  exists x,
    handle_all (createActions (Extension.init Storage.init)) a_morning = Some x
    /\ _total_seconds (_timer_manager x) = 100
    /\ _t_limit_minutes (_timer_manager x) = 21
    /\ reached (_cognitive_profile x).
Proof.
  eexists. split; [ vm_compute; reflexivity |].
  split; [ reflexivity |]. split; [ reflexivity |].
  match goal with
  | |- reached (_cognitive_profile ?x) =>
      exact (proj2 (proj2 (proj2 (proj2 (proj2 (proj2
               (extension_stays_steady Storage.init a_morning x
                  (or_introl eq_refl)
                  ltac:(vm_compute; reflexivity))))))))
  end.
Defined.

Lemma record_activity_counters t w p :
  _total_validations (snd (record_activity t (w, p))) = _total_validations p
  /\ _total_rejections (snd (record_activity t (w, p))) = _total_rejections p.
Proof.
  unfold record_activity.
  destruct (30 <? t - _window_start_time w)%float; [| split; reflexivity ].
  destruct (0 <? _activity_count_window w); split; reflexivity.
Qed.

Lemma on_time_updated_counters x total :
  _total_validations (_cognitive_profile (_on_time_updated x total))
  = _total_validations (_cognitive_profile x)
  /\ _total_rejections (_cognitive_profile (_on_time_updated x total))
     = _total_rejections (_cognitive_profile x)
  /\ _timer_manager (_on_time_updated x total) = _timer_manager x
  /\ _storage (_on_time_updated x total) = _storage x
  /\ _current_file_hash (_on_time_updated x total) = _current_file_hash x.
Proof.
  unfold _on_time_updated.
  destruct (_current_file_hash x) as [h |] eqn:Eh;
    [| rewrite ?Eh; repeat split; reflexivity ].
  destruct (String.eqb h EmptyString); rewrite ?Eh; repeat split;
    try reflexivity; exact Eh.
Qed.

(** X24: an answer is learnt.  When the user answers the question about
    a pause, the timer resumes (RUNNING, idle counter 0) with the idle
    seconds added on "yes" and dropped on "no"; the limit moves by one
    minute, up on "yes" and down on "no", within 15 and 25, in the
    storage and in the timer alike; the profile records the pause with
    the answer (and, on "yes", the new work time of the document); and
    the profile stored is the profile after that. *)
Theorem answer_is_learnt
    (env : Env) (x x' : WorkTimerExtension) (was_thinking : bool) :
  _state (_timer_manager x) = COGNITIVE_CHECK ->
  _on_cognitive_response env x was_thinking = Some x' ->
  let idle := _idle_seconds (_timer_manager x) in
  let total := _total_seconds (_timer_manager x) in
  (_state (_timer_manager x') = RUNNING
   /\ _idle_seconds (_timer_manager x') = 0
   /\ _total_seconds (_timer_manager x')
      = total + (if was_thinking then idle else 0))
  /\ (_t_limit_minutes (_timer_manager x')
      = Z.max 15 (Z.min 25 (Storage.get_t_limit (_storage x)
                            + (if was_thinking then 1 else -1)))
      /\ Storage.get_t_limit (_storage x')
         = _t_limit_minutes (_timer_manager x'))
  /\ (exists p,
        record_validation env (_cognitive_profile x) idle was_thinking
          (_current_file_hash x) = Some p
        /\ _cognitive_profile x'
           = _cognitive_profile
               (if was_thinking
                then _on_time_updated (with_profile x p) (total + idle)
                else with_profile x p))
  /\ s_cognitive_profile (_storage x') = to_dict (_cognitive_profile x').
Proof.
  intros Hst H. cbv zeta. unfold _on_cognitive_response in H.
  destruct (record_validation env (_cognitive_profile x)
              (_idle_seconds (_timer_manager x)) was_thinking
              (_current_file_hash x)) as [p |] eqn:Er; [| discriminate H ].
  cbn [Py.bind] in H.
  destruct x as [st t p0 w h doc lat].
  destruct t as [state tot buf pts idl lim cb slot tick btm].
  cbn in Hst. subst state. cbn in Er.
  unfold call, run_method in H.
  destruct was_thinking; cbn in H.
  - unfold _on_time_updated in H |- *. cbn in H |- *.
    destruct h as [h |]; cbn in H |- *.
    + destruct (String.eqb h EmptyString); cbn in H |- *;
        injection H as <-; cbn;
        (split; [ repeat split |]); (split; [ repeat split; lia |]);
        (split; [ exists p; split; reflexivity | reflexivity ]).
    + injection H as <-; cbn;
        (split; [ repeat split |]); (split; [ repeat split; lia |]);
        (split; [ exists p; split; reflexivity | reflexivity ]).
  - injection H as <-; cbn;
      (split; [ repeat split; lia |]); (split; [ repeat split; lia |]);
      (split; [ exists p; split; reflexivity | reflexivity ]).
Qed.

Lemma answer_is_learnt_witness :
  exists x',
    _on_cognitive_response morning (asking Profile.init None 500 90) true
    = Some x'
    /\ _total_seconds (_timer_manager x') = 590
    /\ _t_limit_minutes (_timer_manager x') = 21
    /\ s_cognitive_profile (_storage x') = to_dict (_cognitive_profile x').
Proof.
  eexists. split; [ vm_compute; reflexivity |].
  split; [ reflexivity |]. split; [ reflexivity |].
  match goal with
  | |- s_cognitive_profile (_storage ?x') = _ =>
      exact (proj2 (proj2 (proj2
               (answer_is_learnt morning (asking Profile.init None 500 90) x'
                  true eq_refl ltac:(vm_compute; reflexivity)))))
  end.
Defined.

Lemma deliver_counters env sigs :
  forall x x',
    deliver env x sigs = Some x' ->
    _total_validations (_cognitive_profile x')
    = _total_validations (_cognitive_profile x) + decisions true sigs
    /\ _total_rejections (_cognitive_profile x')
       = _total_rejections (_cognitive_profile x) + decisions false sigs.
Proof.
  induction sigs as [| sig sigs IH]; intros x x' H; cbn [deliver] in H.
  - injection H as <-. cbn. lia.
  - destruct (slot env x sig) as [y |] eqn:E; [| discriminate H ].
    cbn [Py.bind] in H. destruct (IH y x' H) as [Hv Hr].
    rewrite Hv, Hr. clear IH H Hv Hr.
    destruct sig as [st | total | idle c d | a secs c]; cbn [slot] in E;
      cbn [decisions].
    + injection E as <-. lia.
    + injection E as <-.
      destruct (on_time_updated_counters x total) as (E1 & E2 & _).
      rewrite E1, E2. lia.
    + injection E as <-. lia.
    + unfold _show_cognitive_notification in E.
      destruct (record_validation env (_cognitive_profile x) secs a
                  (_current_file_hash x)) as [p |] eqn:Er; [| discriminate E ].
      cbn [Py.bind] in E. injection E as <-.
      cbn [_cognitive_profile with_profile].
      destruct (record_validation_counters _ _ _ _ _ _ Er) as (Ev & Erj & _).
      rewrite Ev, Erj. destruct a; cbn [Bool.eqb]; lia.
Qed.

(** X25: an auto-decision is learnt as a sample of its own kind.  On
    activity after a pause within the limit (no earlier decision left to
    undo), either the profile decided and the timer holds the decision
    for an undo, is RUNNING again with the idle seconds added on accept
    and dropped on discard, and the profile counts one more validation
    on accept and one more rejection on discard; or the question is
    raised, and the timer's total and idle seconds and the profile's
    counters are as before. *)
Theorem auto_decision_is_learnt (env : Env) (x x' : WorkTimerExtension) :
  _state (_timer_manager x) = PAUSED ->
  _idle_seconds (_timer_manager x) <= _t_limit_minutes (_timer_manager x) * 60 ->
  _cognitive_decision_callback (_timer_manager x) <> None ->
  _last_auto_decision (_timer_manager x) = None ->
  truthy (_current_doc_id x) = true ->
  _on_activity env x = Some x' ->
  let idle := _idle_seconds (_timer_manager x) in
  let total := _total_seconds (_timer_manager x) in
  let validations := _total_validations (_cognitive_profile x) in
  let rejections := _total_rejections (_cognitive_profile x) in
  match _last_auto_decision (_timer_manager x') with
  | Some (was_accepted, seconds, _) =>
      seconds = idle
      /\ _state (_timer_manager x') = RUNNING
      /\ _idle_seconds (_timer_manager x') = 0
      /\ _total_seconds (_timer_manager x')
         = total + (if was_accepted then idle else 0)
      /\ _total_validations (_cognitive_profile x')
         = validations + (if was_accepted then 1 else 0)
      /\ _total_rejections (_cognitive_profile x')
         = rejections + (if was_accepted then 0 else 1)
  | None =>
      _state (_timer_manager x') = COGNITIVE_CHECK
      /\ _idle_seconds (_timer_manager x') = idle
      /\ _total_seconds (_timer_manager x') = total
      /\ _total_validations (_cognitive_profile x') = validations
      /\ _total_rejections (_cognitive_profile x') = rejections
  end.
Proof.
  intros Hst Hle Hcb Hslot Hdoc H. cbv zeta.
  unfold _on_activity in H.
  pose proof (record_activity_counters (now env) (_activity_window x)
                (_cognitive_profile x)) as [Ev Erj].
  destruct (record_activity (now env) (_activity_window x, _cognitive_profile x))
    as [w pa].
  cbn [snd] in Ev, Erj. rewrite <- Ev, <- Erj. clear Ev Erj.
  cbn [_current_doc_id] in H. rewrite Hdoc in H.
  match type of H with
  | Py.bind (answering _ ?y) _ = _ => set (xa := y) in *
  end.
  destruct (answering env xa) as [s1 |] eqn:Ea; [| discriminate H ].
  cbn [Py.bind] in H.
  assert (Hcall : calls_back (_timer_manager x) = true).
  { unfold calls_back. rewrite Hst.
    destruct (_cognitive_decision_callback (_timer_manager x));
      [ apply Z.leb_le, Hle | congruence ]. }
  destruct (answering_cases env xa s1 Ea)
    as [[Hno _] | (_ & [c d] & _ & ->)];
    [ subst xa; cbn [_timer_manager] in Hno; congruence |].
  subst xa. cbn [_timer_manager] in H.
  destruct (_timer_manager x)
    as [state tot buf pts idl lim cb slot tick btm] eqn:Et.
  cbn in Hst, Hle, Hslot. subst state slot.
  apply Z.leb_le in Hle.
  unfold run_method, on_activity_detected in H.
  cbn [_state set_callback _idle_seconds _t_limit_minutes
       _cognitive_decision_callback] in H.
  rewrite Hle in H.
  destruct d;
    match type of H with
    | (let '(_, _) := ?r in _) = _ =>
        let r' := eval cbn in r in change r with r' in H
    end;
    cbv iota beta in H;
    destruct (deliver_counters env _ _ _ H) as [Hv Hr];
    destruct (deliver_fields env _ _ _ H) as (Etm & _);
    cbn [_cognitive_profile _timer_manager with_timer] in Hv, Hr, Etm;
    rewrite Etm, Hv, Hr; cbn; repeat split; lia.
Qed.

Lemma auto_decision_is_learnt_witness :
  exists x',
    _on_activity morning
      (pausing (in_flow (with_counts 20 20 0 0 0 0 0 0 0 0)) None 500 90)
    = Some x'
    /\ _total_seconds (_timer_manager x') = 590
    /\ _total_validations (_cognitive_profile x') = 21.
Proof.
  eexists. split; [ vm_compute; reflexivity |].
  match goal with
  | |- _total_seconds (_timer_manager ?x') = _ /\ _ =>
      pose proof
        (auto_decision_is_learnt morning
           (pausing (in_flow (with_counts 20 20 0 0 0 0 0 0 0 0)) None 500 90)
           x' eq_refl ltac:(vm_compute; discriminate)
           ltac:(discriminate) eq_refl eq_refl
           ltac:(vm_compute; reflexivity)) as H
  end.
  cbn in H. split; apply H.
Defined.

(** X26: an undo corrects the timer and teaches the opposite.  With a
    decision to undo, [_on_notification_undo] clears it, takes the
    seconds of an accept off the total (not below 0) or adds those of a
    discard, and records a sample of the opposite kind: one more
    rejection after an accept, one more validation after a discard; the
    sample the decision itself recorded stays.  With none it changes
    nothing. *)
Theorem undo_teaches_the_opposite (env : Env) (x x' : WorkTimerExtension) :
  _on_notification_undo env x = Some x' ->
  match _last_auto_decision (_timer_manager x) with
  | Some (was_accepted, seconds, _) =>
      _last_auto_decision (_timer_manager x') = None
      /\ _total_seconds (_timer_manager x')
         = (if was_accepted
            then Z.max 0 (_total_seconds (_timer_manager x) - seconds)
            else _total_seconds (_timer_manager x) + seconds)
      /\ _state (_timer_manager x') = _state (_timer_manager x)
      /\ _total_validations (_cognitive_profile x')
         = _total_validations (_cognitive_profile x)
           + (if was_accepted then 0 else 1)
      /\ _total_rejections (_cognitive_profile x')
         = _total_rejections (_cognitive_profile x)
           + (if was_accepted then 1 else 0)
  | None => x' = x
  end.
Proof.
  unfold _on_notification_undo, undo_last_auto_decision. intros H.
  destruct (_last_auto_decision (_timer_manager x)) as [[[a secs] c] |] eqn:Es.
  - match type of H with
    | (let '(_, _) := ?r in _) = _ => destruct r as [s' sigs] eqn:ER
    end.
    destruct (deliver env (with_timer x s') sigs) as [x1 |] eqn:Ed;
      [| discriminate H ].
    cbn [Py.bind] in H.
    destruct (record_validation env (_cognitive_profile x1) secs (negb a)
                (_current_file_hash x1)) as [p |] eqn:Er; [| discriminate H ].
    cbn [Py.bind] in H. injection H as <-.
    destruct (deliver_counters env _ _ _ Ed) as [Hv Hr].
    destruct (deliver_fields env _ _ _ Ed) as (Etm & _).
    destruct (record_validation_counters _ _ _ _ _ _ Er) as (Ev & Erj & _).
    cbn [_cognitive_profile _timer_manager with_timer with_profile]
      in Hv, Hr, Etm |- *.
    rewrite Etm, Ev, Erj, Hv, Hr.
    destruct (_timer_manager x)
      as [state tot buf pts idl lim cb slot tick btm].
    destruct a; cbn in ER; injection ER as <- <-; cbn; repeat split; lia.
  - cbn in H. injection H as <-. destruct x as [st t p w h doc lat].
    cbn. destruct t. reflexivity.
Qed.

Lemma undo_teaches_the_opposite_witness :
  exists x',
    _on_notification_undo morning (decided Profile.init None 590 true 90)
    = Some x'
    /\ _total_seconds (_timer_manager x') = 500
    /\ _total_rejections (_cognitive_profile x') = 1.
Proof.
  eexists. split; [ vm_compute; reflexivity |].
  match goal with
  | |- _total_seconds (_timer_manager ?x') = _ /\ _ =>
      pose proof
        (undo_teaches_the_opposite morning
           (decided Profile.init None 590 true 90) x'
           ltac:(vm_compute; reflexivity)) as H
  end.
  cbn in H. split; apply H.
Defined.

(** X27: a new profile always asks.  With fewer than 10 samples recorded
    in a profile produced by the program, activity after a pause within
    the limit raises the question, whatever the pause, the document and
    the clock: the handler returns, the timer waits in COGNITIVE_CHECK
    with its total, idle seconds and undo slot as they were, and the
    profile's counters are unchanged. *)
Theorem new_profile_always_asks (env : Env) (x : WorkTimerExtension) :
  reached (_cognitive_profile x) ->
  _total_validations (_cognitive_profile x)
  + _total_rejections (_cognitive_profile x) < 10 ->
  _state (_timer_manager x) = PAUSED ->
  _idle_seconds (_timer_manager x) <= _t_limit_minutes (_timer_manager x) * 60 ->
  _cognitive_decision_callback (_timer_manager x) <> None ->
  truthy (_current_doc_id x) = true ->
  exists x',
    _on_activity env x = Some x'
    /\ _state (_timer_manager x') = COGNITIVE_CHECK
    /\ _total_seconds (_timer_manager x') = _total_seconds (_timer_manager x)
    /\ _idle_seconds (_timer_manager x') = _idle_seconds (_timer_manager x)
    /\ _last_auto_decision (_timer_manager x')
       = _last_auto_decision (_timer_manager x)
    /\ _total_validations (_cognitive_profile x')
       = _total_validations (_cognitive_profile x)
    /\ _total_rejections (_cognitive_profile x')
       = _total_rejections (_cognitive_profile x).
Proof.
  intros Hr Hlt Hst Hle Hcb Hdoc.
  unfold _on_activity.
  pose proof (record_activity_counters (now env) (_activity_window x)
                (_cognitive_profile x)) as [Ev Erj].
  pose proof (reached_record_activity (now env) (_activity_window x) _ Hr)
    as Hra.
  destruct (record_activity (now env) (_activity_window x, _cognitive_profile x))
    as [w pa].
  cbn [snd] in Ev, Erj, Hra.
  cbn [_current_doc_id]. rewrite Hdoc.
  destruct (few_samples_ask env pa (_idle_seconds (_timer_manager x))
              (_current_file_hash x) Hra ltac:(lia)) as (c & f & Ec).
  unfold answering, run_method, calls_back, _get_cognitive_decision.
  cbn [_timer_manager _cognitive_profile _current_file_hash].
  rewrite Hst, Ec.
  destruct (_timer_manager x)
    as [state tot buf pts idl lim cb slot tick btm] eqn:Et.
  cbn in Hst, Hle, Hcb |- *. subst state.
  destruct cb as [cb |]; [| congruence ].
  apply Z.leb_le in Hle. cbn. rewrite Hle. cbn. rewrite Hle. cbn.
  eexists. split; [ reflexivity |]. cbn. repeat split; assumption.
Qed.

Lemma new_profile_always_asks_witness :
  exists x',
    _on_activity morning (pausing Profile.init None 500 90) = Some x'
    /\ _state (_timer_manager x') = COGNITIVE_CHECK.
Proof.
  destruct (new_profile_always_asks morning (pausing Profile.init None 500 90)
              reached_init ltac:(cbn; lia) eq_refl ltac:(cbn; lia)
              ltac:(discriminate) eq_refl)
    as (x' & H & Hs & _).
  exists x'. split; assumption.
Defined.

Lemma update_project_work_time_spec (p : CognitiveProfile) (h : string)
    (total_seconds : Z) :
  let p' := update_project_work_time p h total_seconds in
  Py.dict_get (_project_modifiers p') h
  = Some (with_work_time total_seconds (modifier_of p h))
  /\ (forall k, k <> h ->
      Py.dict_get (_project_modifiers p') k
      = Py.dict_get (_project_modifiers p) k)
  /\ _buckets p' = _buckets p
  /\ _recent_pauses p' = _recent_pauses p.
Proof.
  cbv zeta. unfold update_project_work_time, modifier_of.
  cbn [_project_modifiers with_modifiers _buckets _recent_pauses].
  destruct (Py.dict_get (_project_modifiers p) h) as [known |] eqn:Eg.
  - rewrite dict_get_adjust_same, Eg. repeat split.
    intros k Hk. apply dict_get_adjust_other, Hk.
  - rewrite dict_get_adjust_same, dict_get_set_same. repeat split.
    intros k Hk. rewrite dict_get_adjust_other by exact Hk.
    apply dict_get_set_other, Hk.
Qed.

(** What [_handle_saved_document] leaves for a file with a hash: the
    slot of [time_updated] has run on the new hash before the session
    starts. *)
Lemma handle_saved_document_eq env x h existing_time :
  h <> EmptyString ->
  _handle_saved_document env x (Some h) existing_time
  = Some {|
      _storage := _storage x;
      _timer_manager :=
        fst (Timer.start
               (set_total (Z.max 0 existing_time) (_timer_manager x)));
      _cognitive_profile :=
        update_project_work_time
          (start_session env
             (update_project_work_time (_cognitive_profile x) h
                (Z.max 0 existing_time))
             (Some h))
          h existing_time;
      _activity_window := _activity_window x;
      _current_file_hash := Some h;
      _current_doc_id := _current_doc_id x;
      x_last_activity_time := x_last_activity_time x |}.
Proof.
  intros Hne. apply String.eqb_neq in Hne.
  unfold _handle_saved_document. rewrite Hne.
  unfold call, run_method.
  cbn [Timer.set_total_seconds Timer.run Timer.assign Timer.emit fold_left
       fst snd app _timer_manager].
  cbn [deliver slot Py.bind _on_time_updated _current_file_hash with_timer].
  rewrite Hne.
  cbn [with_profile with_timer _timer_manager _storage _cognitive_profile
       _activity_window _current_file_hash _current_doc_id
       x_last_activity_time].
  change (_total_seconds
            (set_total (Z.max 0 existing_time) (_timer_manager x)))
    with (Z.max 0 existing_time).
  set (s := set_total (Z.max 0 existing_time) (_timer_manager x)).
  destruct (start s) as [s' sigs] eqn:Es. cbn [fst].
  assert (Hs : sigs = [] \/ exists st, sigs = [state_changed st]).
  { revert Es. unfold start.
    destruct (_state s) eqn:E;
      [| intros [= _ <-]; left; reflexivity .. ].
    cbn [run]. unfold _set_state. rewrite E. cbn.
    intros [= _ <-]. right. eexists. reflexivity. }
  destruct Hs as [-> | (st & ->)]; reflexivity.
Qed.


(** X21: opening a saved document.  [_handle_saved_document] for a file
    with a hash returns; it leaves the project of the file with the
    given work time, one session more than it had (1 on the first
    opening: the slot of [time_updated] creates the modifier before the
    session is started) and its validation counts as they were; it
    starts the session at the clock's time with no focus loss and no
    bursts, touches no other project, bucket or pause, sets the timer's
    total to the time found (0 if that is negative) and starts a
    stopped timer. *)
Theorem opening_a_saved_document
    (env : Env) (x : WorkTimerExtension) (h : string) (existing_time : Z) :
  h <> EmptyString ->
  exists x',
    _handle_saved_document env x (Some h) existing_time = Some x'
    /\ (exists m,
          Py.dict_get (_project_modifiers (_cognitive_profile x')) h = Some m
          /\ total_work_time m = existing_time
          /\ session_count m
             = session_count (modifier_of (_cognitive_profile x) h) + 1
          /\ pm_total_validations m
             = pm_total_validations (modifier_of (_cognitive_profile x) h)
          /\ pm_total_rejections m
             = pm_total_rejections (modifier_of (_cognitive_profile x) h))
    /\ (forall k, k <> h ->
        Py.dict_get (_project_modifiers (_cognitive_profile x')) k
        = Py.dict_get (_project_modifiers (_cognitive_profile x)) k)
    /\ _session_start_time (_cognitive_profile x') = now env
    /\ _focus_lost_count (_cognitive_profile x') = 0%float
    /\ _activity_bursts (_cognitive_profile x') = []
    /\ _buckets (_cognitive_profile x') = _buckets (_cognitive_profile x)
    /\ _recent_pauses (_cognitive_profile x')
       = _recent_pauses (_cognitive_profile x)
    /\ _current_file_hash x' = Some h
    /\ _total_seconds (_timer_manager x') = Z.max 0 existing_time
    /\ _state (_timer_manager x')
       = match _state (_timer_manager x) with
         | STOPPED => RUNNING
         | st => st
         end.
Proof.
  intros Hne. eexists. split; [ apply handle_saved_document_eq, Hne |].
  cbn [_cognitive_profile _current_file_hash _timer_manager].
  set (p := _cognitive_profile x).
  destruct (update_project_work_time_spec p h (Z.max 0 existing_time))
    as (Hg1 & Ho1 & Hb1 & Hr1).
  set (p1 := update_project_work_time p h (Z.max 0 existing_time)) in *.
  destruct (session_then_work_time env p1 h existing_time Hne)
    as ((m & Hg & Hw & Hs & Hv & Hj) & Ho & Ht & Hf & Ha & Hb & Hr).
  rewrite Hg1 in Hs. unfold modifier_of in Hv, Hj. rewrite Hg1 in Hv, Hj.
  cbn [session_count pm_total_validations pm_total_rejections
       with_work_time] in Hs, Hv, Hj.
  split; [ exists m; auto |].
  split; [ intros k Hk; rewrite (Ho k Hk); apply Ho1, Hk |].
  split; [ exact Ht |]. split; [ exact Hf |]. split; [ exact Ha |].
  split; [ congruence |]. split; [ congruence |].
  split; [ reflexivity |].
  unfold start.
  change (_state (set_total (Z.max 0 existing_time) (_timer_manager x)))
    with (_state (_timer_manager x)).
  destruct (_state (_timer_manager x)) eqn:E;
    [| cbn [fst]; split; [ reflexivity | exact E ] .. ].
  cbn [run]. unfold _set_state.
  change (_state (set_total (Z.max 0 existing_time) (_timer_manager x)))
    with (_state (_timer_manager x)).
  rewrite E. cbn. split; reflexivity.
Qed.

Lemma opening_a_saved_document_witness :
  exists x' m,
    _handle_saved_document morning (createActions (Extension.init Storage.init))
      (Some "a1b2"%string) 3600 = Some x'
    /\ Py.dict_get (_project_modifiers (_cognitive_profile x')) "a1b2"
       = Some m
    /\ total_work_time m = 3600 /\ session_count m = 1
    /\ _state (_timer_manager x') = RUNNING.
Proof.
  destruct (opening_a_saved_document morning
              (createActions (Extension.init Storage.init)) "a1b2" 3600
              ltac:(discriminate))
    as (x' & Hx & (m & Hg & Hw & Hs & _) & _ & _ & _ & _ & _ & _ & _ & _ & Hst).
  exists x', m. repeat split; assumption.
Defined.

End ExtensionLaws.
